(** * chefGPT: the subscription-gated usage-accounting pipeline

    A shallow embedding of the Express server of the repository: the
    persistence helpers of [server/src/config/database.js], the plan table of
    [services/stripeService], the middleware of [middleware/auth]
    ([authenticateToken], [checkSubscriptionLimits], [requirePlan],
    [incrementUsage]), the route tables of the [routes/] files and the Stripe
    webhook of [routes/subscription.routes].

    JavaScript strings are [string], database integers are [Z], a table is the
    list of its rows, and a call that may throw runs in the monad [M], which
    threads the world (store, clock, event log) and keeps the writes made
    before a throw. *)

From Stdlib Require Import ZArith Ascii String List Bool Lia.
From Stdlib Require DecimalString DecimalN Nnat.
Import ListNotations.

Local Open Scope string_scope.
Local Open Scope Z_scope.

(** ** JavaScript values and operators used by the server *)

Module Js.

(** What a property read such as [limits[plan]] can evaluate to: a number
    stored in the object, [undefined], or a member inherited from
    [Object.prototype] (a function or object, which is truthy). *)
Inductive Value :=
| Number (z : Z)
| Undefined
| Inherited (key : string).

(** The property names every object literal inherits from
    [Object.prototype]. *)
Definition object_prototype_keys : list string :=
  [ "constructor"; "hasOwnProperty"; "isPrototypeOf"; "propertyIsEnumerable";
    "toLocaleString"; "toString"; "valueOf"; "__proto__";
    "__defineGetter__"; "__defineSetter__"; "__lookupGetter__";
    "__lookupSetter__" ].

Fixpoint own_property (props : list (string * Z)) (key : string) : option Z :=
  match props with
  | [] => None
  | (k, v) :: rest => if String.eqb k key then Some v else own_property rest key
  end.

Definition mem (key : string) (keys : list string) : bool :=
  existsb (String.eqb key) keys.

(** [obj[key]] on an object literal with number-valued own properties:
    own properties first, then the prototype chain. *)
Definition get (props : list (string * Z)) (key : string) : Value :=
  match own_property props key with
  | Some v => Number v
  | None => if mem key object_prototype_keys then Inherited key else Undefined
  end.

Definition truthy (v : Value) : bool :=
  match v with
  | Number z => negb (z =? 0)
  | Undefined => false
  | Inherited _ => true
  end.

(** [a || b] *)
Definition or (a b : Value) : Value := if truthy a then a else b.

(** [s || d] on a possibly missing string: [null], [undefined] and the
    empty string are falsy. *)
Definition or_string (s : option string) (d : string) : string :=
  match s with
  | Some v => if String.eqb v "" then d else v
  | None => d
  end.

(** [a !== b] on strings. *)
Definition strict_neq (a b : string) : bool := negb (String.eqb a b).

(** [s.split(' ')] *)
Fixpoint split_space (s : string) : list string :=
  match s with
  | EmptyString => [ "" ]
  | String c rest =>
      if Ascii.eqb c " "%char then "" :: split_space rest
      else match split_space rest with
           | [] => [ String c "" ]
           | w :: ws => String c w :: ws
           end
  end.

(** [arr.includes(x)] on an array of strings. *)
Definition includes (arr : list string) (x : string) : bool := mem x arr.

Inductive Error :=
| PGRST116                     (* PostgREST: not exactly one row for .single() *)
| UniqueViolation
| InvalidColumnValue
| TypeError (msg : string)
| ErrorMsg (msg : string)
| JsonWebTokenError
| TokenExpiredError.

End Js.

(** ** Persisted rows *)

Record UserRow := {
  u_id : string;
  u_email : string;
  u_name : string;
  u_password_hash : string;
  stripe_customer_id : option string
}.

Record SubscriptionRow := {
  s_user_id : string;
  s_plan : string;
  s_status : string;
  stripe_subscription_id : option string;
  current_period_start : option Z;
  current_period_end : option Z
}.

Record UsageRow := {
  g_user_id : string;
  g_month : string;
  requests_used : Z;
  request_limit : Z
}.

Record Store := {
  users : list UserRow;
  subscriptions : list SubscriptionRow;
  usage_tracking : list UsageRow
}.

Definition empty_store : Store :=
  {| users := []; subscriptions := []; usage_tracking := [] |}.

(** ** The world a request runs in *)

Inductive Event :=
| EvRecordUsage (user_id month : string)   (* Database.incrementUsage is called *)
| EvHandler (route : string).              (* the route's handler body starts *)

Record World := {
  db : Store;
  now_month : string;          (* what Database.getCurrentMonth() returns *)
  upstream_ok : bool;          (* the calls inside the next handler's [try]
                                  succeed: the generation provider and, where
                                  the handler saves its result, the insert *)
  trace : list Event           (* oldest first *)
}.

Definition with_db (w : World) (s : Store) : World :=
  {| db := s; now_month := now_month w; upstream_ok := upstream_ok w;
     trace := trace w |}.

Definition log_event (e : Event) (w : World) : World :=
  {| db := db w; now_month := now_month w; upstream_ok := upstream_ok w;
     trace := trace w ++ [e] |}.

(** ** Computations that may throw *)

Inductive Outcome (A : Type) :=
| Ok (a : A)
| Throw (e : Js.Error).
Arguments Ok {A} a.
Arguments Throw {A} e.

Definition M (A : Type) : Type := World -> Outcome A * World.

Definition ret {A} (a : A) : M A := fun w => (Ok a, w).

Definition throw {A} (e : Js.Error) : M A := fun w => (Throw e, w).

Definition bind {A B} (c : M A) (k : A -> M B) : M B :=
  fun w => match c w with
           | (Ok a, w') => k a w'
           | (Throw e, w') => (Throw e, w')
           end.

(** [try { c } catch (error) { h error }] *)
Definition try_catch {A} (c : M A) (h : Js.Error -> M A) : M A :=
  fun w => match c w with
           | (Ok a, w') => (Ok a, w')
           | (Throw e, w') => h e w'
           end.

Definition get_db : M Store := fun w => (Ok (db w), w).
Definition put_db (s : Store) : M unit := fun w => (Ok tt, with_db w s).
Definition emit (e : Event) : M unit := fun w => (Ok tt, log_event e w).

Declare Scope js_scope.
Delimit Scope js_scope with js.
Notation "x <- c1 ;; c2" := (bind c1 (fun x => c2))
  (at level 100, c1 at next level, right associativity) : js_scope.
Notation "c1 ;;; c2" := (bind c1 (fun _ => c2))
  (at level 100, right associativity) : js_scope.
Local Open Scope js_scope.

(** ** [server/src/config/database.js] *)

Module Database.

(** [.single()]: the one row, or the PGRST116 error when the filter keeps
    no row or several. *)
Definition single {A} (rows : list A) : Outcome A :=
  match rows with
  | [r] => Ok r
  | _ => Throw Js.PGRST116
  end.

Definition lift {A} (o : Outcome A) : M A := fun w => (o, w).

(** [if (error && error.code !== 'PGRST116') throw error; return data;] *)
Definition data_or_null {A} (rows : list A) : option A :=
  match rows with
  | [r] => Some r
  | _ => None
  end.

Definition by_email (email : string) (u : UserRow) : bool :=
  String.eqb (u_email u) email.
Definition by_id (id : string) (u : UserRow) : bool :=
  String.eqb (u_id u) id.
Definition by_user_id (id : string) (s : SubscriptionRow) : bool :=
  String.eqb (s_user_id s) id.
Definition by_stripe_id (sid : string) (s : SubscriptionRow) : bool :=
  match stripe_subscription_id s with
  | Some x => String.eqb x sid
  | None => false
  end.
Definition by_user_month (id month : string) (r : UsageRow) : bool :=
  String.eqb (g_user_id r) id && String.eqb (g_month r) month.

(** [createUser]: the primary key comes from [gen_random_uuid()], here the
    [id] handed in; [email] is UNIQUE. *)
Definition createUser (id email name password_hash : string) : M UserRow :=
  s <- get_db ;;
  if existsb (by_email email) (users s) || existsb (by_id id) (users s)
  then throw Js.UniqueViolation
  else
    let row := {| u_id := id; u_email := email; u_name := name;
                  u_password_hash := password_hash;
                  stripe_customer_id := None |} in
    put_db {| users := users s ++ [row];
              subscriptions := subscriptions s;
              usage_tracking := usage_tracking s |} ;;;
    ret row.

Definition getUserByEmail (email : string) : M (option UserRow) :=
  s <- get_db ;;
  ret (data_or_null (filter (by_email email) (users s))).

Definition getUserById (id : string) : M UserRow :=
  s <- get_db ;;
  lift (single (filter (by_id id) (users s))).

(** [updateUser(id, { stripe_customer_id })] *)
Definition updateUser (id : string) (customer : string) : M UserRow :=
  s <- get_db ;;
  match filter (by_id id) (users s) with
  | [u] =>
      let u' := {| u_id := u_id u; u_email := u_email u; u_name := u_name u;
                   u_password_hash := u_password_hash u;
                   stripe_customer_id := Some customer |} in
      put_db {| users := map (fun r => if by_id id r then u' else r) (users s);
                subscriptions := subscriptions s;
                usage_tracking := usage_tracking s |} ;;;
      ret u'
  | _ => throw Js.PGRST116
  end.

(** [createSubscription({ user_id, plan, status })] *)
Definition createSubscription (user_id plan status : string) : M SubscriptionRow :=
  s <- get_db ;;
  let row := {| s_user_id := user_id; s_plan := plan; s_status := status;
                stripe_subscription_id := None;
                current_period_start := None;
                current_period_end := None |} in
  put_db {| users := users s;
            subscriptions := subscriptions s ++ [row];
            usage_tracking := usage_tracking s |} ;;;
  ret row.

Definition getSubscriptionByUserId (user_id : string) : M (option SubscriptionRow) :=
  s <- get_db ;;
  ret (data_or_null (filter (by_user_id user_id) (subscriptions s))).

(** The [updates] object of [updateSubscription]: a column that is present
    is overwritten, also with [null]. *)
Record SubscriptionUpdates := {
  set_plan : option string;
  set_status : option string;
  set_stripe_subscription_id : option (option string);
  set_current_period_start : option (option Z);
  set_current_period_end : option (option Z)
}.

Definition pick {A} (new : option A) (old : A) : A :=
  match new with Some v => v | None => old end.

Definition apply_updates (u : SubscriptionUpdates) (r : SubscriptionRow) : SubscriptionRow :=
  {| s_user_id := s_user_id r;
     s_plan := pick (set_plan u) (s_plan r);
     s_status := pick (set_status u) (s_status r);
     stripe_subscription_id :=
       pick (set_stripe_subscription_id u) (stripe_subscription_id r);
     current_period_start :=
       pick (set_current_period_start u) (current_period_start r);
     current_period_end :=
       pick (set_current_period_end u) (current_period_end r) |}.

(** [.update(updates).eq('user_id', userId).select().single()]: a singular
    response that is not exactly one row is an error and the write is not
    kept. *)
Definition updateSubscription (user_id : string) (u : SubscriptionUpdates)
  : M SubscriptionRow :=
  s <- get_db ;;
  match filter (by_user_id user_id) (subscriptions s) with
  | [r] =>
      put_db {| users := users s;
                subscriptions :=
                  map (fun x => if by_user_id user_id x then apply_updates u x else x)
                      (subscriptions s);
                usage_tracking := usage_tracking s |} ;;;
      ret (apply_updates u r)
  | _ => throw Js.PGRST116
  end.

Definition getSubscriptionByStripeId (sid : string) : M SubscriptionRow :=
  s <- get_db ;;
  lift (single (filter (by_stripe_id sid) (subscriptions s))).

(** The [limits] object literal of [getRequestLimitForPlan]. *)
Definition limits : list (string * Z) :=
  [ ("free", 5); ("basic", 50); ("pro", -1); ("pro_yearly", -1) ].

(** [return limits[plan] || 5;] *)
Definition getRequestLimitForPlan (plan : string) : Js.Value :=
  Js.or (Js.get limits plan) (Js.Number 5).

Definition getCurrentMonth : M string := fun w => (Ok (now_month w), w).

(** [getOrCreateUsageTracking]: the existing row, or a fresh one whose limit
    is looked up from the user's plan. [request_limit] is an integer column:
    a value that is not a number is refused by the insert. *)
Definition getOrCreateUsageTracking (user_id month : string) : M UsageRow :=
  s <- get_db ;;
  match filter (by_user_month user_id month) (usage_tracking s) with
  | [existing] => ret existing
  | [] =>
      subscription <- getSubscriptionByUserId user_id ;;
      match getRequestLimitForPlan
              (Js.or_string (option_map s_plan subscription) "free") with
      | Js.Number requestLimit =>
          let row := {| g_user_id := user_id; g_month := month;
                        requests_used := 0; request_limit := requestLimit |} in
          s' <- get_db ;;
          put_db {| users := users s';
                    subscriptions := subscriptions s';
                    usage_tracking := usage_tracking s' ++ [row] |} ;;;
          ret row
      | _ => throw Js.InvalidColumnValue
      end
  | _ => throw Js.UniqueViolation   (* UNIQUE(user_id, month) refuses the insert *)
  end.

Definition update_usage (user_id month : string) (f : UsageRow -> UsageRow)
  : M UsageRow :=
  s <- get_db ;;
  match filter (by_user_month user_id month) (usage_tracking s) with
  | [r] =>
      put_db {| users := users s;
                subscriptions := subscriptions s;
                usage_tracking :=
                  map (fun x => if by_user_month user_id month x then f x else x)
                      (usage_tracking s) |} ;;;
      ret (f r)
  | _ => throw Js.PGRST116
  end.

(** [incrementUsage(userId, month)] builds the argument of [.update()] as
    [{ requests_used: supabase.sql`requests_used + 1` }]. The client that
    [createClient] returns has no member [sql], so the tagged template is a
    call of [undefined]: it throws a TypeError while the argument is
    evaluated, before any request is sent, and the [catch] of the helper
    logs and rethrows. Nothing is written. *)
Definition incrementUsage (user_id month : string) : M UsageRow :=
  throw (Js.TypeError "supabase.sql is not a function").

(** [.update({ requests_used: 0 })] *)
Definition resetMonthlyUsage (user_id month : string) : M UsageRow :=
  update_usage user_id month
    (fun r => {| g_user_id := g_user_id r; g_month := g_month r;
                 requests_used := 0;
                 request_limit := request_limit r |}).

(** The webhook calls [Database.updateUsageTracking(userId, month, updates)].
    The class [Database] (database.js:20-417) declares no static method of
    that name, so the property read is [undefined] and the call throws a
    TypeError before anything is written. *)
Definition updateUsageTracking (user_id month : string) (new_limit : Js.Value)
  : M UsageRow :=
  throw (Js.TypeError "Database.updateUsageTracking is not a function").

End Database.

(** ** [server/src/services/stripeService] *)

Module StripeService.

(** The fields of a [SubscriptionPlan] the server reads. *)
Record SubscriptionPlan := {
  id : string;
  name : string;
  stripePriceId : string;
  requestLimit : Z
}.

Definition SUBSCRIPTION_PLANS : list SubscriptionPlan :=
  [ {| id := "free"; name := "Free"; stripePriceId := ""; requestLimit := 5 |};
    {| id := "basic"; name := "Basic Chef";
       stripePriceId := "price_basic_monthly"; requestLimit := 50 |};
    {| id := "pro"; name := "Pro Chef";
       stripePriceId := "price_pro_monthly"; requestLimit := -1 |};
    {| id := "pro_yearly"; name := "Pro Chef (Yearly)";
       stripePriceId := "price_pro_yearly"; requestLimit := -1 |} ].

Definition getPlanByPriceId (priceId : string) : option SubscriptionPlan :=
  find (fun plan => String.eqb (stripePriceId plan) priceId) SUBSCRIPTION_PLANS.

Definition getPlanById (planId : string) : option SubscriptionPlan :=
  find (fun plan => String.eqb (id plan) planId) SUBSCRIPTION_PLANS.

(** [event.data.object] of the subscription events. *)
Record Subscription := {
  sub_id : string;
  customer : string;
  sub_status : string;
  items : list string;            (* items.data[i].price.id *)
  period_start : Z;
  period_end : Z
}.

(** [event.data.object] of the invoice events. *)
Record Invoice := {
  invoice_id : string;
  invoice_subscription : option string
}.

(** A Stripe event, by [event.type]. *)
Inductive StripeEvent :=
| customer_subscription_created (s : Subscription)
| customer_subscription_updated (s : Subscription)
| customer_subscription_deleted (s : Subscription)
| invoice_payment_succeeded (i : Invoice)
| invoice_payment_failed (i : Invoice)
| other_event (type : string).

Section Webhooks.

(** [stripe.webhooks.constructEvent(body, signature, secret)] of the Stripe
    SDK: the verified event, or a throw. *)
Variable constructEvent : string -> option string -> Outcome StripeEvent.

Definition handleWebhook (body : string) (signature : option string)
  : M StripeEvent :=
  try_catch (Database.lift (constructEvent body signature))
            (fun _ => throw (Js.ErrorMsg "Invalid webhook signature")).

End Webhooks.

End StripeService.

(** ** Requests, responses and middleware chains *)

(** [req.user.subscription] *)
Record SubscriptionView := {
  plan : string;
  status : string;
  requestsUsed : Z;
  requestLimit : Z
}.

(** [req.user], which is also the payload the auth routes sign into a token. *)
Record ReqUser := {
  id : string;
  email : string;
  stripeCustomerId : option string;
  subscription : SubscriptionView
}.

Record Request := {
  authorization : option string;   (* req.headers['authorization'] *)
  validation_error : bool;         (* schema.validate(req.body).error is set *)
  file_present : bool;             (* multer found the 'image' part *)
  file_too_large : bool;           (* the part exceeds the 5MB limit *)
  user : option ReqUser            (* req.user *)
}.

Definition set_user (req : Request) (u : ReqUser) : Request :=
  {| authorization := authorization req;
     validation_error := validation_error req;
     file_present := file_present req;
     file_too_large := file_too_large req;
     user := Some u |}.

(** The JSON answers of the server: the HTTP status and the body fields that
    tell the answers apart. *)
Record Response := {
  res_status : Z;
  res_success : option bool;
  res_message : option string;
  res_code : option string;
  res_requestsUsed : option Z;
  res_requestLimit : option Z;
  res_received : option bool
}.

Definition json (st : Z) (ok : bool) (msg : string) : Response :=
  {| res_status := st; res_success := Some ok; res_message := Some msg;
     res_code := None; res_requestsUsed := None; res_requestLimit := None;
     res_received := None |}.

Definition json_code (st : Z) (msg code : string) : Response :=
  {| res_status := st; res_success := Some false; res_message := Some msg;
     res_code := Some code; res_requestsUsed := None; res_requestLimit := None;
     res_received := None |}.

(** What a middleware does: call [next()] or answer. *)
Inductive Step :=
| Next (req : Request)
| Send (res : Response).

Definition Middleware : Type := Request -> M Step.

Record Route := {
  path : string;
  chain : list Middleware;
  handler : Request -> M Response
}.

Fixpoint run_chain (ms : list Middleware) (h : Request -> M Response)
  (req : Request) : M Response :=
  match ms with
  | [] => h req
  | m :: rest =>
      step <- m req ;;
      match step with
      | Next req' => run_chain rest h req'
      | Send res => ret res
      end
  end.

(** [middleware/errorHandler]: the answer to an error no route caught. *)
Definition errorHandler (e : Js.Error) : Response :=
  json 500 false "Internal server error".

Definition serve (r : Route) (req : Request) (w : World) : Response * World :=
  match run_chain (chain r) (handler r) req w with
  | (Ok res, w') => (res, w')
  | (Throw e, w') => (errorHandler e, w')
  end.

(** [middleware/validation]: [validateRequest(schema)] *)
Definition validateRequest : Middleware :=
  fun req =>
    if validation_error req
    then ret (Send (json 400 false "Validation error"))
    else ret (Next req).

(** [upload.single('image')] of multer with [limits.fileSize]. *)
Definition upload_single : Middleware :=
  fun req =>
    if file_too_large req then throw (Js.ErrorMsg "File too large")
    else ret (Next req).

(** [const token = authHeader && authHeader.split(' ')[1];] *)
Definition bearer_token (authHeader : option string) : option string :=
  match authHeader with
  | None => None
  | Some h => if String.eqb h "" then Some "" else nth_error (Js.split_space h) 1
  end.

(** [if (!token) { return res.status(401)... }] in front of the rest of the
    middleware: [undefined] and the empty string are falsy. *)
Definition require_token (token : option string) (k : string -> M Step) : M Step :=
  match token with
  | Some t =>
      if String.eqb t ""
      then ret (Send (json 401 false "Access token required"))
      else k t
  | None => ret (Send (json 401 false "Access token required"))
  end.

(** ** [middleware/auth], the variant that reads the store
    (second document of [routes/chat.routes.js]) *)

Module Auth.

Section Jwt.

(** [jwt.verify(token, process.env.JWT_SECRET)]: the decoded payload, or a
    throw ([JsonWebTokenError] for a malformed token or a bad signature,
    [TokenExpiredError] after expiry). *)
Variable jwt_verify : string -> Outcome ReqUser.

Definition authenticateToken : Middleware :=
  fun req =>
    require_token (bearer_token (authorization req)) (fun token =>
      try_catch
        (decoded <- Database.lift (jwt_verify token) ;;
         (* Get fresh user data from database; getUserById throws when the
            row is missing, so [if (!user)] never fires *)
         u <- Database.getUserById (id decoded) ;;
         (* Get current subscription and usage *)
         sub <- Database.getSubscriptionByUserId (u_id u) ;;
         currentMonth <- Database.getCurrentMonth ;;
         usage <- Database.getOrCreateUsageTracking (u_id u) currentMonth ;;
         ret (Next (set_user req
                {| id := u_id u;
                   email := u_email u;
                   stripeCustomerId := stripe_customer_id u;
                   subscription :=
                     {| plan := Js.or_string (option_map s_plan sub) "free";
                        status := Js.or_string (option_map s_status sub) "active";
                        requestsUsed := requests_used usage;
                        requestLimit := request_limit usage |} |})))
        (fun _ => ret (Send (json 403 false "Invalid or expired token")))).

End Jwt.

Definition checkSubscriptionLimits : Middleware :=
  fun req =>
    match user req with
    | None => ret (Send (json 401 false "Authentication required"))
    | Some u =>
        let subscription := subscription u in
        (* Check if subscription is active *)
        if Js.strict_neq (status subscription) "active"
           && Js.strict_neq (plan subscription) "free"
        then ret (Send (json_code 403 "Active subscription required"
                                  "SUBSCRIPTION_REQUIRED"))
        (* Check request limits (unlimited = -1) *)
        else if negb (requestLimit subscription =? -1)
                && (requestsUsed subscription >=? requestLimit subscription)
        then ret (Send
               {| res_status := 429; res_success := Some false;
                  res_message :=
                    Some "Monthly request limit exceeded. Please upgrade your plan.";
                  res_code := Some "LIMIT_EXCEEDED";
                  res_requestsUsed := Some (requestsUsed subscription);
                  res_requestLimit := Some (requestLimit subscription);
                  res_received := None |})
        else ret (Next req)
    end.

Definition requirePlan (requiredPlans : list string) : Middleware :=
  fun req =>
    match user req with
    | None => ret (Send (json 401 false "Authentication required"))
    | Some u =>
        if negb (Js.includes requiredPlans (plan (subscription u)))
        then ret (Send (json_code 403
                          ("This feature requires "
                             ++ String.concat " or " requiredPlans ++ " plan")
                          "PLAN_UPGRADE_REQUIRED"))
        else ret (Next req)
    end.

Definition incrementUsage : Middleware :=
  fun req =>
    try_catch
      (match user req with
       | Some u =>
           if negb (requestLimit (subscription u) =? -1)
           then
             currentMonth <- Database.getCurrentMonth ;;
             emit (EvRecordUsage (id u) currentMonth) ;;;
             _ <- Database.incrementUsage (id u) currentMonth ;;
             ret (Next req)
           else ret (Next req)
       | None => ret (Next req)
       end)
      (fun _ => ret (Next req)).   (* Continue even if usage tracking fails *)

End Auth.

(** ** [middleware/auth], the variant that trusts the token
    ([unnamed/part_002], and [unnamed/part_014] in plain JavaScript) *)

Module AuthTs.

Section Jwt.

Variable jwt_verify : string -> Outcome ReqUser.

Definition authenticateToken : Middleware :=
  fun req =>
    require_token (bearer_token (authorization req)) (fun token =>
      try_catch
        (decoded <- Database.lift (jwt_verify token) ;;
         ret (Next (set_user req decoded)))      (* req.user = decoded *)
        (fun _ => ret (Send (json 403 false "Invalid or expired token")))).

End Jwt.

(** Same text as in the other variant. *)
Definition checkSubscriptionLimits : Middleware := Auth.checkSubscriptionLimits.
Definition requirePlan : list string -> Middleware := Auth.requirePlan.

End AuthTs.

(** ** The route tables of [server/src/routes] *)

(** The body of a generation handler:
    [try { provider call; save; res.json } catch { res.status(500) }]. The
    handlers of POST /recipes/generate and POST /meal-plans/generate save the
    result with [Database.createRecipe] / [createMealPlan] inside the same
    [try]; the [recipes] and [meal_plans] tables are not part of [Store], so
    the outcome of that insert is, with the provider's, what [upstream_ok]
    says: the answer is 200 when every call in the [try] succeeds and 500
    when one of them throws. *)
Definition generation_handler (route ok_message fail_message : string)
  : Request -> M Response :=
  fun _ =>
    emit (EvHandler route) ;;;
    fun w => if upstream_ok w
             then (Ok (json 200 true ok_message), w)
             else (Ok (json 500 false fail_message), w).

Module Routes.

Section Jwt.

Variable jwt_verify : string -> Outcome ReqUser.

(** [unnamed/part_000]: [router.post('/generate', ...)] *)
Definition recipes_generate : Route :=
  {| path := "POST /recipes/generate";
     chain := [ Auth.authenticateToken jwt_verify;
                Auth.checkSubscriptionLimits;
                validateRequest;
                Auth.incrementUsage ];
     handler := generation_handler "POST /recipes/generate"
                  "Recipe generated successfully" "Failed to generate recipe" |}.

(** [unnamed/part_000]: [router.post('/substitutions', ...)] *)
Definition recipes_substitutions : Route :=
  {| path := "POST /recipes/substitutions";
     chain := [ Auth.authenticateToken jwt_verify;
                Auth.requirePlan [ "basic"; "pro"; "pro_yearly" ];
                Auth.checkSubscriptionLimits;
                validateRequest;
                Auth.incrementUsage ];
     handler := generation_handler "POST /recipes/substitutions"
                  "Substitutions found successfully"
                  "Failed to generate substitutions" |}.

(** [unnamed/part_015]: [router.post('/generate', ...)] of the meal plans *)
Definition meal_plans_generate : Route :=
  {| path := "POST /meal-plans/generate";
     chain := [ Auth.authenticateToken jwt_verify;
                Auth.checkSubscriptionLimits;
                validateRequest;
                Auth.incrementUsage ];
     handler := generation_handler "POST /meal-plans/generate"
                  "Meal plan generated successfully"
                  "Failed to generate meal plan" |}.

(** [routes/image.routes.ts]; it imports the TypeScript middleware. *)
Definition images_analyze : Route :=
  {| path := "POST /images/analyze";
     chain := [ AuthTs.authenticateToken jwt_verify;
                AuthTs.requirePlan [ "pro"; "pro_yearly" ];
                AuthTs.checkSubscriptionLimits;
                upload_single ];
     handler := fun req =>
       emit (EvHandler "POST /images/analyze") ;;;
       if negb (file_present req)
       then ret (json 400 false "No image file provided")
       else ret (json 200 true "Image analyzed successfully") |}.

(** [routes/recipe.routes.js]: the earlier recipe router, which mounts no
    [incrementUsage]. *)
Definition recipes_generate_legacy : Route :=
  {| path := "POST /recipes/generate";
     chain := [ AuthTs.authenticateToken jwt_verify;
                AuthTs.checkSubscriptionLimits;
                validateRequest ];
     handler := generation_handler "POST /recipes/generate"
                  "Recipe generated successfully" "Failed to generate recipe" |}.

End Jwt.

(** [routes/nutrition.routes.ts] *)
Definition nutrition_analyze : Route :=
  {| path := "POST /nutrition/analyze";
     chain := [ validateRequest ];
     handler := generation_handler "POST /nutrition/analyze"
                  "Nutrition analysis completed successfully"
                  "Failed to analyze nutrition" |}.

(** [routes/chat.routes.js] *)
Definition chat_message : Route :=
  {| path := "POST /chat/message";
     chain := [ validateRequest ];
     handler := generation_handler "POST /chat/message"
                  "Chat response generated successfully"
                  "Failed to process chat message" |}.

(** [routes/mealplan.routes.ts]: the earlier meal-plan router. *)
Definition meal_plans_generate_legacy : Route :=
  {| path := "POST /meal-plans/generate";
     chain := [ validateRequest ];
     handler := generation_handler "POST /meal-plans/generate"
                  "Meal plan generated successfully"
                  "Failed to generate meal plan" |}.

End Routes.

(** ** [routes/subscription.routes] with the store ([unnamed/part_004]) *)

Module Subscriptions.

Definition received_true : Response :=
  {| res_status := 200; res_success := None; res_message := None;
     res_code := None; res_requestsUsed := None; res_requestLimit := None;
     res_received := Some true |}.

(** [a !== b] between the stored limit and a looked-up limit. *)
Definition limit_differs (stored : Z) (looked_up : Js.Value) : bool :=
  match looked_up with
  | Js.Number z => negb (stored =? z)
  | _ => true
  end.

(** [subscription.items.data[0].price.id] *)
Definition first_price (s : StripeService.Subscription) : M string :=
  match StripeService.items s with
  | p :: _ => ret p
  | [] => throw (Js.TypeError "Cannot read properties of undefined")
  end.

(** [if (invoice.subscription)] *)
Definition truthy_ref (r : option string) : option string :=
  match r with
  | Some s => if String.eqb s "" then None else Some s
  | None => None
  end.

(** The [switch (event.type)] of the webhook. *)
Definition handle_event (event : StripeService.StripeEvent) : M unit :=
  match event with
  | StripeService.customer_subscription_created subscription
  | StripeService.customer_subscription_updated subscription =>
      (* Find user by Stripe customer ID *)
      u <- Database.getUserByEmail (StripeService.customer subscription) ;;
      match u with
      | Some u =>
          (* Get plan from price ID *)
          price <- first_price subscription ;;
          match StripeService.getPlanByPriceId price with
          | Some plan =>
              (* Update subscription in database *)
              _ <- Database.updateSubscription (u_id u)
                     {| Database.set_plan := Some (StripeService.id plan);
                        Database.set_status :=
                          Some (StripeService.sub_status subscription);
                        Database.set_stripe_subscription_id :=
                          Some (Some (StripeService.sub_id subscription));
                        Database.set_current_period_start :=
                          Some (Some (StripeService.period_start subscription * 1000));
                        Database.set_current_period_end :=
                          Some (Some (StripeService.period_end subscription * 1000)) |} ;;
              (* Update usage tracking with new limits *)
              currentMonth <- Database.getCurrentMonth ;;
              usage <- Database.getOrCreateUsageTracking (u_id u) currentMonth ;;
              if limit_differs (request_limit usage)
                   (Database.getRequestLimitForPlan (StripeService.id plan))
              then
                _ <- Database.updateUsageTracking (u_id u) currentMonth
                       (Database.getRequestLimitForPlan (StripeService.id plan)) ;;
                ret tt
              else ret tt
          | None => ret tt
          end
      | None => ret tt
      end
  | StripeService.customer_subscription_deleted deletedSubscription =>
      (* Update subscription to free plan *)
      cancelledSub <- Database.getSubscriptionByStripeId
                        (StripeService.sub_id deletedSubscription) ;;
      _ <- Database.updateSubscription (s_user_id cancelledSub)
             {| Database.set_plan := Some "free";
                Database.set_status := Some "cancelled";
                Database.set_stripe_subscription_id := Some None;
                Database.set_current_period_start := Some None;
                Database.set_current_period_end := Some None |} ;;
      (* Reset usage tracking to free limits *)
      currentMonth <- Database.getCurrentMonth ;;
      _ <- Database.getOrCreateUsageTracking (s_user_id cancelledSub) currentMonth ;;
      ret tt
  | StripeService.invoice_payment_succeeded invoice =>
      (* Reset monthly usage on successful payment *)
      match truthy_ref (StripeService.invoice_subscription invoice) with
      | Some sid =>
          sub <- Database.getSubscriptionByStripeId sid ;;
          currentMonth <- Database.getCurrentMonth ;;
          _ <- Database.resetMonthlyUsage (s_user_id sub) currentMonth ;;
          ret tt
      | None => ret tt
      end
  | StripeService.invoice_payment_failed failedInvoice =>
      match truthy_ref (StripeService.invoice_subscription failedInvoice) with
      | Some sid =>
          sub <- Database.getSubscriptionByStripeId sid ;;
          _ <- Database.updateSubscription (s_user_id sub)
                 {| Database.set_plan := None;
                    Database.set_status := Some "past_due";
                    Database.set_stripe_subscription_id := None;
                    Database.set_current_period_start := None;
                    Database.set_current_period_end := None |} ;;
          ret tt
      | None => ret tt
      end
  | StripeService.other_event _ => ret tt
  end.

Section Stripe.

Variable constructEvent :
  string -> option string -> Outcome StripeService.StripeEvent.

(** [router.post('/webhook', ...)]: one [try] around verification and the
    [switch]; its [catch] answers 400. *)
Definition webhook (body : string) (signature : option string) : M Response :=
  try_catch
    (event <- StripeService.handleWebhook constructEvent body signature ;;
     handle_event event ;;;
     ret received_true)
    (fun _ => ret (json 400 false "Webhook error")).

End Stripe.

Section Jwt.

Variable jwt_verify : string -> Outcome ReqUser.

(** [router.get('/status', authenticateToken, ...)] *)
Definition status_route : Route :=
  {| path := "GET /subscriptions/status";
     chain := [ Auth.authenticateToken jwt_verify ];
     handler := fun _ =>
       ret (json 200 true "Subscription status retrieved successfully") |}.

(** [router.post('/create-checkout-session', authenticateToken, ...)];
    [created] is what [StripeService.createCustomer] answers when it is
    called (the new customer id) and [session] what
    [StripeService.createSubscription] answers. *)
Definition create_checkout_session (planId : string)
  (created session : Outcome string) : Route :=
  {| path := "POST /subscriptions/create-checkout-session";
     chain := [ Auth.authenticateToken jwt_verify ];
     handler := fun req =>
       try_catch
         (match user req with
          | None => throw (Js.TypeError "Cannot read properties of undefined")
          | Some u =>
              match StripeService.getPlanById planId with
              | Some plan =>
                  if String.eqb (StripeService.id plan) "free"
                  then ret (json 400 false "Invalid subscription plan")
                  else
                    (* Create or get Stripe customer *)
                    match truthy_ref (stripeCustomerId u) with
                    | Some _ =>
                        _ <- Database.lift session ;;
                        ret (json 200 true "Checkout session created successfully")
                    | None =>
                        _ <- Database.getUserById (id u) ;;
                        customerId <- Database.lift created ;;
                        (* Update user with Stripe customer ID *)
                        _ <- Database.updateUser (id u) customerId ;;
                        _ <- Database.lift session ;;
                        ret (json 200 true "Checkout session created successfully")
                    end
              | None => ret (json 400 false "Invalid subscription plan")
              end
          end)
         (fun _ => ret (json 500 false "Failed to create checkout session")) |}.

End Jwt.

End Subscriptions.

(** ** [routes/auth.routes.js] with the store *)

Module AuthRoutes.

(** [router.post('/register', ...)]; [new_id] is the key the database
    generates and [hashedPassword] the answer of bcrypt. *)
Definition register (invalid : bool) (new_id email name hashedPassword : string)
  : M Response :=
  if invalid then ret (json 400 false "Validation error")
  else
    try_catch
      (existingUser <- Database.getUserByEmail email ;;
       match existingUser with
       | Some _ => ret (json 400 false "User already exists")
       | None =>
           u <- Database.createUser new_id email name hashedPassword ;;
           (* Create default subscription *)
           _ <- Database.createSubscription (u_id u) "free" "active" ;;
           (* Create initial usage tracking *)
           currentMonth <- Database.getCurrentMonth ;;
           _ <- Database.getOrCreateUsageTracking (u_id u) currentMonth ;;
           ret (json 201 true "User registered successfully")
       end)
      (fun _ => ret (json 500 false "Registration failed")).

(** [router.post('/login', ...)]; [isValidPassword] is the answer of
    [bcrypt.compare]. *)
Definition login (invalid : bool) (email : string) (isValidPassword : bool)
  : M Response :=
  if invalid then ret (json 400 false "Validation error")
  else
    try_catch
      (u <- Database.getUserByEmail email ;;
       match u with
       | None => ret (json 401 false "Invalid credentials")
       | Some u =>
           if negb isValidPassword
           then ret (json 401 false "Invalid credentials")
           else
             (* Get subscription and usage data *)
             _ <- Database.getSubscriptionByUserId (u_id u) ;;
             currentMonth <- Database.getCurrentMonth ;;
             _ <- Database.getOrCreateUsageTracking (u_id u) currentMonth ;;
             ret (json 200 true "Login successful")
       end)
      (fun _ => ret (json 500 false "Login failed")).

End AuthRoutes.

(** * Properties *)

(** ** Vocabulary *)

(** A middleware answers the request itself, with a response satisfying [P],
    and leaves the world as it was. *)
Definition rejects_with (m : Middleware) (req : Request) (w : World)
  (P : Response -> Prop) : Prop :=
  exists res, m req w = (Ok (Send res), w) /\ P res.

(** A middleware hands the request, unchanged, to the next step. *)
Definition passes (m : Middleware) (req : Request) (w : World) : Prop :=
  m req w = (Ok (Next req), w).

(** The QuotaExceeded answer: 429, LIMIT_EXCEEDED, with the two numbers. *)
Definition QuotaExceeded (s : SubscriptionView) (res : Response) : Prop :=
  res_status res = 429
  /\ res_code res = Some "LIMIT_EXCEEDED"
  /\ res_requestsUsed res = Some (requestsUsed s)
  /\ res_requestLimit res = Some (requestLimit s).

(** The EntitlementInactive answer: 403, SUBSCRIPTION_REQUIRED. *)
Definition EntitlementInactive (res : Response) : Prop :=
  res_status res = 403 /\ res_code res = Some "SUBSCRIPTION_REQUIRED".

(** ** Sample data *)

Module Sample.

Definition july : string := "2025-07".

Definition world (s : Store) : World :=
  {| db := s; now_month := july; upstream_ok := true; trace := [] |}.

Definition view (p st : string) (used limit : Z) : SubscriptionView :=
  {| plan := p; status := st; requestsUsed := used; requestLimit := limit |}.

Definition req_user (p st : string) (used limit : Z) : ReqUser :=
  {| id := "u1"; email := "ana@example.com"; stripeCustomerId := Some "cus_1";
     subscription := view p st used limit |}.

(** A request with a valid body and the given header. *)
Definition request (header : option string) : Request :=
  {| authorization := header; validation_error := false;
     file_present := true; file_too_large := false; user := None |}.

Definition authenticated (p st : string) (used limit : Z) : Request :=
  set_user (request (Some "Bearer t1")) (req_user p st used limit).

Definition ana : UserRow :=
  {| u_id := "u1"; u_email := "ana@example.com"; u_name := "Ana";
     u_password_hash := "$2a$10$hash"; stripe_customer_id := Some "cus_1" |}.

Definition sub_row (p st : string) (sid : option string) : SubscriptionRow :=
  {| s_user_id := "u1"; s_plan := p; s_status := st;
     stripe_subscription_id := sid;
     current_period_start := None; current_period_end := None |}.

Definition usage_row (used limit : Z) : UsageRow :=
  {| g_user_id := "u1"; g_month := july;
     requests_used := used; request_limit := limit |}.

(** One user, one subscription row, one usage row for the current month. *)
Definition store (p st : string) (sid : option string) (used limit : Z) : Store :=
  {| users := [ ana ];
     subscriptions := [ sub_row p st sid ];
     usage_tracking := [ usage_row used limit ] |}.

(** A token verifier that knows one token, ["t1"], issued to Ana when she
    was on the free plan with nothing used; ["old"] has expired and anything
    else is not a token. *)
Definition jwt_verify (token : string) : Outcome ReqUser :=
  if String.eqb token "t1" then Ok (req_user "free" "active" 0 5)
  else if String.eqb token "old" then Throw Js.TokenExpiredError
  else Throw Js.JsonWebTokenError.

End Sample.

(** ** Route families *)

(** The routes that mount [authenticateToken] in front of a generation
    handler. *)
Definition gated_routes (jwt_verify : string -> Outcome ReqUser) : list Route :=
  [ Routes.recipes_generate jwt_verify;
    Routes.recipes_substitutions jwt_verify;
    Routes.meal_plans_generate jwt_verify;
    Routes.images_analyze jwt_verify;
    Routes.recipes_generate_legacy jwt_verify ].

(** The routes that also mount [incrementUsage]. *)
Definition metered_routes (jwt_verify : string -> Outcome ReqUser) : list Route :=
  [ Routes.recipes_generate jwt_verify;
    Routes.recipes_substitutions jwt_verify;
    Routes.meal_plans_generate jwt_verify ].

(** The generation routes whose chain holds [validateRequest] alone. *)
Definition open_routes : list Route :=
  [ Routes.chat_message; Routes.nutrition_analyze ].

(** No credential reaches [jwt.verify]: no header, or no second field. *)
Definition credential_missing (req : Request) : Prop :=
  bearer_token (authorization req) = None
  \/ bearer_token (authorization req) = Some "".

(** A token is presented and [jwt.verify] throws on it (malformed, bad
    signature or expired). *)
Definition credential_refused (jwt_verify : string -> Outcome ReqUser)
  (req : Request) : Prop :=
  exists token e,
    bearer_token (authorization req) = Some token
    /\ token <> ""
    /\ jwt_verify token = Throw e.

(** ** Reachable worlds *)

(** The invariant of §3 on one usage row. *)
Definition within_limit (r : UsageRow) : Prop :=
  request_limit r <> -1 -> requests_used r <= request_limit r.

(** The clock moves and the generation provider comes and goes. *)
Definition set_env (w : World) (month : string) (upstream : bool) : World :=
  {| db := db w; now_month := month; upstream_ok := upstream; trace := trace w |}.

Section Reachability.

Variable jwt_verify : string -> Outcome ReqUser.
Variable constructEvent :
  string -> option string -> Outcome StripeService.StripeEvent.

(** Every router of the server that is modelled with a fixed chain. *)
Definition all_routes : list Route :=
  gated_routes jwt_verify ++ open_routes
    ++ [ Routes.meal_plans_generate_legacy;
         Subscriptions.status_route jwt_verify ].

(** The worlds the server can be in: it starts on empty tables and then
    serves one operation after the other, each run to its end. *)
Inductive reachable : World -> Prop :=
| reach_start (month : string) (upstream : bool) :
    reachable {| db := empty_store; now_month := month;
                 upstream_ok := upstream; trace := [] |}
| reach_env (w : World) (month : string) (upstream : bool) :
    reachable w -> reachable (set_env w month upstream)
| reach_register (w : World) (invalid : bool)
    (new_id email name hashedPassword : string) :
    reachable w ->
    reachable (snd (AuthRoutes.register invalid new_id email name hashedPassword w))
| reach_login (w : World) (invalid : bool) (email : string)
    (isValidPassword : bool) :
    reachable w ->
    reachable (snd (AuthRoutes.login invalid email isValidPassword w))
| reach_serve (w : World) (r : Route) (req : Request) :
    reachable w -> In r all_routes ->
    reachable (snd (serve r req w))
| reach_checkout (w : World) (planId : string)
    (created session : Outcome string) (req : Request) :
    reachable w ->
    reachable (snd (serve (Subscriptions.create_checkout_session jwt_verify
                             planId created session) req w))
| reach_webhook (w : World) (body : string) (signature : option string) :
    reachable w ->
    reachable (snd (Subscriptions.webhook constructEvent body signature w)).

End Reachability.

(** ** The inductive form of the usage invariant *)

(** What the proof carries: a limit is -1 or a non-negative cap that the
    counter has not passed. *)
Definition row_ok (r : UsageRow) : Prop :=
  request_limit r = -1 \/ (0 <= request_limit r /\ requests_used r <= request_limit r).

Definition usage_ok (w : World) : Prop := Forall row_ok (usage_tracking (db w)).

(** A computation keeps the invariant, whatever it answers. *)
Definition keeps {A} (c : M A) : Prop :=
  forall w o w', c w = (o, w') -> usage_ok w -> usage_ok w'.

(** ** What the store-reading middleware establishes *)

(** [req.user.subscription] holds what the store holds for that user: the plan
    and status of the subscription row (free and active when there is none, or
    when the column is empty) and the two numbers of the month's usage row. *)
Definition view_of_store (w : World) (u : ReqUser) (row : UsageRow) : Prop :=
  filter (Database.by_user_month (id u) (now_month w)) (usage_tracking (db w))
  = [row]
  /\ requestsUsed (subscription u) = requests_used row
  /\ requestLimit (subscription u) = request_limit row
  /\ plan (subscription u)
     = Js.or_string
         (option_map s_plan
            (Database.data_or_null
               (filter (Database.by_user_id (id u)) (subscriptions (db w)))))
         "free"
  /\ status (subscription u)
     = Js.or_string
         (option_map s_status
            (Database.data_or_null
               (filter (Database.by_user_id (id u)) (subscriptions (db w)))))
         "active".

(** The effect of one run of [authenticateToken] from [w] to [w'] with
    outcome [o]: it never throws, it leaves clock, log, users and
    subscriptions alone, it keeps the usage invariant, and on [next()] the
    request carries the view of the store as it then is. *)
Definition reads_store (req : Request) (w w' : World) (o : Outcome Step) : Prop :=
  now_month w' = now_month w /\ upstream_ok w' = upstream_ok w
  /\ trace w' = trace w
  /\ users (db w') = users (db w)
  /\ subscriptions (db w') = subscriptions (db w)
  /\ (usage_ok w -> usage_ok w')
  /\ exists step, o = Ok step
     /\ forall req', step = Next req' ->
        exists u row, req' = set_user req u /\ view_of_store w' u row.

(** ** The shape of one request's events *)




(** The effect of the tail of a metered chain (enforce, validate, record,
    handler) run from [w] to [w'] for the authenticated user [u]. *)
Definition metered_effect (p : string) (u : ReqUser) (w w' : World)
  (o : Outcome Response) : Prop :=
  (usage_ok w -> usage_ok w')
  /\ exists res, o = Ok res
     /\ (trace w' = trace w
         \/ (trace w' = (trace w ++ [ EvHandler p ])%list
             /\ requestLimit (subscription u) = -1)
         \/ (trace w' = (trace w ++ [ EvRecordUsage (id u) (now_month w);
                                      EvHandler p ])%list
             /\ requestLimit (subscription u) <> -1)).

(** The effect of one request to a metered route [r], served from [w] to [w']:
    the usage invariant is kept, and the log grows by nothing, or by the
    handler alone for a user whose month has no cap, or by the usage record
    and then the handler for a user whose month is capped. [w1] is the world
    [authenticateToken] left. *)
Definition metered_run (r : Route) (w w1 w' : World) : Prop :=
  (usage_ok w -> usage_ok w')
  /\ (trace w' = trace w
      \/ exists u row,
           view_of_store w1 u row
           /\ ((trace w' = (trace w ++ [ EvHandler (path r) ])%list
                /\ request_limit row = -1)
               \/ (trace w' = (trace w ++ [ EvRecordUsage (id u) (now_month w);
                                            EvHandler (path r) ])%list
                   /\ request_limit row <> -1))).

(** ** Sample notifications *)

Module SampleStripe.

(** Ana's subscription to the basic plan, as Stripe reports it: the customer
    field is her Stripe customer id. *)
Definition basic_subscription (customer_ref : string) : StripeService.Subscription :=
  {| StripeService.sub_id := "sub_1";
     StripeService.customer := customer_ref;
     StripeService.sub_status := "active";
     StripeService.items := [ "price_basic_monthly" ];
     StripeService.period_start := 1751328000;
     StripeService.period_end := 1754006400 |}.

Definition paid_invoice : StripeService.Invoice :=
  {| StripeService.invoice_id := "in_1";
     StripeService.invoice_subscription := Some "sub_1" |}.

(** A verifier that accepts every body and reads it as [event]. *)
Definition accept (event : StripeService.StripeEvent)
  : string -> option string -> Outcome StripeService.StripeEvent :=
  fun _ _ => Ok event.

(** August: Ana has a paid subscription and only July's usage row. *)
Definition august (s : Store) : World :=
  {| db := s; now_month := "2025-08"; upstream_ok := true; trace := [] |}.

End SampleStripe.

(** ** A sample run *)

Module SampleRun.

Definition start : World :=
  {| db := empty_store; now_month := Sample.july; upstream_ok := true;
     trace := [] |}.

(** Ana registers; the database gives her the key ["u1"]. *)
Definition registered : World :=
  snd (AuthRoutes.register false "u1" "ana@example.com" "Ana" "$2a$10$hash" start).

(** Ana asks for a recipe with her token. *)
Definition ask (w : World) : Response * World :=
  serve (Routes.recipes_generate Sample.jwt_verify)
    (Sample.request (Some "Bearer t1")) w.

Definition after_five : World :=
  snd (ask (snd (ask (snd (ask (snd (ask (snd (ask registered))))))))).

Definition after_six : World := snd (ask after_five).

End SampleRun.

(** * More of the server *)

(** ** Effects of computations *)

(** Every run of [c] takes a world to one related to it by [R], whatever [c]
    answers. *)
Definition relates (R : World -> World -> Prop) {A : Type} (c : M A) : Prop :=
  forall w o w', c w = (o, w') -> R w w'.

(** One operation of the server, run to its end. *)
Inductive operation (jwt_verify : string -> Outcome ReqUser)
  (constructEvent : string -> option string -> Outcome StripeService.StripeEvent)
  : World -> World -> Prop :=
| op_register (w : World) (invalid : bool)
    (new_id email name hashedPassword : string) :
    operation jwt_verify constructEvent w
      (snd (AuthRoutes.register invalid new_id email name hashedPassword w))
| op_login (w : World) (invalid : bool) (email : string) (isValidPassword : bool) :
    operation jwt_verify constructEvent w
      (snd (AuthRoutes.login invalid email isValidPassword w))
| op_serve (w : World) (r : Route) (req : Request) :
    In r (all_routes jwt_verify) ->
    operation jwt_verify constructEvent w (snd (serve r req w))
| op_checkout (w : World) (planId : string) (created session : Outcome string)
    (req : Request) :
    operation jwt_verify constructEvent w
      (snd (serve (Subscriptions.create_checkout_session jwt_verify planId
                     created session) req w))
| op_webhook (w : World) (body : string) (signature : option string) :
    operation jwt_verify constructEvent w
      (snd (Subscriptions.webhook constructEvent body signature w)).

(** The key of a usage row, and the part of a row that is fixed when the row
    is created. *)
Definition usage_key (r : UsageRow) : string * string :=
  (g_user_id r, g_month r).

Definition key_and_limit (r : UsageRow) : string * string * Z :=
  (g_user_id r, g_month r, request_limit r).

(** From [w] to [w'] the usage table kept its rows, in place, each with its
    key and its limit; rows may have been added at the end. *)
Definition limit_snapshot (w w' : World) : Prop :=
  exists fresh,
    map key_and_limit (usage_tracking (db w'))
    = (map key_and_limit (usage_tracking (db w)) ++ fresh)%list.


(** The plan identifiers of [SUBSCRIPTION_PLANS]. *)
Definition plan_ids : list string :=
  map StripeService.id StripeService.SUBSCRIPTION_PLANS.

(** The PlanUpgradeRequired answer: 403, PLAN_UPGRADE_REQUIRED. *)
Definition PlanUpgradeRequired (res : Response) : Prop :=
  res_status res = 403 /\ res_code res = Some "PLAN_UPGRADE_REQUIRED".

(** The usage row [r] with nothing used. *)
Definition none_used (r : UsageRow) : UsageRow :=
  {| g_user_id := g_user_id r; g_month := g_month r;
     requests_used := 0; request_limit := request_limit r |}.

(** The table [rows] with [f] applied to the rows of one user and month. *)
Definition on_user_month (uid month : string) (f : UsageRow -> UsageRow)
  (rows : list UsageRow) : list UsageRow :=
  map (fun x => if Database.by_user_month uid month x then f x else x) rows.

(** What [authenticateToken] (store variant) puts in [req.user] for the user
    row [u], the subscription row [sub] (if any) and the usage row [row]. *)
Definition user_view (u : UserRow) (sub : option SubscriptionRow) (row : UsageRow)
  : ReqUser :=
  {| id := u_id u;
     email := u_email u;
     stripeCustomerId := stripe_customer_id u;
     subscription :=
       {| plan := Js.or_string (option_map s_plan sub) "free";
          status := Js.or_string (option_map s_status sub) "active";
          requestsUsed := requests_used row;
          requestLimit := request_limit row |} |}.

(** The subscription row [getSubscriptionByUserId] answers in store [s]. *)
Definition subscription_of (s : Store) (uid : string) : option SubscriptionRow :=
  Database.data_or_null (filter (Database.by_user_id uid) (subscriptions s)).

(** Identity and entitlement are as they were. *)
Definition same_accounts (w w' : World) : Prop :=
  users (db w') = users (db w) /\ subscriptions (db w') = subscriptions (db w).

(** The users, the clock and the event log are as they were. *)
Definition same_users_and_log (w w' : World) : Prop :=
  users (db w') = users (db w) /\ trace w' = trace w
  /\ now_month w' = now_month w.

(** The table [rows] with [f] applied to the subscription rows of one user. *)
Definition on_user (uid : string) (f : SubscriptionRow -> SubscriptionRow)
  (rows : list SubscriptionRow) : list SubscriptionRow :=
  map (fun x => if Database.by_user_id uid x then f x else x) rows.

(** The subscription row [r] after the webhook has handled the deletion of
    its Stripe subscription: the [updates] object of that branch applied. *)
Definition cancelled (r : SubscriptionRow) : SubscriptionRow :=
  Database.apply_updates
    {| Database.set_plan := Some "free";
       Database.set_status := Some "cancelled";
       Database.set_stripe_subscription_id := Some None;
       Database.set_current_period_start := Some None;
       Database.set_current_period_end := Some None |} r.


(** A store [s] with other subscription rows, or other usage rows. *)
Definition with_subscriptions (s : Store) (rows : list SubscriptionRow) : Store :=
  {| users := users s; subscriptions := rows; usage_tracking := usage_tracking s |}.

Definition with_usage (s : Store) (rows : list UsageRow) : Store :=
  {| users := users s; subscriptions := subscriptions s; usage_tracking := rows |}.

(** The rows a successful registration adds. *)
Definition new_user (new_id email name hashedPassword : string) : UserRow :=
  {| u_id := new_id; u_email := email; u_name := name;
     u_password_hash := hashedPassword; stripe_customer_id := None |}.

Definition free_subscription (uid : string) : SubscriptionRow :=
  {| s_user_id := uid; s_plan := "free"; s_status := "active";
     stripe_subscription_id := None;
     current_period_start := None; current_period_end := None |}.

Definition fresh_usage (uid month : string) (limit : Z) : UsageRow :=
  {| g_user_id := uid; g_month := month; requests_used := 0;
     request_limit := limit |}.

(** A string without the space character. *)
Fixpoint no_space (s : string) : bool :=
  match s with
  | EmptyString => true
  | String c rest => negb (Ascii.eqb c " "%char) && no_space rest
  end.

(** A verified notification the webhook has nothing to do for in store [s]:
    an event type outside the [switch], a subscription event whose customer
    field resolves to no user or whose first price is in no plan, an invoice
    without a subscription reference. *)
Definition unmatched (s : Store) (event : StripeService.StripeEvent) : Prop :=
  match event with
  | StripeService.customer_subscription_created sub
  | StripeService.customer_subscription_updated sub =>
      Database.data_or_null
        (filter (Database.by_email (StripeService.customer sub)) (users s)) = None
      \/ exists price rest,
           StripeService.items sub = price :: rest
           /\ StripeService.getPlanByPriceId price = None
  | StripeService.customer_subscription_deleted _ => False
  | StripeService.invoice_payment_succeeded inv
  | StripeService.invoice_payment_failed inv =>
      Subscriptions.truthy_ref (StripeService.invoice_subscription inv) = None
  | StripeService.other_event _ => True
  end.

(** The user row [u] with the Stripe customer id [c] stored. *)
Definition with_customer (c : string) (u : UserRow) : UserRow :=
  {| u_id := u_id u; u_email := u_email u; u_name := u_name u;
     u_password_hash := u_password_hash u; stripe_customer_id := Some c |}.

(** A store [s] with other user rows. *)
Definition with_users (s : Store) (rows : list UserRow) : Store :=
  {| users := rows; subscriptions := subscriptions s;
     usage_tracking := usage_tracking s |}.

(** The answer of the checkout handler once the customer is known, by what
    Stripe answers to the session request. *)
Definition checkout_answer (session : Outcome string) : Response :=
  match session with
  | Ok _ => json 200 true "Checkout session created successfully"
  | Throw _ => json 500 false "Failed to create checkout session"
  end.

(** Users have distinct keys and distinct e-mail addresses, and the
    subscriptions table holds one row per user, in the order of the users. *)
Definition accounts_paired (s : Store) : Prop :=
  NoDup (map u_id (users s)) /\ NoDup (map u_email (users s))
  /\ map s_user_id (subscriptions s) = map u_id (users s).

(** From [w] to [w'] the keys of the users and of the subscriptions are as
    they were. *)
Definition same_keys (w w' : World) : Prop :=
  map u_id (users (db w')) = map u_id (users (db w))
  /\ map u_email (users (db w')) = map u_email (users (db w))
  /\ map s_user_id (subscriptions (db w'))
     = map s_user_id (subscriptions (db w)).

(** Every stored plan is the id of an entry of [SUBSCRIPTION_PLANS]. *)
Definition known_plans (s : Store) : Prop :=
  Forall (fun r => In (s_plan r) plan_ids) (subscriptions s).

Definition plans_kept (w w' : World) : Prop :=
  known_plans (db w) -> known_plans (db w').

(** From [w] to [w'] nothing was metered and no handler ran: the log, the
    users and the subscriptions are as they were and so is every usage row;
    rows with nothing used may have been added. *)
Definition nothing_metered (w w' : World) : Prop :=
  trace w' = trace w /\ users (db w') = users (db w)
  /\ subscriptions (db w') = subscriptions (db w)
  /\ exists fresh,
       usage_tracking (db w') = (usage_tracking (db w) ++ fresh)%list
       /\ Forall (fun r => requests_used r = 0) fresh.

(** * The [recipes] and [meal_plans] tables *)

(** [config/database.js] has the same five helpers for the two tables, and
    the two routers the same three routes on one row; they are modelled
    once. *)
Module Documents.

(** A row of [recipes] or of [meal_plans]: its key, its owner and the other
    columns, kept as one value. *)
Record DocumentRow := {
  d_id : string;
  d_user_id : string;
  d_content : string
}.

Section Uuid.

(** Whether a text is accepted as a value of type [uuid]: [id] and [user_id]
    are [uuid] columns, and comparing one with another text is an error of
    the database. *)
Variable is_uuid : string -> bool.

(** [.eq('id', id).eq('user_id', userId)] *)
Definition by_id_and_user (rid userId : string) (r : DocumentRow) : bool :=
  String.eqb (d_id r) rid && String.eqb (d_user_id r) userId.

(** [{ data, error }] of a read ending in [.single()]. *)
Definition single_response (rows : list DocumentRow)
  : option DocumentRow * option Js.Error :=
  match rows with
  | [r] => (Some r, None)
  | _ => (None, Some Js.PGRST116)
  end.

(** [getRecipeById(id, userId)]: [if (error) throw error; return data;] *)
Definition getRecipeById (rid userId : string) (table : list DocumentRow)
  : Outcome (option DocumentRow) :=
  let '(data, error) :=
    if is_uuid rid && is_uuid userId
    then single_response (filter (by_id_and_user rid userId) table)
    else (None, Some Js.InvalidColumnValue) in
  match error with
  | Some e => Throw e
  | None => Ok data
  end.

(** [updateRecipe(id, userId, updates)]; [updates] is what the database makes
    of the object on the row it matched: the new row, or the error of a
    column or of a constraint. A singular response that is not exactly one
    row is an error and the write is not kept. *)
Definition updateRecipe (rid userId : string)
  (updates : DocumentRow -> Outcome DocumentRow) (table : list DocumentRow)
  : Outcome DocumentRow * list DocumentRow :=
  if is_uuid rid && is_uuid userId
  then
    match filter (by_id_and_user rid userId) table with
    | [r] =>
        match updates r with
        | Ok r' =>
            (Ok r',
             map (fun x => if by_id_and_user rid userId x then r' else x) table)
        | Throw e => (Throw e, table)
        end
    | _ => (Throw Js.PGRST116, table)
    end
  else (Throw Js.InvalidColumnValue, table).

(** [deleteRecipe(id, userId)]: [.delete().eq('id', id).eq('user_id', userId)]
    then [return true]. *)
Definition deleteRecipe (rid userId : string) (table : list DocumentRow)
  : Outcome bool * list DocumentRow :=
  if is_uuid rid && is_uuid userId
  then (Ok true, filter (fun r => negb (by_id_and_user rid userId r)) table)
  else (Throw Js.InvalidColumnValue, table).

(** Same text on [meal_plans]. *)
Definition getMealPlanById := getRecipeById.
Definition updateMealPlan := updateRecipe.
Definition deleteMealPlan := deleteRecipe.

(** [router.get('/:id', authenticateToken, ...)] of [unnamed/part_000]
    ([Name] is Recipe) and of [unnamed/part_015] (Meal plan): the answer and
    its [data]. Reading [req.user.id] without a user throws inside the
    [try]. *)
Definition get_one (Name name rid : string) (req : Request)
  (table : list DocumentRow) : Response * option DocumentRow :=
  match user req with
  | None => (json 500 false ("Failed to retrieve " ++ name), None)
  | Some u =>
      match getRecipeById rid (id u) table with
      | Ok None => (json 404 false (Name ++ " not found"), None)
      | Ok (Some recipe) =>
          (json 200 true (Name ++ " retrieved successfully"), Some recipe)
      | Throw _ => (json 500 false ("Failed to retrieve " ++ name), None)
      end
  end.

(** [router.put('/:id', authenticateToken, ...)] *)
Definition put_one (Name name rid : string)
  (updates : DocumentRow -> Outcome DocumentRow) (req : Request)
  (table : list DocumentRow) : Response * list DocumentRow :=
  match user req with
  | None => (json 500 false ("Failed to update " ++ name), table)
  | Some u =>
      match updateRecipe rid (id u) updates table with
      | (Ok _, table') => (json 200 true (Name ++ " updated successfully"), table')
      | (Throw _, table') => (json 500 false ("Failed to update " ++ name), table')
      end
  end.

(** [router.delete('/:id', authenticateToken, ...)] *)
Definition delete_one (Name name rid : string) (req : Request)
  (table : list DocumentRow) : Response * list DocumentRow :=
  match user req with
  | None => (json 500 false ("Failed to delete " ++ name), table)
  | Some u =>
      match deleteRecipe rid (id u) table with
      | (Ok _, table') => (json 200 true (Name ++ " deleted successfully"), table')
      | (Throw _, table') => (json 500 false ("Failed to delete " ++ name), table')
      end
  end.

End Uuid.

(** A sample: keys of 36 characters, two owners. *)
Definition sample_uuid (s : string) : bool := (String.length s =? 36)%nat.

Definition ana_id : string := "11111111-1111-4111-8111-111111111111".
Definition bo_id : string := "22222222-2222-4222-8222-222222222222".
Definition soup_id : string := "aaaaaaaa-aaaa-4aaa-8aaa-aaaaaaaaaaaa".
Definition stew_id : string := "bbbbbbbb-bbbb-4bbb-8bbb-bbbbbbbbbbbb".

Definition sample_table : list DocumentRow :=
  [ {| d_id := soup_id; d_user_id := ana_id; d_content := "Soup" |};
    {| d_id := stew_id; d_user_id := bo_id; d_content := "Stew" |} ].

Definition as_user (uid : string) : Request :=
  {| authorization := Some "Bearer t"; validation_error := false;
     file_present := false; file_too_large := false;
     user := Some {| id := uid; email := "someone@example.com";
                     stripeCustomerId := None;
                     subscription :=
                       {| plan := "free"; status := "active";
                          requestsUsed := 0; requestLimit := 5 |} |} |}.

End Documents.

(** * The month key *)

Module Clock.

(** [String(n)] for a non-negative integer. *)
Definition number_to_string (n : N) : string :=
  DecimalString.NilZero.string_of_uint (N.to_uint n).

(** [s.padStart(2, '0')] *)
Definition padStart2 (s : string) : string :=
  match String.length s with
  | O => "00"
  | S O => "0" ++ s
  | _ => s
  end.

(** [getCurrentMonth()] as a function of what [new Date()] answers:
    [year] is [now.getFullYear()] and [monthIndex] is [now.getMonth()],
    which counts from 0. *)
Definition getCurrentMonth (year monthIndex : N) : string :=
  number_to_string year ++ "-" ++ padStart2 (number_to_string (monthIndex + 1)).

Definition is_digit (c : ascii) : bool :=
  ((48 <=? nat_of_ascii c) && (nat_of_ascii c <=? 57))%nat.

Fixpoint digits_only (s : string) : bool :=
  match s with
  | EmptyString => true
  | String c rest => is_digit c && digits_only rest
  end.

End Clock.

(** ** Facts on the JavaScript operators *)

(** Unfolds the monad of [M] in the goal and the hypotheses. *)
Ltac run_m :=
  unfold bind, ret, throw, try_catch, get_db, put_db, emit, Database.lift,
    Database.getCurrentMonth in *;
  simpl in *.

Lemma strict_neq_true (a b : string) : Js.strict_neq a b = true <-> a <> b.
Proof.
  unfold Js.strict_neq. rewrite negb_true_iff. apply String.eqb_neq.
Qed.

Lemma strict_neq_false (a b : string) : Js.strict_neq a b = false <-> a = b.
Proof.
  unfold Js.strict_neq. rewrite negb_false_iff. apply String.eqb_eq.
Qed.

(** The two tests of [checkSubscriptionLimits], as propositions. *)
Lemma status_test_true (s : SubscriptionView) :
  Js.strict_neq (status s) "active" && Js.strict_neq (plan s) "free" = true
  <-> status s <> "active" /\ plan s <> "free".
Proof.
  rewrite andb_true_iff, !strict_neq_true. reflexivity.
Qed.

Lemma quota_test_true (s : SubscriptionView) :
  negb (requestLimit s =? -1) && (requestsUsed s >=? requestLimit s) = true
  <-> requestLimit s <> -1 /\ requestsUsed s >= requestLimit s.
Proof.
  rewrite andb_true_iff, negb_true_iff, Z.eqb_neq, Z.geb_le. lia.
Qed.

(** The three exits of [checkSubscriptionLimits] for an authenticated
    request. *)
Lemma checkSubscriptionLimits_cases (req : Request) (u : ReqUser) (w : World) :
  user req = Some u ->
  let s := subscription u in
  (status s <> "active" /\ plan s <> "free"
   /\ rejects_with Auth.checkSubscriptionLimits req w EntitlementInactive)
  \/ ((status s = "active" \/ plan s = "free")
      /\ requestLimit s <> -1 /\ requestsUsed s >= requestLimit s
      /\ rejects_with Auth.checkSubscriptionLimits req w (QuotaExceeded s))
  \/ ((status s = "active" \/ plan s = "free")
      /\ (requestLimit s = -1 \/ requestsUsed s < requestLimit s)
      /\ passes Auth.checkSubscriptionLimits req w).
Proof.
  intros Hu s. unfold rejects_with, passes, Auth.checkSubscriptionLimits.
  rewrite Hu. fold s.
  destruct (Js.strict_neq (status s) "active" && Js.strict_neq (plan s) "free")
    eqn:Hst.
  - apply status_test_true in Hst. left. destruct Hst as [Ha Hf].
    repeat split; auto. eexists. split; [reflexivity|]. split; reflexivity.
  - right.
    assert (Hok : status s = "active" \/ plan s = "free").
    { apply andb_false_iff in Hst. destruct Hst as [H|H];
        apply strict_neq_false in H; auto. }
    destruct (negb (requestLimit s =? -1) && (requestsUsed s >=? requestLimit s))
      eqn:Hq.
    + apply quota_test_true in Hq. left. destruct Hq as [Hl Hge].
      repeat split; auto. eexists. split; [reflexivity|].
      repeat split; reflexivity.
    + right. repeat split; auto.
      assert (Hn : ~ (requestLimit s <> -1 /\ requestsUsed s >= requestLimit s)).
      { intro H. apply quota_test_true in H. congruence. }
      lia.
Qed.

(** A rejection and a pass exclude one another, and a rejection fixes the
    response. *)
Lemma rejects_with_inv (m : Middleware) (req : Request) (w : World)
  (P Q : Response -> Prop) :
  rejects_with m req w P -> rejects_with m req w Q ->
  exists res, P res /\ Q res.
Proof.
  intros [r1 [E1 H1]] [r2 [E2 H2]]. rewrite E1 in E2.
  injection E2 as <-. exists r1. auto.
Qed.

Lemma rejects_not_passes (m : Middleware) (req : Request) (w : World)
  (P : Response -> Prop) :
  rejects_with m req w P -> ~ passes m req w.
Proof.
  intros [r [E _]] Hp. unfold passes in Hp. rewrite E in Hp. discriminate.
Qed.

(** C2. For an authenticated request whose entitlement passes the status
    check, [checkSubscriptionLimits] answers QuotaExceeded (429,
    LIMIT_EXCEEDED, with requestsUsed and requestLimit in the body) exactly
    when the limit is not -1 and the used count has reached it; in every other
    case it calls [next()] on the unchanged request. *)
Theorem quota_check_iff (req : Request) (u : ReqUser) (w : World) :
  user req = Some u ->
  status (subscription u) = "active" \/ plan (subscription u) = "free" ->
  (rejects_with Auth.checkSubscriptionLimits req w (QuotaExceeded (subscription u))
   <-> requestLimit (subscription u) <> -1
       /\ requestsUsed (subscription u) >= requestLimit (subscription u))
  /\ (~ (requestLimit (subscription u) <> -1
         /\ requestsUsed (subscription u) >= requestLimit (subscription u))
      -> passes Auth.checkSubscriptionLimits req w).
Proof.
  intros Hu Hst.
  destruct (checkSubscriptionLimits_cases req u w Hu)
    as [(Ha & Hf & _) | [(_ & Hl & Hge & Hrej) | (_ & Hfree & Hpass)]].
  - destruct Hst; contradiction.
  - split; [split; auto | intros Hn; exfalso; apply Hn; auto].
  - split.
    + split.
      * intros Hrej. exfalso. exact (rejects_not_passes _ _ _ _ Hrej Hpass).
      * intros [Hl Hge]. lia.
    + intros _. exact Hpass.
Qed.

(** C3. On plan free the status check never rejects, whatever the status; on
    any other plan [checkSubscriptionLimits] answers EntitlementInactive (403,
    SUBSCRIPTION_REQUIRED) exactly when the status is not active, and it does
    so, rather than answering QuotaExceeded, also when the user is at or over
    quota. *)
Theorem status_check_first (req : Request) (u : ReqUser) (w : World) :
  user req = Some u ->
  (plan (subscription u) = "free" ->
   ~ rejects_with Auth.checkSubscriptionLimits req w EntitlementInactive)
  /\ (plan (subscription u) <> "free" ->
      (rejects_with Auth.checkSubscriptionLimits req w EntitlementInactive
       <-> status (subscription u) <> "active")
      /\ (status (subscription u) <> "active" ->
          ~ rejects_with Auth.checkSubscriptionLimits req w
              (QuotaExceeded (subscription u)))).
Proof.
  intros Hu.
  assert (Hcodes : forall res, EntitlementInactive res ->
                     ~ QuotaExceeded (subscription u) res).
  { intros res [H403 _] [H429 _]. rewrite H403 in H429. discriminate. }
  destruct (checkSubscriptionLimits_cases req u w Hu)
    as [(Ha & Hf & Hrej) | [(Hok & Hl & Hge & Hrej) | (Hok & _ & Hpass)]].
  - split; [intros; contradiction|]. intros _. split; [split; auto|].
    intros _ Hq. destruct (rejects_with_inv _ _ _ _ _ Hrej Hq) as [r [H1 H2]].
    exact (Hcodes r H1 H2).
  - assert (Hno : ~ rejects_with Auth.checkSubscriptionLimits req w
                      EntitlementInactive).
    { intros He. destruct (rejects_with_inv _ _ _ _ _ He Hrej) as [r [H1 H2]].
      exact (Hcodes r H1 H2). }
    split; [auto|]. intros Hnf. destruct Hok as [Hact|Hfree]; [|contradiction].
    split; [split; [intros; contradiction | intros; contradiction]|].
    intros; contradiction.
  - assert (Hno : ~ rejects_with Auth.checkSubscriptionLimits req w
                      EntitlementInactive).
    { intros He. exact (rejects_not_passes _ _ _ _ He Hpass). }
    split; [auto|]. intros Hnf. destruct Hok as [Hact|Hfree]; [|contradiction].
    split; [split; [intros; contradiction | intros; contradiction]|].
    intros; contradiction.
Qed.

Lemma quota_check_iff_witness :
  rejects_with Auth.checkSubscriptionLimits
    (Sample.authenticated "free" "active" 5 5) (Sample.world empty_store)
    (QuotaExceeded (Sample.view "free" "active" 5 5))
  /\ passes Auth.checkSubscriptionLimits
       (Sample.authenticated "basic" "active" 49 50) (Sample.world empty_store).
Proof.
  split.
  - apply (quota_check_iff (Sample.authenticated "free" "active" 5 5)
             (Sample.req_user "free" "active" 5 5) (Sample.world empty_store)).
    + reflexivity.
    + left; reflexivity.
    + simpl; lia.
  - apply (quota_check_iff (Sample.authenticated "basic" "active" 49 50)
             (Sample.req_user "basic" "active" 49 50) (Sample.world empty_store)).
    + reflexivity.
    + left; reflexivity.
    + simpl; lia.
Defined.

Lemma status_check_first_witness :
  ~ rejects_with Auth.checkSubscriptionLimits
      (Sample.authenticated "free" "past_due" 1 5) (Sample.world empty_store)
      EntitlementInactive
  /\ rejects_with Auth.checkSubscriptionLimits
       (Sample.authenticated "basic" "past_due" 50 50) (Sample.world empty_store)
       EntitlementInactive.
Proof.
  split.
  - apply (status_check_first (Sample.authenticated "free" "past_due" 1 5)
             (Sample.req_user "free" "past_due" 1 5) (Sample.world empty_store)).
    + reflexivity.
    + reflexivity.
  - apply (status_check_first (Sample.authenticated "basic" "past_due" 50 50)
             (Sample.req_user "basic" "past_due" 50 50) (Sample.world empty_store)).
    + reflexivity.
    + simpl; discriminate.
    + simpl; discriminate.
Defined.

(** ** The limit table *)

Lemma getRequestLimitForPlan_table :
  Database.getRequestLimitForPlan "free" = Js.Number 5
  /\ Database.getRequestLimitForPlan "basic" = Js.Number 50
  /\ Database.getRequestLimitForPlan "pro" = Js.Number (-1)
  /\ Database.getRequestLimitForPlan "pro_yearly" = Js.Number (-1).
Proof. repeat split; reflexivity. Qed.

Lemma own_limit_values (p : string) (v : Z) :
  Js.own_property Database.limits p = Some v -> v = 5 \/ v = 50 \/ v = -1.
Proof.
  unfold Database.limits. simpl.
  repeat match goal with
         | |- context [if ?b then _ else _] => destruct b
         end; intros H; inversion H; auto.
Qed.

(** A numeric answer of the lookup is one of the three limits of the table. *)
Lemma getRequestLimitForPlan_number (p : string) (z : Z) :
  Database.getRequestLimitForPlan p = Js.Number z -> z = 5 \/ z = 50 \/ z = -1.
Proof.
  unfold Database.getRequestLimitForPlan, Js.or, Js.get.
  destruct (Js.own_property Database.limits p) as [v|] eqn:Hown.
  - apply own_limit_values in Hown. simpl.
    destruct (v =? 0) eqn:Hz; simpl; intros H; inversion H; subst; auto.
  - destruct (Js.mem p Js.object_prototype_keys); simpl; intros H;
      inversion H; auto.
Qed.

(** A plan name that is neither a key of [limits] nor a member every object
    inherits gets the free limit. *)
Lemma getRequestLimitForPlan_unknown (p : string) :
  Js.own_property Database.limits p = None ->
  Js.mem p Js.object_prototype_keys = false ->
  Database.getRequestLimitForPlan p = Js.Number 5.
Proof.
  intros Hown Hproto. unfold Database.getRequestLimitForPlan, Js.or, Js.get.
  rewrite Hown, Hproto. reflexivity.
Qed.

(** The month's row of a user whose stored plan is such a name (or who has
    no subscription row at all) is created with nothing used and the cap 5. *)
Lemma getOrCreateUsageTracking_unknown_plan (uid m : string) (w : World) :
  filter (Database.by_user_month uid m) (usage_tracking (db w)) = [] ->
  (forall sub,
     Database.data_or_null (filter (Database.by_user_id uid) (subscriptions (db w)))
     = Some sub ->
     Js.own_property Database.limits (s_plan sub) = None
     /\ Js.mem (s_plan sub) Js.object_prototype_keys = false) ->
  exists row w',
    Database.getOrCreateUsageTracking uid m w = (Ok row, w')
    /\ requests_used row = 0 /\ request_limit row = 5
    /\ usage_tracking (db w') = (usage_tracking (db w) ++ [ row ])%list.
Proof.
  intros Hnone Hplan.
  unfold Database.getOrCreateUsageTracking, Database.getSubscriptionByUserId.
  run_m. rewrite Hnone.
  assert (Hfive : Database.getRequestLimitForPlan
                    (Js.or_string
                       (option_map s_plan
                          (Database.data_or_null
                             (filter (Database.by_user_id uid)
                                (subscriptions (db w))))) "free")
                  = Js.Number 5).
  { destruct (Database.data_or_null _) as [sub|]; [|reflexivity].
    destruct (Hplan sub eq_refl) as [Hown Hproto]. simpl.
    destruct (String.eqb (s_plan sub) ""); [reflexivity|].
    apply getRequestLimitForPlan_unknown; assumption. }
  rewrite Hfive. eexists. eexists. repeat split.
Qed.

(** C10, at the plan identifier ["constructor"]. [limits] is an object
    literal, so [limits[plan]] also finds what the literal inherits from
    [Object.prototype]; the inherited member is truthy, [|| 5] does not
    apply, and the lookup answers that member instead of 5. With such a plan
    stored, the creation of the month's usage row is refused and no row
    capped at 5 comes to exist. An identifier such as ["enterprise"] does get
    5. *)
Theorem getRequestLimitForPlan_inherited_key :
  Js.own_property Database.limits "constructor" = None
  /\ Database.getRequestLimitForPlan "constructor" = Js.Inherited "constructor"
  /\ Database.getRequestLimitForPlan "constructor" <> Js.Number 5
  /\ (let s := {| users := [ Sample.ana ];
                  subscriptions := [ Sample.sub_row "constructor" "active" None ];
                  usage_tracking := [] |} in
      Database.getOrCreateUsageTracking "u1" Sample.july (Sample.world s)
      = (Throw Js.InvalidColumnValue, Sample.world s))
  /\ Database.getRequestLimitForPlan "enterprise" = Js.Number 5.
Proof.
  repeat split; try reflexivity. discriminate.
Qed.

(** ** Authentication *)

Lemma require_token_missing (req : Request) (k : string -> M Step) (w : World) :
  credential_missing req ->
  require_token (bearer_token (authorization req)) k w
  = (Ok (Send (json 401 false "Access token required")), w).
Proof.
  intros [H|H]; rewrite H; reflexivity.
Qed.

Lemma require_token_present (token : string) (k : string -> M Step) :
  token <> "" -> require_token (Some token) k = k token.
Proof.
  intros H. unfold require_token.
  destruct (String.eqb token "") eqn:E; [|reflexivity].
  apply String.eqb_eq in E. contradiction.
Qed.

(** Both variants of [authenticateToken] answer 401 without a token and 403
    when verification throws; neither touches the world. *)
Lemma authenticateToken_missing (jwt : string -> Outcome ReqUser)
  (req : Request) (w : World) :
  credential_missing req ->
  Auth.authenticateToken jwt req w
  = (Ok (Send (json 401 false "Access token required")), w)
  /\ AuthTs.authenticateToken jwt req w
     = (Ok (Send (json 401 false "Access token required")), w).
Proof.
  intros H. split; apply require_token_missing; exact H.
Qed.

Lemma authenticateToken_refused (jwt : string -> Outcome ReqUser)
  (req : Request) (w : World) :
  credential_refused jwt req ->
  Auth.authenticateToken jwt req w
  = (Ok (Send (json 403 false "Invalid or expired token")), w)
  /\ AuthTs.authenticateToken jwt req w
     = (Ok (Send (json 403 false "Invalid or expired token")), w).
Proof.
  intros (token & e & Hb & Hne & Hv).
  unfold Auth.authenticateToken, AuthTs.authenticateToken.
  rewrite Hb, !(require_token_present token _ Hne).
  run_m. rewrite Hv. split; reflexivity.
Qed.

(** A route whose first middleware answers serves that answer. *)
Lemma serve_first_sends (r : Route) (m : Middleware) (rest : list Middleware)
  (req : Request) (w : World) (res : Response) :
  chain r = m :: rest ->
  m req w = (Ok (Send res), w) ->
  serve r req w = (res, w).
Proof.
  intros Hc Hm. unfold serve. rewrite Hc. simpl. unfold bind. rewrite Hm.
  reflexivity.
Qed.

(** C7, as the code has it. On every route behind [authenticateToken], a
    request without a credential (no Authorization header, or a header
    without a second space-separated field) is answered 401 "Access token
    required", and a request whose token [jwt.verify] refuses (malformed, bad
    signature or expired) is answered 403 "Invalid or expired token"; in both
    cases nothing is read or written and no handler runs. *)
Theorem credential_failures (jwt : string -> Outcome ReqUser) (r : Route)
  (req : Request) (w : World) :
  In r (gated_routes jwt) ->
  (credential_missing req ->
   serve r req w = (json 401 false "Access token required", w))
  /\ (credential_refused jwt req ->
      serve r req w = (json 403 false "Invalid or expired token", w)).
Proof.
  intros Hin. split; intros Hc.
  - destruct (authenticateToken_missing jwt req w Hc) as [Hjs Hts].
    simpl in Hin.
    destruct Hin as [<-|[<-|[<-|[<-|[<-|[]]]]]];
      (eapply serve_first_sends; [reflexivity|assumption]).
  - destruct (authenticateToken_refused jwt req w Hc) as [Hjs Hts].
    simpl in Hin.
    destruct Hin as [<-|[<-|[<-|[<-|[<-|[]]]]]];
      (eapply serve_first_sends; [reflexivity|assumption]).
Qed.

Lemma credential_failures_witness :
  serve (Routes.recipes_generate Sample.jwt_verify) (Sample.request None)
    (Sample.world empty_store)
  = (json 401 false "Access token required", Sample.world empty_store)
  /\ serve (Routes.images_analyze Sample.jwt_verify)
       (Sample.request (Some "Bearer old")) (Sample.world empty_store)
     = (json 403 false "Invalid or expired token", Sample.world empty_store).
Proof.
  split.
  - apply (credential_failures Sample.jwt_verify
             (Routes.recipes_generate Sample.jwt_verify)
             (Sample.request None) (Sample.world empty_store)).
    + simpl; auto.
    + left; reflexivity.
  - apply (credential_failures Sample.jwt_verify
             (Routes.images_analyze Sample.jwt_verify)
             (Sample.request (Some "Bearer old")) (Sample.world empty_store)).
    + simpl; auto.
    + exists "old", Js.TokenExpiredError.
      repeat split; [discriminate].
Defined.

(** C7 as stated fails: an expired token, and a string that is no token at
    all, are answered 403, not 401. *)
Lemma refused_token_is_not_401 :
  Sample.jwt_verify "old" = Throw Js.TokenExpiredError
  /\ Sample.jwt_verify "garbage" = Throw Js.JsonWebTokenError
  /\ res_status (fst (serve (Routes.recipes_generate Sample.jwt_verify)
                        (Sample.request (Some "Bearer old"))
                        (Sample.world empty_store))) = 403
  /\ res_status (fst (serve (Routes.recipes_generate Sample.jwt_verify)
                        (Sample.request (Some "Bearer garbage"))
                        (Sample.world empty_store))) = 403
  /\ ~ (forall (jwt : string -> Outcome ReqUser) (r : Route) (req : Request)
               (w : World),
          In r (gated_routes jwt) ->
          credential_missing req \/ credential_refused jwt req ->
          res_status (fst (serve r req w)) = 401).
Proof.
  repeat split.
  intros H.
  specialize (H Sample.jwt_verify (Routes.recipes_generate Sample.jwt_verify)
                (Sample.request (Some "Bearer old")) (Sample.world empty_store)).
  assert (Hin : In (Routes.recipes_generate Sample.jwt_verify)
                   (gated_routes Sample.jwt_verify)) by (simpl; auto).
  assert (Hc : credential_refused Sample.jwt_verify
                 (Sample.request (Some "Bearer old"))).
  { exists "old", Js.TokenExpiredError. repeat split. discriminate. }
  specialize (H Hin (or_intror Hc)). discriminate H.
Qed.

(** ** The routes without a gate *)

(** C1, on the chat and nutrition routers. Their chain is
    [validateRequest] alone: whatever the Authorization header, also none, a
    request with a valid body reaches the generation handler, is answered by
    it (200 or 500, never 401), and no entitlement or usage is consulted. The
    recipe, meal-plan and image routers do mount [authenticateToken]. *)
Theorem open_routes_reach_handler (r : Route) (req : Request) (w : World) :
  In r open_routes ->
  validation_error req = false ->
  exists res,
    serve r req w = (res, log_event (EvHandler (path r)) w)
    /\ res_status res <> 401
    /\ (upstream_ok w = true -> res_status res = 200).
Proof.
  intros Hin Hv. simpl in Hin.
  destruct Hin as [<-|[<-|[]]];
    unfold serve; simpl; unfold validateRequest, generation_handler;
    rewrite Hv; run_m;
    destruct (upstream_ok w); eexists;
    (split; [reflexivity|split; [discriminate|intros; try reflexivity; discriminate]]).
Qed.

Lemma open_routes_reach_handler_witness :
  exists res,
    serve Routes.chat_message (Sample.request None) (Sample.world empty_store)
    = (res, log_event (EvHandler "POST /chat/message") (Sample.world empty_store))
    /\ res_status res <> 401
    /\ (upstream_ok (Sample.world empty_store) = true -> res_status res = 200).
Proof.
  apply (open_routes_reach_handler Routes.chat_message (Sample.request None)
           (Sample.world empty_store)).
  - simpl; auto.
  - reflexivity.
Defined.

(** ** What the gate consults *)

(** C4, on the middleware that trusts the token. Ana's token ["t1"] was
    issued when she had used 0 of 5; the store now holds 5 of 5. Behind
    [req.user = decoded] the enforce step consults the token's numbers and
    lets the request through to the handler; behind the variant that re-reads
    the store the same request is answered 429. *)
Theorem token_snapshot_is_consulted :
  let w := Sample.world (Sample.store "free" "active" None 5 5) in
  let req := Sample.request (Some "Bearer t1") in
  AuthTs.authenticateToken Sample.jwt_verify req w
  = (Ok (Next (set_user req (Sample.req_user "free" "active" 0 5))), w)
  /\ serve (Routes.recipes_generate_legacy Sample.jwt_verify) req w
     = (json 200 true "Recipe generated successfully",
        log_event (EvHandler "POST /recipes/generate") w)
  /\ Auth.authenticateToken Sample.jwt_verify req w
     = (Ok (Next (set_user req (Sample.req_user "free" "active" 5 5))), w)
  /\ res_status (fst (serve (Routes.recipes_generate Sample.jwt_verify) req w))
     = 429.
Proof.
  repeat split.
Qed.

(** ** Running computations *)

Lemma bind_inv {A B} (c : M A) (k : A -> M B) (w w' : World) (o : Outcome B) :
  bind c k w = (o, w') ->
  (exists a w1, c w = (Ok a, w1) /\ k a w1 = (o, w'))
  \/ (exists e, c w = (Throw e, w') /\ o = Throw e).
Proof.
  unfold bind. destruct (c w) as [[a|e] w1]; intros H.
  - left. eauto.
  - right. inversion H; subst. eauto.
Qed.

Lemma try_catch_inv {A} (c : M A) (h : Js.Error -> M A) (w w' : World)
  (o : Outcome A) :
  try_catch c h w = (o, w') ->
  (exists a, c w = (Ok a, w') /\ o = Ok a)
  \/ (exists e w1, c w = (Throw e, w1) /\ h e w1 = (o, w')).
Proof.
  unfold try_catch. destruct (c w) as [[a|e] w1]; intros H.
  - left. inversion H; subst. eauto.
  - right. eauto.
Qed.

(** ** The usage invariant, step by step *)

Lemma keeps_ret {A} (a : A) : keeps (ret a).
Proof. intros w o w' H. inversion H; subst; auto. Qed.

Lemma keeps_throw {A} (e : Js.Error) : keeps (@throw A e).
Proof. intros w o w' H. inversion H; subst; auto. Qed.

Lemma keeps_lift {A} (x : Outcome A) : keeps (Database.lift x).
Proof. intros w o w' H. inversion H; subst; auto. Qed.

Lemma keeps_get_db : keeps get_db.
Proof. intros w o w' H. inversion H; subst; auto. Qed.

Lemma keeps_getCurrentMonth : keeps Database.getCurrentMonth.
Proof. intros w o w' H. inversion H; subst; auto. Qed.

Lemma keeps_emit (e : Event) : keeps (emit e).
Proof. intros w o w' H. inversion H; subst; auto. Qed.

Lemma keeps_bind {A B} (c : M A) (k : A -> M B) :
  keeps c -> (forall a, keeps (k a)) -> keeps (bind c k).
Proof.
  intros Hc Hk w o w' H Hok.
  destruct (bind_inv _ _ _ _ _ H) as [(a & w1 & H1 & H2) | (e & H1 & _)].
  - eapply Hk; eauto.
  - eapply Hc; eauto.
Qed.

Lemma keeps_try_catch {A} (c : M A) (h : Js.Error -> M A) :
  keeps c -> (forall e, keeps (h e)) -> keeps (try_catch c h).
Proof.
  intros Hc Hh w o w' H Hok.
  destruct (try_catch_inv _ _ _ _ _ H) as [(a & H1 & _) | (e & w1 & H1 & H2)].
  - eapply Hc; eauto.
  - eapply Hh; eauto.
Qed.

Create HintDb keeps.

#[local] Hint Resolve keeps_ret keeps_throw keeps_lift keeps_get_db
  keeps_getCurrentMonth keeps_emit : keeps.

Ltac keeps_step :=
  match goal with
  | |- keeps (bind _ _) => apply keeps_bind; [|intros ?]
  | |- keeps (try_catch _ _) => apply keeps_try_catch; [|intros ?]
  | |- keeps (match ?x with _ => _ end) => destruct x
  | |- keeps (if ?b then _ else _) => destruct b
  | |- keeps _ => solve [auto with keeps]
  end.

Lemma keeps_getUserByEmail (email : string) : keeps (Database.getUserByEmail email).
Proof. unfold Database.getUserByEmail. repeat keeps_step. Qed.

Lemma keeps_getUserById (i : string) : keeps (Database.getUserById i).
Proof. unfold Database.getUserById. repeat keeps_step. Qed.

Lemma keeps_getSubscriptionByUserId (i : string) :
  keeps (Database.getSubscriptionByUserId i).
Proof. unfold Database.getSubscriptionByUserId. repeat keeps_step. Qed.

Lemma keeps_getSubscriptionByStripeId (i : string) :
  keeps (Database.getSubscriptionByStripeId i).
Proof. unfold Database.getSubscriptionByStripeId. repeat keeps_step. Qed.

Lemma keeps_updateUsageTracking (i m : string) (v : Js.Value) :
  keeps (Database.updateUsageTracking i m v).
Proof. unfold Database.updateUsageTracking. repeat keeps_step. Qed.

(** Writes to the other two tables. *)
Lemma keeps_write_elsewhere {A} (c : M A) :
  (forall w o w', c w = (o, w') -> usage_tracking (db w') = usage_tracking (db w)) ->
  keeps c.
Proof.
  intros H w o w' Hc Hok. unfold usage_ok. rewrite (H _ _ _ Hc). exact Hok.
Qed.

Lemma keeps_createUser (i e n h : string) : keeps (Database.createUser i e n h).
Proof.
  apply keeps_write_elsewhere. intros w o w'. unfold Database.createUser. run_m.
  destruct (existsb _ _ || existsb _ _); intros H; inversion H; reflexivity.
Qed.

Lemma keeps_updateUser (i c : string) : keeps (Database.updateUser i c).
Proof.
  apply keeps_write_elsewhere. intros w o w'. unfold Database.updateUser. run_m.
  destruct (filter _ _) as [|u [|u' l]]; intros H; inversion H; reflexivity.
Qed.

Lemma keeps_createSubscription (i p s : string) :
  keeps (Database.createSubscription i p s).
Proof.
  apply keeps_write_elsewhere. intros w o w'. unfold Database.createSubscription.
  run_m. intros H; inversion H; reflexivity.
Qed.

Lemma keeps_updateSubscription (i : string) (u : Database.SubscriptionUpdates) :
  keeps (Database.updateSubscription i u).
Proof.
  apply keeps_write_elsewhere. intros w o w'. unfold Database.updateSubscription.
  run_m.
  destruct (filter _ _) as [|r [|r' l]]; intros H; inversion H; reflexivity.
Qed.

(** ** The usage table *)

Lemma Forall_map_update {A} (P : A -> Prop) (p : A -> bool) (f : A -> A)
  (l : list A) :
  Forall P l ->
  (forall x, In x l -> p x = true -> P (f x)) ->
  Forall P (map (fun x => if p x then f x else x) l).
Proof.
  intros Hl Hf. apply Forall_forall. intros y Hy.
  apply in_map_iff in Hy. destruct Hy as (x & <- & Hx).
  destruct (p x) eqn:Hp.
  - apply Hf; assumption.
  - rewrite Forall_forall in Hl. apply Hl; assumption.
Qed.

Lemma filter_singleton_In {A} (p : A -> bool) (l : list A) (r x : A) :
  filter p l = [r] -> In x l -> p x = true -> x = r.
Proof.
  intros Hf Hx Hp.
  assert (Hin : In x (filter p l)) by (apply filter_In; auto).
  rewrite Hf in Hin. destruct Hin as [<-|[]]. reflexivity.
Qed.

(** [getOrCreateUsageTracking] writes nothing but, at most, one fresh row
    with nothing used and a limit of the table; when it answers a row, that
    row is the only one of the user and month afterwards. *)
Lemma getOrCreateUsageTracking_spec (uid m : string) (w w' : World)
  (o : Outcome UsageRow) :
  Database.getOrCreateUsageTracking uid m w = (o, w') ->
  now_month w' = now_month w /\ upstream_ok w' = upstream_ok w
  /\ trace w' = trace w
  /\ users (db w') = users (db w)
  /\ subscriptions (db w') = subscriptions (db w)
  /\ match o with
     | Ok row =>
         filter (Database.by_user_month uid m) (usage_tracking (db w')) = [row]
         /\ (usage_tracking (db w') = usage_tracking (db w)
             \/ (usage_tracking (db w') = (usage_tracking (db w) ++ [row])%list
                 /\ filter (Database.by_user_month uid m) (usage_tracking (db w)) = []
                 /\ requests_used row = 0
                 /\ (request_limit row = 5 \/ request_limit row = 50
                     \/ request_limit row = -1)))
     | Throw _ => usage_tracking (db w') = usage_tracking (db w)
     end.
Proof.
  unfold Database.getOrCreateUsageTracking, Database.getSubscriptionByUserId.
  run_m.
  destruct (filter (Database.by_user_month uid m) (usage_tracking (db w)))
    as [|r [|r' l]] eqn:Hf.
  - destruct (Database.getRequestLimitForPlan _) as [z| |k] eqn:Hlim;
      intros H; inversion H; subst; simpl; repeat split; auto.
    + rewrite filter_app, Hf. simpl.
      unfold Database.by_user_month. simpl. rewrite !String.eqb_refl.
      reflexivity.
    + right. repeat split; auto.
      apply getRequestLimitForPlan_number in Hlim. exact Hlim.
  - intros H; inversion H; subst; simpl; repeat split; auto.
  - intros H; inversion H; subst; simpl; repeat split; auto.
Qed.

Lemma keeps_getOrCreateUsageTracking (uid m : string) :
  keeps (Database.getOrCreateUsageTracking uid m).
Proof.
  intros w o w' H Hok.
  destruct (getOrCreateUsageTracking_spec _ _ _ _ _ H)
    as (_ & _ & _ & _ & _ & Ho).
  unfold usage_ok in *. destruct o as [row|e].
  - destruct Ho as [_ [Hsame | (Happ & _ & Hused & Hlim)]].
    + rewrite Hsame. exact Hok.
    + rewrite Happ. apply Forall_app. split; [exact Hok|].
      constructor; [|constructor]. unfold row_ok. rewrite Hused. lia.
  - rewrite Ho. exact Hok.
Qed.

(** Rewriting the rows of one user and month. *)
Lemma update_usage_spec (uid m : string) (f : UsageRow -> UsageRow)
  (w w' : World) (o : Outcome UsageRow) :
  Database.update_usage uid m f w = (o, w') ->
  now_month w' = now_month w /\ upstream_ok w' = upstream_ok w
  /\ trace w' = trace w
  /\ users (db w') = users (db w)
  /\ subscriptions (db w') = subscriptions (db w)
  /\ ((exists r,
         filter (Database.by_user_month uid m) (usage_tracking (db w)) = [r]
         /\ o = Ok (f r)
         /\ usage_tracking (db w')
            = map (fun x => if Database.by_user_month uid m x then f x else x)
                  (usage_tracking (db w)))
      \/ ((exists e, o = Throw e)
          /\ usage_tracking (db w') = usage_tracking (db w))).
Proof.
  unfold Database.update_usage. run_m.
  destruct (filter (Database.by_user_month uid m) (usage_tracking (db w)))
    as [|r [|r' l]] eqn:Hf; intros H; inversion H; subst; simpl;
    repeat split; eauto.
Qed.

Lemma keeps_resetMonthlyUsage (uid m : string) :
  keeps (Database.resetMonthlyUsage uid m).
Proof.
  intros w o w' H Hok. unfold Database.resetMonthlyUsage in H.
  destruct (update_usage_spec _ _ _ _ _ _ H)
    as (_ & _ & _ & _ & _ & [(r & Hf & _ & Hmap) | (_ & Hsame)]).
  - unfold usage_ok in *. rewrite Hmap. apply Forall_map_update; [exact Hok|].
    intros x Hx _. rewrite Forall_forall in Hok. specialize (Hok x Hx).
    unfold row_ok in *. simpl. lia.
  - unfold usage_ok in *. rewrite Hsame. exact Hok.
Qed.

(** [Database.incrementUsage] throws before it reaches the store. *)
Lemma incrementUsage_throws (uid m : string) (w : World) :
  Database.incrementUsage uid m w
  = (Throw (Js.TypeError "supabase.sql is not a function"), w).
Proof. reflexivity. Qed.

(** ** The middleware that re-reads the store *)

Lemma reads_store_send (req : Request) (w : World) (res : Response) :
  reads_store req w w (Ok (Send res)).
Proof.
  unfold reads_store. repeat split; auto.
  eexists. split; [reflexivity|]. discriminate.
Qed.

(** What [authenticateToken] (store variant) leaves in [req.user] when it
    calls [next()]: the plan and status of the user's stored subscription row
    (free and active when there is none) and the two numbers of the stored
    usage row of the current month, all read from the store as it is after
    the call. Whatever it answers, it writes at most the month's fresh usage
    row. *)
Lemma authenticateToken_reads_store (jwt : string -> Outcome ReqUser)
  (req : Request) (w w' : World) (o : Outcome Step) :
  Auth.authenticateToken jwt req w = (o, w') -> reads_store req w w' o.
Proof.
  unfold Auth.authenticateToken, require_token.
  assert (Hdone : forall res,
            (Ok (Send res), w) = (o, w') -> reads_store req w w' o).
  { intros res H. inversion H; subst. apply reads_store_send. }
  destruct (bearer_token (authorization req)) as [t|]; [|apply Hdone].
  destruct (String.eqb t ""); [apply Hdone|].
  cbv beta iota zeta delta [try_catch bind Database.lift Database.getUserById
    Database.getSubscriptionByUserId Database.getCurrentMonth get_db ret].
  destruct (jwt t) as [decoded|e]; [|apply Hdone].
  destruct (Database.single (filter (Database.by_id (id decoded)) (users (db w))))
    as [u|e]; [|apply Hdone].
  destruct (Database.getOrCreateUsageTracking (u_id u) (now_month w) w)
    as [[row|e] w1] eqn:Hg.
  - intros H. inversion H; subst. clear H.
    pose proof (keeps_getOrCreateUsageTracking _ _ _ _ _ Hg) as Hk.
    destruct (getOrCreateUsageTracking_spec _ _ _ _ _ Hg)
      as (Hm & Hup & Htr & Hus & Hsub & Hrow & _).
    unfold reads_store. repeat split; auto.
    eexists. split; [reflexivity|]. intros req' Hr. inversion Hr; subst.
    eexists. exists row. split; [reflexivity|].
    unfold view_of_store. simpl.
    rewrite Hm, Hsub. repeat split; auto.
  - intros H. inversion H; subst. clear H.
    pose proof (keeps_getOrCreateUsageTracking _ _ _ _ _ Hg) as Hk.
    destruct (getOrCreateUsageTracking_spec _ _ _ _ _ Hg)
      as (Hm & Hup & Htr & Hus & Hsub & Hrow).
    unfold reads_store. repeat split; auto.
    eexists. split; [reflexivity|]. discriminate.
Qed.

(** ** Metered chains *)

Lemma requirePlan_cases (plans : list string) (req : Request) (w : World) :
  (exists res, Auth.requirePlan plans req w = (Ok (Send res), w))
  \/ Auth.requirePlan plans req w = (Ok (Next req), w).
Proof.
  unfold Auth.requirePlan. destruct (user req) as [u|].
  - destruct (negb _); [left; eexists; reflexivity | right; reflexivity].
  - left; eexists; reflexivity.
Qed.

Lemma generation_handler_run (p okm failm : string) (req : Request) (w : World) :
  exists res,
    generation_handler p okm failm req w = (Ok res, log_event (EvHandler p) w).
Proof.
  unfold generation_handler. run_m. destruct (upstream_ok w); eexists; reflexivity.
Qed.

(** [incrementUsage] always calls [next()] on the unchanged request; for a
    limited user it has first logged and attempted the increment. *)
Lemma incrementUsage_run (req : Request) (u : ReqUser) (row : UsageRow)
  (w : World) :
  user req = Some u -> view_of_store w u row ->
  requestLimit (subscription u) = -1 \/ requestsUsed (subscription u) < requestLimit (subscription u) ->
  exists w',
    Auth.incrementUsage req w = (Ok (Next req), w')
    /\ (usage_ok w -> usage_ok w')
    /\ upstream_ok w' = upstream_ok w
    /\ ((requestLimit (subscription u) = -1 /\ w' = w)
        \/ (requestLimit (subscription u) <> -1
            /\ trace w' = (trace w ++ [ EvRecordUsage (id u) (now_month w) ])%list)).
Proof.
  intros Hu (Hrow & Hused & Hlim & _) Hadm. unfold Auth.incrementUsage.
  rewrite Hu.
  destruct (requestLimit (subscription u) =? -1) eqn:Hunl; simpl.
  - apply Z.eqb_eq in Hunl. exists w. run_m. repeat split; auto.
  - apply Z.eqb_neq in Hunl.
    cbv beta iota zeta delta [try_catch bind Database.getCurrentMonth emit ret].
    rewrite incrementUsage_throws.
    exists (log_event (EvRecordUsage (id u) (now_month w)) w).
    repeat split; auto.
Qed.

Lemma metered_tail (p okm failm : string) (req : Request) (u : ReqUser)
  (row : UsageRow) (w w' : World) (o : Outcome Response) :
  user req = Some u -> view_of_store w u row ->
  run_chain [ Auth.checkSubscriptionLimits; validateRequest; Auth.incrementUsage ]
    (generation_handler p okm failm) req w = (o, w') ->
  metered_effect p u w w' o.
Proof.
  intros Hu Hview. unfold metered_effect. simpl. unfold bind at 1.
  destruct (checkSubscriptionLimits_cases req u w Hu)
    as [(_ & _ & res & E & _) | [(_ & _ & _ & res & E & _) | (_ & Hadm & E)]].
  - rewrite E. intros H; inversion H; subst. split; eauto.
  - rewrite E. intros H; inversion H; subst. split; eauto.
  - unfold passes in E. rewrite E. unfold bind at 1, validateRequest.
    destruct (validation_error req).
    + intros H; inversion H; subst. split; eauto.
    + unfold ret at 1. unfold bind.
      destruct (incrementUsage_run req u row w Hu Hview Hadm)
        as (w1 & Einc & Hkeep & Hup & Hcase).
      rewrite Einc.
      destruct (generation_handler_run p okm failm req w1) as (res & Eh).
      rewrite Eh. intros H; inversion H; subst. split.
      * intros Hok. apply Hkeep in Hok. exact Hok.
      * exists res. split; [reflexivity|]. right.
        destruct Hcase as [(Hunl & ->) | (Hlim & Htr)].
        -- left. split; [reflexivity | exact Hunl].
        -- right. split; [|exact Hlim]. simpl. rewrite Htr.
           rewrite <- app_assoc. reflexivity.
Qed.

Lemma metered_after_auth (jwt : string -> Outcome ReqUser) (r : Route)
  (gates : list Middleware) (okm failm : string) (req : Request) (w : World) :
  chain r = Auth.authenticateToken jwt :: gates
              ++ [ Auth.checkSubscriptionLimits; validateRequest;
                   Auth.incrementUsage ] ->
  handler r = generation_handler (path r) okm failm ->
  (forall m, In m gates -> forall q v,
     (exists res, m q v = (Ok (Send res), v)) \/ m q v = (Ok (Next q), v)) ->
  metered_run r w (snd (Auth.authenticateToken jwt req w)) (snd (serve r req w)).
Proof.
  intros Hc Hh Hg. unfold serve. rewrite Hc, Hh.
  cbn [run_chain]. unfold bind at 1.
  destruct (Auth.authenticateToken jwt req w) as [o w1] eqn:Ha.
  destruct (authenticateToken_reads_store _ _ _ _ _ Ha)
    as (Hm & _ & Htr & _ & _ & Hkeep & step & -> & Hnext).
  cbn [snd]. destruct step as [req1|res].
  2:{ cbn [snd]. split; [exact Hkeep | left; exact Htr]. }
  destruct (Hnext req1 eq_refl) as (u & row & -> & Hview).
  assert (Hu : user (set_user req u) = Some u) by reflexivity.
  revert Hg. generalize (set_user req u) Hu. clear Hc.
  induction gates as [|g gs IH]; intros q Hq Hg.
  - cbn [app].
    destruct (run_chain _ _ q w1) as [o w2] eqn:Hrun.
    destruct (metered_tail _ _ _ _ _ _ _ _ _ Hq Hview Hrun)
      as (Hk2 & res & -> & Hcase).
    cbn [snd]. split; [auto|].
    destruct Hcase as [H|[(H & Hl)|(H & Hl)]].
    + left. congruence.
    + right. exists u, row. split; [exact Hview|]. left.
      destruct Hview as (_ & _ & Hlim & _). split; congruence.
    + right. exists u, row. split; [exact Hview|]. right.
      destruct Hview as (_ & _ & Hlim & _). split; congruence.
  - cbn [app run_chain]. unfold bind at 1.
    destruct (Hg g (or_introl eq_refl) q w1) as [(res & E)|E]; rewrite E.
    + cbn [snd]. split; [exact Hkeep | left; exact Htr].
    + apply IH; [exact Hq|]. intros m Hin. apply Hg. right. exact Hin.
Qed.

(** Every metered route: invariant kept, and the record before the
    handler. *)
Lemma metered_route_run (jwt : string -> Outcome ReqUser) (r : Route)
  (req : Request) (w : World) :
  In r (metered_routes jwt) ->
  metered_run r w (snd (Auth.authenticateToken jwt req w)) (snd (serve r req w)).
Proof.
  intros Hin. simpl in Hin. destruct Hin as [<-|[<-|[<-|[]]]].
  - eapply (metered_after_auth jwt _ []); [reflexivity|reflexivity|].
    intros m [].
  - eapply (metered_after_auth jwt _
              [ Auth.requirePlan [ "basic"; "pro"; "pro_yearly" ] ]);
      [reflexivity|reflexivity|].
    intros m [<-|[]] q v. apply requirePlan_cases.
  - eapply (metered_after_auth jwt _ []); [reflexivity|reflexivity|].
    intros m [].
Qed.


(** ** The Stripe webhook *)

(** C8, as the code has it. Verification and the event branch share one
    [try]: for a verified notification the webhook answers
    [{received: true}] exactly when the branch runs to its end, and answers
    400 "Webhook error" when the branch throws; what the branch wrote before
    the throw stays written. *)
Theorem webhook_acknowledges_completed_branch
  (constructEvent : string -> option string -> Outcome StripeService.StripeEvent)
  (body : string) (signature : option string)
  (event : StripeService.StripeEvent) (w : World) :
  constructEvent body signature = Ok event ->
  (forall w', Subscriptions.handle_event event w = (Ok tt, w') ->
     Subscriptions.webhook constructEvent body signature w
     = (Ok Subscriptions.received_true, w'))
  /\ (forall e w', Subscriptions.handle_event event w = (Throw e, w') ->
        Subscriptions.webhook constructEvent body signature w
        = (Ok (json 400 false "Webhook error"), w')).
Proof.
  intros Hv. unfold Subscriptions.webhook, StripeService.handleWebhook.
  cbv beta iota zeta delta [try_catch bind Database.lift ret throw].
  rewrite Hv. split; intros; rewrite H; reflexivity.
Qed.

Lemma webhook_acknowledges_completed_branch_witness :
  let event := StripeService.other_event "charge.succeeded" in
  Subscriptions.webhook (SampleStripe.accept event) "{}" (Some "t=1,v1=00")
    (Sample.world empty_store)
  = (Ok Subscriptions.received_true, Sample.world empty_store).
Proof.
  apply (webhook_acknowledges_completed_branch
           (SampleStripe.accept (StripeService.other_event "charge.succeeded"))
           "{}" (Some "t=1,v1=00")
           (StripeService.other_event "charge.succeeded")
           (Sample.world empty_store)).
  - reflexivity.
  - reflexivity.
Defined.

(** C8 as stated fails. A verified invoice.payment_succeeded arrives in
    August for Ana's subscription; her only usage row is July's, so
    [resetMonthlyUsage] finds no row and throws. The webhook answers 400
    "Webhook error", not [{received: true}]. *)
Lemma webhook_branch_error_is_400 :
  let event := StripeService.invoice_payment_succeeded SampleStripe.paid_invoice in
  let w := SampleStripe.august (Sample.store "basic" "active" (Some "sub_1") 50 50) in
  Subscriptions.handle_event event w = (Throw Js.PGRST116, w)
  /\ Subscriptions.webhook (SampleStripe.accept event) "{}" (Some "t=1,v1=00") w
     = (Ok (json 400 false "Webhook error"), w)
  /\ ~ (forall (ce : string -> option string -> Outcome StripeService.StripeEvent)
               (body : string) (signature : option string)
               (ev : StripeService.StripeEvent) (w0 : World),
          ce body signature = Ok ev ->
          fst (Subscriptions.webhook ce body signature w0)
          = Ok Subscriptions.received_true).
Proof.
  repeat split.
  intros H.
  specialize (H (SampleStripe.accept
                   (StripeService.invoice_payment_succeeded SampleStripe.paid_invoice))
                "{}" (Some "t=1,v1=00") _
                (SampleStripe.august
                   (Sample.store "basic" "active" (Some "sub_1") 50 50))
                eq_refl).
  discriminate H.
Qed.

(** C9, at a subscription.updated notification for Ana. The notification
    carries her Stripe customer id ["cus_1"], which her user row stores in
    [stripe_customer_id]; the webhook hands it to [getUserByEmail], no e-mail
    equals it, no user is resolved and the entitlement stays free although the
    notification is acknowledged. Had the customer field held her e-mail
    address, the same notification would have set the plan to basic. *)
Theorem webhook_resolves_user_by_email :
  let w := Sample.world (Sample.store "free" "active" None 0 5) in
  let by_customer_id :=
    StripeService.customer_subscription_updated
      (SampleStripe.basic_subscription "cus_1") in
  let by_email :=
    StripeService.customer_subscription_updated
      (SampleStripe.basic_subscription "ana@example.com") in
  map stripe_customer_id (users (db w)) = [ Some "cus_1" ]
  /\ Database.getUserByEmail "cus_1" w = (Ok None, w)
  /\ Subscriptions.webhook (SampleStripe.accept by_customer_id) "{}"
       (Some "t=1,v1=00") w
     = (Ok Subscriptions.received_true, w)
  /\ map s_plan (subscriptions (db w)) = [ "free" ]
  /\ map s_plan
       (subscriptions
          (db (snd (Subscriptions.webhook (SampleStripe.accept by_email) "{}"
                      (Some "t=1,v1=00") w))))
     = [ "basic" ].
Proof.
  repeat split.
Qed.

(** ** Every operation keeps the usage invariant *)

#[local] Hint Resolve keeps_getUserByEmail keeps_getUserById
  keeps_getSubscriptionByUserId keeps_getSubscriptionByStripeId
  keeps_updateUsageTracking keeps_createUser keeps_updateUser
  keeps_createSubscription keeps_updateSubscription
  keeps_getOrCreateUsageTracking keeps_resetMonthlyUsage : keeps.

Lemma keeps_handle_event (event : StripeService.StripeEvent) :
  keeps (Subscriptions.handle_event event).
Proof.
  destruct event; unfold Subscriptions.handle_event, Subscriptions.first_price;
    repeat keeps_step.
Qed.

Lemma keeps_webhook
  (ce : string -> option string -> Outcome StripeService.StripeEvent)
  (body : string) (signature : option string) :
  keeps (Subscriptions.webhook ce body signature).
Proof.
  unfold Subscriptions.webhook, StripeService.handleWebhook.
  pose proof keeps_handle_event. repeat keeps_step.
Qed.

Lemma keeps_register (invalid : bool) (i e n h : string) :
  keeps (AuthRoutes.register invalid i e n h).
Proof. unfold AuthRoutes.register. repeat keeps_step. Qed.

Lemma keeps_login (invalid : bool) (e : string) (ok : bool) :
  keeps (AuthRoutes.login invalid e ok).
Proof. unfold AuthRoutes.login. repeat keeps_step. Qed.

Lemma keeps_authenticateToken (jwt : string -> Outcome ReqUser) (req : Request) :
  keeps (Auth.authenticateToken jwt req).
Proof.
  intros w o w' H. destruct (authenticateToken_reads_store _ _ _ _ _ H)
    as (_ & _ & _ & _ & _ & Hk & _). exact Hk.
Qed.

Lemma keeps_authenticateToken_ts (jwt : string -> Outcome ReqUser) (req : Request) :
  keeps (AuthTs.authenticateToken jwt req).
Proof.
  unfold AuthTs.authenticateToken, require_token. repeat keeps_step.
Qed.

Lemma keeps_checkSubscriptionLimits (req : Request) :
  keeps (Auth.checkSubscriptionLimits req).
Proof. unfold Auth.checkSubscriptionLimits. repeat keeps_step. Qed.

Lemma keeps_requirePlan (plans : list string) (req : Request) :
  keeps (Auth.requirePlan plans req).
Proof. unfold Auth.requirePlan. repeat keeps_step. Qed.

Lemma keeps_validateRequest (req : Request) : keeps (validateRequest req).
Proof. unfold validateRequest. repeat keeps_step. Qed.

Lemma keeps_upload_single (req : Request) : keeps (upload_single req).
Proof. unfold upload_single. repeat keeps_step. Qed.

Lemma keeps_generation_handler (p okm failm : string) (req : Request) :
  keeps (generation_handler p okm failm req).
Proof.
  intros w o w' H Hok.
  destruct (generation_handler_run p okm failm req w) as (res & E).
  rewrite E in H. inversion H; subst. exact Hok.
Qed.

#[local] Hint Resolve keeps_authenticateToken keeps_authenticateToken_ts
  keeps_checkSubscriptionLimits keeps_requirePlan keeps_validateRequest
  keeps_upload_single keeps_generation_handler : keeps.

Lemma keeps_run_chain (ms : list Middleware) (h : Request -> M Response) :
  (forall m, In m ms -> forall req, keeps (m req)) ->
  (forall req, keeps (h req)) ->
  forall req, keeps (run_chain ms h req).
Proof.
  intros Hms Hh. induction ms as [|m ms IH]; intros req; simpl.
  - apply Hh.
  - apply keeps_bind.
    + apply Hms. left; reflexivity.
    + intros [req'|res].
      * apply IH. intros m' Hin. apply Hms. right; exact Hin.
      * apply keeps_ret.
Qed.

Lemma serve_keeps (r : Route) (req : Request) (w : World) :
  keeps (run_chain (chain r) (handler r) req) ->
  usage_ok w -> usage_ok (snd (serve r req w)).
Proof.
  intros Hk Hok. unfold serve.
  destruct (run_chain (chain r) (handler r) req w) as [[res|e] w'] eqn:E;
    simpl; eapply Hk; eauto.
Qed.

Lemma keeps_unmetered (r : Route) (req : Request) :
  (forall m, In m (chain r) -> forall q, keeps (m q)) ->
  (forall q, keeps (handler r q)) ->
  keeps (run_chain (chain r) (handler r) req).
Proof. intros Hm Hh. apply keeps_run_chain; assumption. Qed.

(** One served request keeps the invariant, on every route. *)
Lemma serve_all_routes_keeps (jwt : string -> Outcome ReqUser) (r : Route)
  (req : Request) (w : World) :
  In r (all_routes jwt) ->
  usage_ok w -> usage_ok (snd (serve r req w)).
Proof.
  intros Hin Hok. unfold all_routes, gated_routes, open_routes in Hin.
  simpl in Hin.
  destruct Hin as [<-|[<-|[<-|Hrest]]].
  1-3: apply (metered_route_run jwt _ req w); [simpl; auto | exact Hok].
  destruct Hrest as [<-|[<-|[<-|[<-|[<-|[<-|[]]]]]]];
    (apply serve_keeps; [|exact Hok]);
    (apply keeps_unmetered;
     [ simpl; intros m Hm q;
       repeat (destruct Hm as [<-|Hm]; [auto with keeps|]); destruct Hm
     | intros q; simpl; repeat keeps_step ]).
Qed.

Lemma serve_checkout_keeps (jwt : string -> Outcome ReqUser) (planId : string)
  (created session : Outcome string) (req : Request) (w : World) :
  usage_ok w ->
  usage_ok (snd (serve (Subscriptions.create_checkout_session jwt planId created
                          session) req w)).
Proof.
  intros Hok. apply serve_keeps; [|exact Hok].
  apply keeps_unmetered.
  - simpl. intros m [<-|[]] q. auto with keeps.
  - intros q. simpl. repeat keeps_step.
Qed.

(** The inductive invariant holds in every reachable world. *)
Lemma reachable_usage_ok (jwt : string -> Outcome ReqUser)
  (ce : string -> option string -> Outcome StripeService.StripeEvent)
  (w : World) :
  reachable jwt ce w -> usage_ok w.
Proof.
  induction 1 as [ m up
                 | w m up Hr IH
                 | w invalid new_id em nm hp Hr IH
                 | w invalid em ok Hr IH
                 | w r req Hr IH Hin
                 | w planId created session req Hr IH
                 | w body sig Hr IH ].
  - constructor.
  - exact IH.
  - destruct (AuthRoutes.register invalid new_id em nm hp w) as [o w'] eqn:E.
    simpl. eapply keeps_register; eauto.
  - destruct (AuthRoutes.login invalid em ok w) as [o w'] eqn:E.
    simpl. eapply keeps_login; eauto.
  - apply (serve_all_routes_keeps jwt); assumption.
  - apply serve_checkout_keeps; assumption.
  - destruct (Subscriptions.webhook ce body sig w) as [o w'] eqn:E.
    simpl. eapply keeps_webhook; eauto.
Qed.

(** C6. In every world the server can reach by running its operations one
    after the other (registration, login, any route, checkout, any webhook
    notification, with the clock moving freely), every usage row whose
    request_limit is not -1 has requests_used at most request_limit. *)
Theorem usage_never_exceeds_limit (jwt : string -> Outcome ReqUser)
  (ce : string -> option string -> Outcome StripeService.StripeEvent)
  (w : World) :
  reachable jwt ce w ->
  Forall within_limit (usage_tracking (db w)).
Proof.
  intros Hr. apply reachable_usage_ok in Hr. unfold usage_ok in Hr.
  eapply Forall_impl; [|exact Hr].
  intros r [Hunl | [_ Hle]] Hlim; [contradiction | exact Hle].
Qed.

Lemma usage_never_exceeds_limit_witness :
  Forall within_limit (usage_tracking (db SampleRun.after_six)).
Proof.
  apply (usage_never_exceeds_limit Sample.jwt_verify
           (SampleStripe.accept (StripeService.other_event "ping"))).
  unfold SampleRun.after_six, SampleRun.after_five, SampleRun.ask.
  repeat (apply reach_serve; [|simpl; auto]).
  apply reach_register. apply reach_start.
Defined.

(** * More of the server *)

(** ** Effects, compositionally *)

Section Effects.

Variable R : World -> World -> Prop.
Hypothesis R_refl : forall w, R w w.
Hypothesis R_trans : forall a b c, R a b -> R b c -> R a c.
Hypothesis R_log : forall e w, R w (log_event e w).

Lemma relates_ret {A} (a : A) : relates R (ret a).
Proof. intros w o w' H. inversion H; subst; auto. Qed.

Lemma relates_throw {A} (e : Js.Error) : relates R (@throw A e).
Proof. intros w o w' H. inversion H; subst; auto. Qed.

Lemma relates_lift {A} (x : Outcome A) : relates R (Database.lift x).
Proof. intros w o w' H. inversion H; subst; auto. Qed.

Lemma relates_get_db : relates R get_db.
Proof. intros w o w' H. inversion H; subst; auto. Qed.

Lemma relates_getCurrentMonth : relates R Database.getCurrentMonth.
Proof. intros w o w' H. inversion H; subst; auto. Qed.

Lemma relates_Database_incrementUsage (uid m : string) :
  relates R (Database.incrementUsage uid m).
Proof.
  intros w o w' H. rewrite incrementUsage_throws in H. inversion H; subst; auto.
Qed.

Lemma relates_emit (e : Event) : relates R (emit e).
Proof. intros w o w' H. inversion H; subst; auto. Qed.

Lemma relates_bind {A B} (c : M A) (k : A -> M B) :
  relates R c -> (forall a, relates R (k a)) -> relates R (bind c k).
Proof.
  intros Hc Hk w o w' H.
  destruct (bind_inv _ _ _ _ _ H) as [(a & w1 & H1 & H2) | (e & H1 & _)].
  - eapply R_trans; [eapply Hc | eapply Hk]; eauto.
  - eapply Hc; eauto.
Qed.

Lemma relates_try_catch {A} (c : M A) (h : Js.Error -> M A) :
  relates R c -> (forall e, relates R (h e)) -> relates R (try_catch c h).
Proof.
  intros Hc Hh w o w' H.
  destruct (try_catch_inv _ _ _ _ _ H) as [(a & H1 & _) | (e & w1 & H1 & H2)].
  - eapply Hc; eauto.
  - eapply R_trans; [eapply Hc | eapply Hh]; eauto.
Qed.

Lemma relates_getUserByEmail (e : string) : relates R (Database.getUserByEmail e).
Proof.
  unfold Database.getUserByEmail. apply relates_bind;
    [apply relates_get_db | intros; apply relates_ret].
Qed.

Lemma relates_getUserById (i : string) : relates R (Database.getUserById i).
Proof.
  unfold Database.getUserById. apply relates_bind;
    [apply relates_get_db | intros; apply relates_lift].
Qed.

Lemma relates_getSubscriptionByUserId (i : string) :
  relates R (Database.getSubscriptionByUserId i).
Proof.
  unfold Database.getSubscriptionByUserId. apply relates_bind;
    [apply relates_get_db | intros; apply relates_ret].
Qed.

Lemma relates_getSubscriptionByStripeId (i : string) :
  relates R (Database.getSubscriptionByStripeId i).
Proof.
  unfold Database.getSubscriptionByStripeId. apply relates_bind;
    [apply relates_get_db | intros; apply relates_lift].
Qed.

Lemma relates_updateUsageTracking (i m : string) (v : Js.Value) :
  relates R (Database.updateUsageTracking i m v).
Proof. unfold Database.updateUsageTracking. apply relates_throw. Qed.

Lemma relates_generation_handler (p okm failm : string) (req : Request) :
  relates R (generation_handler p okm failm req).
Proof.
  intros w o w' H.
  destruct (generation_handler_run p okm failm req w) as (res & E).
  rewrite E in H. inversion H; subst. apply R_log.
Qed.

Lemma relates_run_chain (ms : list Middleware) (h : Request -> M Response) :
  (forall m, In m ms -> forall req, relates R (m req)) ->
  (forall req, relates R (h req)) ->
  forall req, relates R (run_chain ms h req).
Proof.
  intros Hms Hh. induction ms as [|m ms IH]; intros req; simpl.
  - apply Hh.
  - apply relates_bind.
    + apply Hms. left; reflexivity.
    + intros [req'|res].
      * apply IH. intros m' Hin. apply Hms. right; exact Hin.
      * apply relates_ret.
Qed.

Lemma relates_serve (r : Route) (req : Request) (w : World) :
  relates R (run_chain (chain r) (handler r) req) ->
  R w (snd (serve r req w)).
Proof.
  intros Hk. unfold serve.
  destruct (run_chain (chain r) (handler r) req w) as [[res|e] w'] eqn:E;
    simpl; eapply Hk; eauto.
Qed.

End Effects.

Create HintDb relates.

#[local] Hint Resolve relates_ret relates_throw relates_lift relates_get_db
  relates_getCurrentMonth relates_emit relates_getUserByEmail
  relates_getUserById relates_getSubscriptionByUserId
  relates_getSubscriptionByStripeId relates_updateUsageTracking
  relates_Database_incrementUsage relates_generation_handler : relates.

Ltac relates_step :=
  match goal with
  | |- relates _ (bind _ _) => apply relates_bind; [assumption| |intros ?]
  | |- relates _ (try_catch _ _) =>
      apply relates_try_catch; [assumption| |intros ?]
  | |- relates _ (match ?x with _ => _ end) => destruct x
  | |- relates _ (if ?b then _ else _) => destruct b
  | |- relates _ _ => solve [auto with relates]
  end.

(** What a relation must allow for the operations of the server to respect
    it: the writes of the persistence helpers they call. *)
Section OperationEffects.

Variable R : World -> World -> Prop.
Hypothesis R_refl : forall w, R w w.
Hypothesis R_trans : forall a b c, R a b -> R b c -> R a c.
Hypothesis R_log : forall e w, R w (log_event e w).

Section Routes.

Hypothesis R_getOrCreate :
  forall uid m, relates R (Database.getOrCreateUsageTracking uid m).

Lemma relates_authenticateToken (jwt : string -> Outcome ReqUser) (req : Request) :
  relates R (Auth.authenticateToken jwt req).
Proof.
  unfold Auth.authenticateToken, require_token. repeat relates_step.
Qed.

Lemma relates_authenticateToken_ts (jwt : string -> Outcome ReqUser)
  (req : Request) :
  relates R (AuthTs.authenticateToken jwt req).
Proof.
  unfold AuthTs.authenticateToken, require_token. repeat relates_step.
Qed.

Lemma relates_checkSubscriptionLimits (req : Request) :
  relates R (Auth.checkSubscriptionLimits req).
Proof. unfold Auth.checkSubscriptionLimits. repeat relates_step. Qed.

Lemma relates_requirePlan (plans : list string) (req : Request) :
  relates R (Auth.requirePlan plans req).
Proof. unfold Auth.requirePlan. repeat relates_step. Qed.

Lemma relates_validateRequest (req : Request) : relates R (validateRequest req).
Proof. unfold validateRequest. repeat relates_step. Qed.

Lemma relates_upload_single (req : Request) : relates R (upload_single req).
Proof. unfold upload_single. repeat relates_step. Qed.

Lemma relates_incrementUsage (req : Request) : relates R (Auth.incrementUsage req).
Proof. unfold Auth.incrementUsage. repeat relates_step. Qed.

Lemma relates_login (invalid : bool) (e : string) (ok : bool) :
  relates R (AuthRoutes.login invalid e ok).
Proof. unfold AuthRoutes.login. repeat relates_step. Qed.

Lemma relates_all_routes (jwt : string -> Outcome ReqUser) (r : Route)
  (req : Request) (w : World) :
  In r (all_routes jwt) -> R w (snd (serve r req w)).
Proof.
  intros Hin. apply relates_serve.
  pose proof relates_authenticateToken as H1.
  pose proof relates_authenticateToken_ts as H2.
  pose proof relates_checkSubscriptionLimits as H3.
  pose proof relates_requirePlan as H4.
  pose proof relates_validateRequest as H5.
  pose proof relates_upload_single as H6.
  pose proof relates_incrementUsage as H7.
  unfold all_routes, gated_routes, open_routes in Hin. simpl in Hin.
  repeat (destruct Hin as [<-|Hin]; [|]); try destruct Hin;
    (apply relates_run_chain; try assumption;
     [ simpl; intros m Hm q;
       repeat (destruct Hm as [<-|Hm]; [auto|]); destruct Hm
     | intros q; simpl; unfold AuthTs.requirePlan;
       repeat relates_step ]).
Qed.

Section Checkout.

Hypothesis R_updateUser : forall i c, relates R (Database.updateUser i c).

Lemma relates_checkout (jwt : string -> Outcome ReqUser) (planId : string)
  (created session : Outcome string) (req : Request) (w : World) :
  R w (snd (serve (Subscriptions.create_checkout_session jwt planId created
                     session) req w)).
Proof.
  apply relates_serve.
  apply relates_run_chain; try assumption.
  - simpl. intros m [<-|[]] q. apply relates_authenticateToken.
  - intros q. simpl. repeat relates_step.
Qed.

End Checkout.

End Routes.

Section Webhook.

Hypothesis R_getOrCreate :
  forall uid m, relates R (Database.getOrCreateUsageTracking uid m).
Hypothesis R_reset : forall uid m, relates R (Database.resetMonthlyUsage uid m).
Hypothesis R_updateSubscription :
  forall i u, relates R (Database.updateSubscription i u).

Lemma relates_handle_event (event : StripeService.StripeEvent) :
  relates R (Subscriptions.handle_event event).
Proof.
  destruct event; unfold Subscriptions.handle_event, Subscriptions.first_price;
    repeat relates_step.
Qed.

Lemma relates_webhook
  (ce : string -> option string -> Outcome StripeService.StripeEvent)
  (body : string) (signature : option string) :
  relates R (Subscriptions.webhook ce body signature).
Proof.
  unfold Subscriptions.webhook, StripeService.handleWebhook.
  pose proof relates_handle_event. repeat relates_step.
Qed.

End Webhook.

Section Register.

Hypothesis R_getOrCreate :
  forall uid m, relates R (Database.getOrCreateUsageTracking uid m).
Hypothesis R_createUser : forall i e n h, relates R (Database.createUser i e n h).
Hypothesis R_createSubscription :
  forall i p s, relates R (Database.createSubscription i p s).

Lemma relates_register (invalid : bool) (i e n h : string) :
  relates R (AuthRoutes.register invalid i e n h).
Proof. unfold AuthRoutes.register. repeat relates_step. Qed.

End Register.

End OperationEffects.

(** ** The record-usage step *)








(** ** The plan gate *)

Lemma includes_In (arr : list string) (x : string) :
  Js.includes arr x = true <-> In x arr.
Proof.
  unfold Js.includes, Js.mem. rewrite existsb_exists. split.
  - intros (y & Hy & E). apply String.eqb_eq in E. subst. exact Hy.
  - intros H. exists x. split; [exact H | apply String.eqb_refl].
Qed.

Lemma requirePlan_gate_cases (plans : list string) (req : Request) (u : ReqUser)
  (w : World) :
  user req = Some u ->
  (~ In (plan (subscription u)) plans <->
   rejects_with (Auth.requirePlan plans) req w PlanUpgradeRequired)
  /\ (In (plan (subscription u)) plans <-> passes (Auth.requirePlan plans) req w).
Proof.
  intros Hu. unfold rejects_with, passes, Auth.requirePlan. rewrite Hu.
  destruct (Js.includes plans (plan (subscription u))) eqn:E; simpl.
  - assert (Hin : In (plan (subscription u)) plans) by (apply includes_In; exact E).
    split; split; auto.
    + intros Hn. contradiction.
    + intros (res & H & _). discriminate.
  - assert (Hn : ~ In (plan (subscription u)) plans).
    { intros Hin. apply includes_In in Hin. congruence. }
    split; split; auto.
    + intros _. eexists. split; [reflexivity|]. split; reflexivity.
    + intros Hin. contradiction.
    + intros H. discriminate.
Qed.

(** X1. [requirePlan(requiredPlans)] on an authenticated request answers
    PlanUpgradeRequired (403, PLAN_UPGRADE_REQUIRED) exactly when the user's
    plan is not in [requiredPlans], and calls [next()] on the unchanged
    request exactly when it is; it reads neither status nor usage and writes
    nothing. *)
Theorem requirePlan_gate (plans : list string) (req : Request) (u : ReqUser)
  (w : World) :
  user req = Some u ->
  (rejects_with (Auth.requirePlan plans) req w PlanUpgradeRequired
   <-> ~ In (plan (subscription u)) plans)
  /\ (passes (Auth.requirePlan plans) req w <-> In (plan (subscription u)) plans).
Proof.
  intros Hu. destruct (requirePlan_gate_cases plans req u w Hu) as [H1 H2].
  split; split; intros H; (apply H1 || apply H2); exact H.
Qed.

Lemma requirePlan_gate_witness :
  rejects_with (Auth.requirePlan [ "pro"; "pro_yearly" ])
    (Sample.authenticated "basic" "active" 0 50) (Sample.world empty_store)
    PlanUpgradeRequired
  /\ passes (Auth.requirePlan [ "pro"; "pro_yearly" ])
       (Sample.authenticated "pro" "past_due" 0 (-1)) (Sample.world empty_store).
Proof.
  split.
  - apply (requirePlan_gate [ "pro"; "pro_yearly" ]
             (Sample.authenticated "basic" "active" 0 50)
             (Sample.req_user "basic" "active" 0 50) (Sample.world empty_store)).
    + reflexivity.
    + simpl. intros [H|[H|[]]]; discriminate.
  - apply (requirePlan_gate [ "pro"; "pro_yearly" ]
             (Sample.authenticated "pro" "past_due" 0 (-1))
             (Sample.req_user "pro" "past_due" 0 (-1)) (Sample.world empty_store)).
    + reflexivity.
    + simpl. auto.
Defined.

Lemma run_chain_next (m : Middleware) (rest : list Middleware)
  (h : Request -> M Response) (req req1 : Request) (w w1 : World) :
  m req w = (Ok (Next req1), w1) ->
  run_chain (m :: rest) h req w = run_chain rest h req1 w1.
Proof. intros H. simpl. unfold bind. rewrite H. reflexivity. Qed.

Lemma run_chain_send (m : Middleware) (rest : list Middleware)
  (h : Request -> M Response) (req : Request) (w w1 : World) (res : Response) :
  m req w = (Ok (Send res), w1) ->
  run_chain (m :: rest) h req w = (Ok res, w1).
Proof. intros H. simpl. unfold bind. rewrite H. reflexivity. Qed.

(** The middleware that trusts the token puts the decoded payload in
    [req.user]. *)
Lemma authenticateToken_ts_accepts (jwt : string -> Outcome ReqUser)
  (req : Request) (token : string) (u : ReqUser) (w : World) :
  bearer_token (authorization req) = Some token -> token <> "" ->
  jwt token = Ok u ->
  AuthTs.authenticateToken jwt req w = (Ok (Next (set_user req u)), w).
Proof.
  intros Hb Hne Hv. unfold AuthTs.authenticateToken. rewrite Hb.
  rewrite (require_token_present token _ Hne).
  cbv beta iota zeta delta [try_catch bind Database.lift ret]. rewrite Hv.
  reflexivity.
Qed.

(** X2. On POST /images/analyze the plan gate stands in front of the
    enforce step: a request whose token verifies to a user on a plan other
    than pro or pro_yearly is answered 403 PLAN_UPGRADE_REQUIRED whatever the
    status and the usage numbers, also for an inactive or exhausted account;
    nothing is written and the handler does not run. *)
Theorem images_plan_gate_first (jwt : string -> Outcome ReqUser) (req : Request)
  (token : string) (u : ReqUser) (w : World) :
  bearer_token (authorization req) = Some token -> token <> "" ->
  jwt token = Ok u ->
  ~ In (plan (subscription u)) [ "pro"; "pro_yearly" ] ->
  exists res,
    serve (Routes.images_analyze jwt) req w = (res, w)
    /\ PlanUpgradeRequired res.
Proof.
  intros Hb Hne Hv Hn. unfold serve, Routes.images_analyze. cbn [chain handler].
  rewrite (run_chain_next _ _ _ _ _ _ _
             (authenticateToken_ts_accepts jwt req token u w Hb Hne Hv)).
  assert (Hu : user (set_user req u) = Some u) by reflexivity.
  destruct (proj1 (proj1 (requirePlan_gate_cases [ "pro"; "pro_yearly" ]
                            (set_user req u) u w Hu)) Hn)
    as (res & E & Hres).
  unfold AuthTs.requirePlan.
  rewrite (run_chain_send _ _ _ _ _ _ _ E).
  exists res. split; [reflexivity | exact Hres].
Qed.

Lemma images_plan_gate_first_witness :
  exists res,
    serve (Routes.images_analyze Sample.jwt_verify)
      (Sample.request (Some "Bearer t1"))
      (Sample.world (Sample.store "free" "past_due" None 5 5))
    = (res, Sample.world (Sample.store "free" "past_due" None 5 5))
    /\ PlanUpgradeRequired res.
Proof.
  apply (images_plan_gate_first Sample.jwt_verify
           (Sample.request (Some "Bearer t1")) "t1"
           (Sample.req_user "free" "active" 0 5)).
  - reflexivity.
  - discriminate.
  - reflexivity.
  - simpl. intros [H|[H|[]]]; discriminate.
Defined.

(** ** Usage recording is best effort *)

(** X3. [incrementUsage] never answers the request and never throws: it
    always calls [next()] on the unchanged request, also when the update of
    the usage row fails. For a request without [req.user] and for a user
    whose limit is -1 it leaves the world untouched: unlimited plans are not
    counted. *)
Theorem incrementUsage_never_blocks (req : Request) (w : World) :
  exists w',
    Auth.incrementUsage req w = (Ok (Next req), w')
    /\ ((user req = None
         \/ exists u, user req = Some u /\ requestLimit (subscription u) = -1) ->
        w' = w).
Proof.
  unfold Auth.incrementUsage.
  destruct (user req) as [u|].
  - destruct (requestLimit (subscription u) =? -1) eqn:E; simpl.
    + exists w. split; [reflexivity | auto].
    + apply Z.eqb_neq in E.
      cbv beta iota zeta delta [try_catch bind Database.getCurrentMonth emit ret].
      destruct (Database.incrementUsage (id u) (now_month w)
                  (log_event (EvRecordUsage (id u) (now_month w)) w))
        as [[r|e] w1]; exists w1; (split; [reflexivity|]);
        intros [H|(u' & H & Hl)]; try discriminate;
        inversion H; subst; contradiction.
  - exists w. split; [reflexivity | auto].
Qed.

(** ** Lazy creation and exact accounting *)

Lemma getOrCreateUsageTracking_existing (uid m : string) (row : UsageRow)
  (w : World) :
  filter (Database.by_user_month uid m) (usage_tracking (db w)) = [ row ] ->
  Database.getOrCreateUsageTracking uid m w = (Ok row, w).
Proof.
  intros H. unfold Database.getOrCreateUsageTracking.
  cbv beta iota zeta delta [bind get_db ret]. rewrite H. reflexivity.
Qed.

(** X4. [getOrCreateUsageTracking] is idempotent: once it has answered a
    row for a user and month, asking again answers the same row and writes
    nothing, so the lazily created row is created once. *)
Theorem getOrCreateUsageTracking_idempotent (uid m : string) (row : UsageRow)
  (w w1 : World) :
  Database.getOrCreateUsageTracking uid m w = (Ok row, w1) ->
  Database.getOrCreateUsageTracking uid m w1 = (Ok row, w1).
Proof.
  intros H.
  destruct (getOrCreateUsageTracking_spec _ _ _ _ _ H)
    as (_ & _ & _ & _ & _ & Hrow & _).
  apply getOrCreateUsageTracking_existing. exact Hrow.
Qed.

Lemma getOrCreateUsageTracking_idempotent_witness :
  Database.getOrCreateUsageTracking "u1" Sample.july
    (snd (Database.getOrCreateUsageTracking "u1" Sample.july
            (Sample.world {| users := [ Sample.ana ];
                            subscriptions :=
                              [ Sample.sub_row "free" "active" None ];
                            usage_tracking := [] |})))
  = (Ok {| g_user_id := "u1"; g_month := Sample.july;
           requests_used := 0; request_limit := 5 |},
     snd (Database.getOrCreateUsageTracking "u1" Sample.july
            (Sample.world {| users := [ Sample.ana ];
                            subscriptions :=
                              [ Sample.sub_row "free" "active" None ];
                            usage_tracking := [] |}))).
Proof.
  apply (getOrCreateUsageTracking_idempotent "u1" Sample.july _
           (Sample.world {| users := [ Sample.ana ];
                            subscriptions :=
                              [ Sample.sub_row "free" "active" None ];
                            usage_tracking := [] |})).
  reflexivity.
Defined.

(** The store-reading middleware on a user who has this month's row: it
    writes nothing and hands on the view of the store. *)
Lemma authenticateToken_accepts (jwt : string -> Outcome ReqUser) (req : Request)
  (token : string) (decoded : ReqUser) (u : UserRow) (row : UsageRow) (w : World) :
  bearer_token (authorization req) = Some token -> token <> "" ->
  jwt token = Ok decoded ->
  filter (Database.by_id (id decoded)) (users (db w)) = [ u ] ->
  filter (Database.by_user_month (u_id u) (now_month w)) (usage_tracking (db w))
  = [ row ] ->
  Auth.authenticateToken jwt req w
  = (Ok (Next (set_user req (user_view u (subscription_of (db w) (u_id u)) row))),
     w).
Proof.
  intros Hb Hne Hv Hu Hrow. unfold Auth.authenticateToken. rewrite Hb.
  rewrite (require_token_present token _ Hne).
  cbv beta iota zeta delta [try_catch bind Database.lift Database.getUserById
    Database.getSubscriptionByUserId Database.getCurrentMonth get_db ret].
  rewrite Hv, Hu. cbn [Database.single].
  rewrite (getOrCreateUsageTracking_existing _ _ _ _ Hrow). reflexivity.
Qed.

Lemma update_usage_existing (uid m : string) (f : UsageRow -> UsageRow)
  (row : UsageRow) (w : World) :
  filter (Database.by_user_month uid m) (usage_tracking (db w)) = [ row ] ->
  Database.update_usage uid m f w
  = (Ok (f row),
     with_db w {| users := users (db w);
                  subscriptions := subscriptions (db w);
                  usage_tracking := on_user_month uid m f (usage_tracking (db w)) |}).
Proof.
  intros H. unfold Database.update_usage.
  cbv beta iota zeta delta [bind get_db put_db ret]. rewrite H. reflexivity.
Qed.

(** X5. What a request to POST /recipes/generate leaves in the store. For a
    user with a valid token, a valid body, an entitlement that passes the
    status check and a capped usage row for the month: below the cap the
    request reaches the handler, [Database.incrementUsage] is called before
    it and throws, and the store is exactly as it was, so the row keeps its
    count; at the cap the request is answered QuotaExceeded and nothing at
    all is written. *)
Theorem recipe_request_accounting (jwt : string -> Outcome ReqUser)
  (req : Request) (token : string) (decoded : ReqUser) (u : UserRow)
  (row : UsageRow) (w : World) :
  bearer_token (authorization req) = Some token -> token <> "" ->
  jwt token = Ok decoded ->
  filter (Database.by_id (id decoded)) (users (db w)) = [ u ] ->
  filter (Database.by_user_month (u_id u) (now_month w)) (usage_tracking (db w))
  = [ row ] ->
  validation_error req = false ->
  request_limit row <> -1 ->
  (let v := user_view u (subscription_of (db w) (u_id u)) row in
   status (subscription v) = "active" \/ plan (subscription v) = "free") ->
  (requests_used row < request_limit row ->
   exists res,
     serve (Routes.recipes_generate jwt) req w
     = (res,
        log_event (EvHandler "POST /recipes/generate")
          (log_event (EvRecordUsage (u_id u) (now_month w)) w)))
  /\ (requests_used row >= request_limit row ->
      exists res,
        serve (Routes.recipes_generate jwt) req w = (res, w)
        /\ QuotaExceeded
             (subscription (user_view u (subscription_of (db w) (u_id u)) row))
             res).
Proof.
  intros Hb Hne Hv Hu Hrow Hval Hcap Hst.
  set (v := user_view u (subscription_of (db w) (u_id u)) row) in *.
  assert (Hv' : user (set_user req v) = Some v) by reflexivity.
  assert (Hauth := authenticateToken_accepts jwt req token decoded u row w
                     Hb Hne Hv Hu Hrow). fold v in Hauth.
  unfold serve, Routes.recipes_generate. cbn [chain handler].
  rewrite (run_chain_next _ _ _ _ _ _ _ Hauth).
  destruct (checkSubscriptionLimits_cases (set_user req v) v w Hv')
    as [(Ha & Hf & _) | [(_ & _ & Hge & res & E & Hres) | (_ & Hadm & E)]].
  - exfalso. destruct Hst; contradiction.
  - split.
    + intros Hlt. simpl in Hge. lia.
    + intros _. rewrite (run_chain_send _ _ _ _ _ _ _ E).
      exists res. split; [reflexivity | exact Hres].
  - split.
    + intros _. unfold passes in E. rewrite (run_chain_next _ _ _ _ _ _ _ E).
      assert (Eval : validateRequest (set_user req v) w
                     = (Ok (Next (set_user req v)), w)).
      { unfold validateRequest. simpl. rewrite Hval. reflexivity. }
      rewrite (run_chain_next _ _ _ _ _ _ _ Eval).
      assert (Einc : Auth.incrementUsage (set_user req v) w
                     = (Ok (Next (set_user req v)),
                        log_event (EvRecordUsage (u_id u) (now_month w)) w)).
      { unfold Auth.incrementUsage. cbn [user set_user].
        assert (Hl : (requestLimit (subscription v) =? -1) = false)
          by (apply Z.eqb_neq; exact Hcap).
        rewrite Hl. cbn [negb].
        cbv beta iota zeta delta [try_catch bind Database.getCurrentMonth emit ret].
        rewrite incrementUsage_throws. reflexivity. }
      rewrite (run_chain_next _ _ _ _ _ _ _ Einc). cbn [run_chain].
      match goal with
      | |- context [generation_handler ?p ?a ?b ?q ?x] =>
          destruct (generation_handler_run p a b q x) as (res & Eh); rewrite Eh
      end.
      exists res. reflexivity.
    + intros Hge. simpl in Hadm. lia.
Qed.

Lemma recipe_request_accounting_witness :
  let w := Sample.world (Sample.store "free" "active" None 2 5) in
  exists res,
    serve (Routes.recipes_generate Sample.jwt_verify)
      (Sample.request (Some "Bearer t1")) w
    = (res,
       log_event (EvHandler "POST /recipes/generate")
         (log_event (EvRecordUsage "u1" Sample.july) w)).
Proof.
  apply (recipe_request_accounting Sample.jwt_verify
           (Sample.request (Some "Bearer t1")) "t1"
           (Sample.req_user "free" "active" 0 5) Sample.ana
           (Sample.usage_row 2 5)
           (Sample.world (Sample.store "free" "active" None 2 5))).
  - reflexivity.
  - discriminate.
  - reflexivity.
  - reflexivity.
  - reflexivity.
  - reflexivity.
  - simpl; discriminate.
  - left; reflexivity.
  - simpl; lia.
Defined.

(** ** What the persistence helpers write *)

Lemma createUser_effect (i e n h : string) (w w' : World) (o : Outcome UserRow) :
  Database.createUser i e n h w = (o, w') ->
  now_month w' = now_month w /\ upstream_ok w' = upstream_ok w
  /\ trace w' = trace w
  /\ subscriptions (db w') = subscriptions (db w)
  /\ usage_tracking (db w') = usage_tracking (db w)
  /\ ((exists row,
         o = Ok row
         /\ row = {| u_id := i; u_email := e; u_name := n; u_password_hash := h;
                     stripe_customer_id := None |}
         /\ users (db w') = (users (db w) ++ [ row ])%list
         /\ existsb (Database.by_email e) (users (db w)) = false
         /\ existsb (Database.by_id i) (users (db w)) = false)
      \/ (o = Throw Js.UniqueViolation /\ users (db w') = users (db w)
          /\ existsb (Database.by_email e) (users (db w))
             || existsb (Database.by_id i) (users (db w)) = true)).
Proof.
  unfold Database.createUser. run_m.
  destruct (existsb (Database.by_email e) (users (db w))
            || existsb (Database.by_id i) (users (db w))) eqn:E;
    intros H; inversion H; subst; simpl; repeat split; auto.
  apply orb_false_iff in E. destruct E as [E1 E2].
  left. eexists. repeat split; auto.
Qed.

Lemma updateUser_effect (i c : string) (w w' : World) (o : Outcome UserRow) :
  Database.updateUser i c w = (o, w') ->
  now_month w' = now_month w /\ upstream_ok w' = upstream_ok w
  /\ trace w' = trace w
  /\ subscriptions (db w') = subscriptions (db w)
  /\ usage_tracking (db w') = usage_tracking (db w)
  /\ map u_id (users (db w')) = map u_id (users (db w))
  /\ map u_email (users (db w')) = map u_email (users (db w)).
Proof.
  unfold Database.updateUser. run_m.
  destruct (filter (Database.by_id i) (users (db w))) as [|u [|u' l]] eqn:Hf;
    intros H; inversion H; subst; simpl; repeat split; auto;
    rewrite map_map; apply map_ext_in; intros x Hx;
    destruct (Database.by_id i x) eqn:Hp; auto; simpl;
    rewrite (filter_singleton_In _ _ _ _ Hf Hx Hp); reflexivity.
Qed.

Lemma createSubscription_effect (i p s : string) (w w' : World)
  (o : Outcome SubscriptionRow) :
  Database.createSubscription i p s w = (o, w') ->
  now_month w' = now_month w /\ upstream_ok w' = upstream_ok w
  /\ trace w' = trace w
  /\ users (db w') = users (db w)
  /\ usage_tracking (db w') = usage_tracking (db w)
  /\ exists row,
       o = Ok row
       /\ row = {| s_user_id := i; s_plan := p; s_status := s;
                   stripe_subscription_id := None;
                   current_period_start := None; current_period_end := None |}
       /\ subscriptions (db w') = (subscriptions (db w) ++ [ row ])%list.
Proof.
  unfold Database.createSubscription. run_m.
  intros H; inversion H; subst; simpl; repeat split; auto.
  eexists. repeat split.
Qed.

Lemma updateSubscription_effect (i : string) (u : Database.SubscriptionUpdates)
  (w w' : World) (o : Outcome SubscriptionRow) :
  Database.updateSubscription i u w = (o, w') ->
  now_month w' = now_month w /\ upstream_ok w' = upstream_ok w
  /\ trace w' = trace w
  /\ users (db w') = users (db w)
  /\ usage_tracking (db w') = usage_tracking (db w)
  /\ ((exists r,
         filter (Database.by_user_id i) (subscriptions (db w)) = [ r ]
         /\ o = Ok (Database.apply_updates u r)
         /\ subscriptions (db w')
            = map (fun x => if Database.by_user_id i x
                            then Database.apply_updates u x else x)
                  (subscriptions (db w)))
      \/ (o = Throw Js.PGRST116
          /\ subscriptions (db w') = subscriptions (db w)
          /\ forall r, filter (Database.by_user_id i) (subscriptions (db w))
                       <> [ r ])).
Proof.
  unfold Database.updateSubscription. run_m.
  destruct (filter (Database.by_user_id i) (subscriptions (db w)))
    as [|r [|r' l]] eqn:Hf;
    intros H; inversion H; subst; simpl; repeat split; auto.
  - right. repeat split; auto. intros r; discriminate.
  - left. exists r. repeat split; auto.
  - right. repeat split; auto. intros r0; discriminate.
Qed.

(** A relation that is a preorder, ignores the log and allows the writes of
    the six persistence helpers that write is respected by every operation. *)
Lemma operation_relates (R : World -> World -> Prop)
  (jwt : string -> Outcome ReqUser)
  (ce : string -> option string -> Outcome StripeService.StripeEvent) :
  (forall w, R w w) ->
  (forall a b c, R a b -> R b c -> R a c) ->
  (forall e w, R w (log_event e w)) ->
  (forall uid m, relates R (Database.getOrCreateUsageTracking uid m)) ->
  (forall uid m, relates R (Database.resetMonthlyUsage uid m)) ->
  (forall i c, relates R (Database.updateUser i c)) ->
  (forall i u, relates R (Database.updateSubscription i u)) ->
  (forall i e n h, relates R (Database.createUser i e n h)) ->
  (forall i p s, relates R (Database.createSubscription i p s)) ->
  forall w w', operation jwt ce w w' -> R w w'.
Proof.
  intros Hrefl Htrans Hlog Hgoc Hreset HupdU HupdS HcrU HcrS w w' Hop.
  destruct Hop as [w invalid i e n h | w invalid e ok | w r req Hin
                  | w planId created session req | w body sig].
  - destruct (AuthRoutes.register invalid i e n h w) as [o w'] eqn:E. simpl.
    eapply (relates_register R); eauto.
  - destruct (AuthRoutes.login invalid e ok w) as [o w'] eqn:E. simpl.
    eapply (relates_login R); eauto.
  - apply (relates_all_routes R Hrefl Htrans Hlog Hgoc jwt); assumption.
  - apply (relates_checkout R Hrefl Htrans Hgoc HupdU).
  - destruct (Subscriptions.webhook ce body sig w) as [o w'] eqn:E. simpl.
    eapply (relates_webhook R); eauto.
Qed.

(** Induction over the reachable worlds, one operation at a time. *)
Lemma reachable_by_operations (I : World -> Prop)
  (jwt : string -> Outcome ReqUser)
  (ce : string -> option string -> Outcome StripeService.StripeEvent) :
  (forall m up, I {| db := empty_store; now_month := m; upstream_ok := up;
                     trace := [] |}) ->
  (forall w m up, I w -> I (set_env w m up)) ->
  (forall w w', operation jwt ce w w' -> I w -> I w') ->
  forall w, reachable jwt ce w -> I w.
Proof.
  intros Hstart Henv Hop w Hr.
  induction Hr as [ m up
                  | w m up Hr IH
                  | w invalid new_id em nm hp Hr IH
                  | w invalid em ok Hr IH
                  | w r req Hr IH Hin
                  | w planId created session req Hr IH
                  | w body sig Hr IH ].
  - apply Hstart.
  - apply Henv. exact IH.
  - eapply Hop; [apply op_register | exact IH].
  - eapply Hop; [apply op_login | exact IH].
  - eapply Hop; [apply op_serve; exact Hin | exact IH].
  - eapply Hop; [apply op_checkout | exact IH].
  - eapply Hop; [apply op_webhook | exact IH].
Qed.

(** ** The month's limit is a snapshot *)

Lemma limit_snapshot_refl (w : World) : limit_snapshot w w.
Proof. exists []. rewrite app_nil_r. reflexivity. Qed.

Lemma limit_snapshot_trans (a b c : World) :
  limit_snapshot a b -> limit_snapshot b c -> limit_snapshot a c.
Proof.
  intros [f1 H1] [f2 H2]. exists (f1 ++ f2)%list.
  rewrite H2, H1, app_assoc. reflexivity.
Qed.

Lemma limit_snapshot_same_usage (w w' : World) :
  usage_tracking (db w') = usage_tracking (db w) -> limit_snapshot w w'.
Proof. intros H. exists []. rewrite H, app_nil_r. reflexivity. Qed.

Lemma on_user_month_keeps (uid m : string) (f : UsageRow -> UsageRow)
  (rows : list UsageRow) :
  (forall x, key_and_limit (f x) = key_and_limit x) ->
  map key_and_limit (on_user_month uid m f rows) = map key_and_limit rows.
Proof.
  intros Hf. unfold on_user_month. rewrite map_map. apply map_ext.
  intros x. destruct (Database.by_user_month uid m x); auto.
Qed.

Lemma limit_snapshot_update_usage (uid m : string) (f : UsageRow -> UsageRow) :
  (forall x, key_and_limit (f x) = key_and_limit x) ->
  relates limit_snapshot (Database.update_usage uid m f).
Proof.
  intros Hf w o w' H.
  destruct (update_usage_spec _ _ _ _ _ _ H)
    as (_ & _ & _ & _ & _ & [(r & _ & _ & Hmap) | (_ & Hsame)]).
  - exists []. rewrite app_nil_r, Hmap.
    apply (on_user_month_keeps uid m f). exact Hf.
  - apply limit_snapshot_same_usage. exact Hsame.
Qed.

Lemma limit_snapshot_getOrCreate (uid m : string) :
  relates limit_snapshot (Database.getOrCreateUsageTracking uid m).
Proof.
  intros w o w' H.
  destruct (getOrCreateUsageTracking_spec _ _ _ _ _ H)
    as (_ & _ & _ & _ & _ & Ho).
  destruct o as [row|e].
  - destruct Ho as [_ [Hsame | (Happ & _)]].
    + apply limit_snapshot_same_usage. exact Hsame.
    + exists [ key_and_limit row ]. rewrite Happ, map_app. reflexivity.
  - apply limit_snapshot_same_usage. exact Ho.
Qed.

(** X6. The request limit of a month is a snapshot: no operation of the
    server (registration, login, any route, checkout, any webhook
    notification) changes the key or the request_limit of a usage row that
    exists, or removes or reorders rows; rows are only appended. In
    particular a plan change by webhook leaves the limit of the month in
    progress as it was. *)
Theorem operations_keep_limit_snapshot (jwt : string -> Outcome ReqUser)
  (ce : string -> option string -> Outcome StripeService.StripeEvent)
  (w w' : World) :
  operation jwt ce w w' -> limit_snapshot w w'.
Proof.
  apply operation_relates.
  - apply limit_snapshot_refl.
  - apply limit_snapshot_trans.
  - intros e w0. apply limit_snapshot_same_usage. reflexivity.
  - apply limit_snapshot_getOrCreate.
  - intros uid m. apply limit_snapshot_update_usage. reflexivity.
  - intros i c w0 o w1 H. apply limit_snapshot_same_usage.
    apply (updateUser_effect _ _ _ _ _ H).
  - intros i u w0 o w1 H. apply limit_snapshot_same_usage.
    apply (updateSubscription_effect _ _ _ _ _ H).
  - intros i e n h w0 o w1 H. apply limit_snapshot_same_usage.
    apply (createUser_effect _ _ _ _ _ _ _ H).
  - intros i p s w0 o w1 H. apply limit_snapshot_same_usage.
    apply (createSubscription_effect _ _ _ _ _ _ H).
Qed.

Lemma operations_keep_limit_snapshot_witness :
  let w := Sample.world (Sample.store "free" "active" None 2 5) in
  let event := StripeService.customer_subscription_updated
                 (SampleStripe.basic_subscription "ana@example.com") in
  limit_snapshot w
    (snd (Subscriptions.webhook (SampleStripe.accept event) "{}"
            (Some "t=1,v1=00") w)).
Proof.
  apply (operations_keep_limit_snapshot Sample.jwt_verify
           (SampleStripe.accept
              (StripeService.customer_subscription_updated
                 (SampleStripe.basic_subscription "ana@example.com")))).
  apply op_webhook.
Defined.

(** ** One usage row per user and month *)

Lemma NoDup_snoc {A} (l : list A) (a : A) :
  NoDup l -> ~ In a l -> NoDup (l ++ [ a ]).
Proof.
  intros Hnd Hn. induction Hnd as [|x l Hx Hnd IH]; simpl.
  - constructor; [intros [] | constructor].
  - constructor.
    + intros Hin. apply in_app_or in Hin. destruct Hin as [Hin|[<-|[]]].
      * contradiction.
      * apply Hn. left; reflexivity.
    + apply IH. intros Hin. apply Hn. right; exact Hin.
Qed.

Lemma no_row_no_key (uid m : string) (rows : list UsageRow) :
  filter (Database.by_user_month uid m) rows = [] ->
  ~ In (uid, m) (map usage_key rows).
Proof.
  intros Hf Hin. apply in_map_iff in Hin. destruct Hin as (r & Hk & Hr).
  unfold usage_key in Hk. inversion Hk; subst.
  assert (H : In r (filter (Database.by_user_month (g_user_id r) (g_month r)) rows)).
  { apply filter_In. split; [exact Hr|].
    unfold Database.by_user_month. rewrite !String.eqb_refl. reflexivity. }
  rewrite Hf in H. destruct H.
Qed.

Lemma by_user_month_key (uid m : string) (r : UsageRow) :
  Database.by_user_month uid m r = true -> usage_key r = (uid, m).
Proof.
  unfold Database.by_user_month, usage_key. intros H.
  apply andb_true_iff in H. destruct H as [H1 H2].
  apply String.eqb_eq in H1. apply String.eqb_eq in H2. subst. reflexivity.
Qed.

Lemma snapshot_keys (w w' : World) :
  map key_and_limit (usage_tracking (db w'))
  = map key_and_limit (usage_tracking (db w)) ->
  map usage_key (usage_tracking (db w')) = map usage_key (usage_tracking (db w)).
Proof.
  intros H.
  assert (E : forall l, map usage_key l = map fst (map key_and_limit l)).
  { intros l. rewrite map_map. apply map_ext. intros r. reflexivity. }
  rewrite !E, H. reflexivity.
Qed.

(** X7. In every reachable world the usage table holds at most one row per
    user and month: lazy creation inserts only after its lookup found no row,
    and no update changes a key. *)
Theorem usage_rows_unique (jwt : string -> Outcome ReqUser)
  (ce : string -> option string -> Outcome StripeService.StripeEvent)
  (w : World) :
  reachable jwt ce w -> NoDup (map usage_key (usage_tracking (db w))).
Proof.
  apply (reachable_by_operations
           (fun w => NoDup (map usage_key (usage_tracking (db w))))).
  - intros m up. constructor.
  - intros w0 m up H. exact H.
  - intros w0 w1 Hop. revert w0 w1 Hop.
    apply (operation_relates
             (fun a b => NoDup (map usage_key (usage_tracking (db a))) ->
                         NoDup (map usage_key (usage_tracking (db b))))).
    + auto.
    + auto.
    + intros e w0 H. exact H.
    + intros uid m w0 o w1 H Hnd.
      destruct (getOrCreateUsageTracking_spec _ _ _ _ _ H)
        as (_ & _ & _ & _ & _ & Ho).
      destruct o as [row|e].
      * destruct Ho as [Hrow [Hsame | (Happ & Hnone & _)]].
        -- rewrite Hsame. exact Hnd.
        -- rewrite Happ, map_app. simpl.
           assert (Hk : usage_key row = (uid, m)).
           { apply by_user_month_key.
             assert (Hin : In row (filter (Database.by_user_month uid m)
                                     (usage_tracking (db w1))))
               by (rewrite Hrow; left; reflexivity).
             apply filter_In in Hin. apply Hin. }
           rewrite Hk. apply NoDup_snoc; [exact Hnd|].
           apply no_row_no_key. exact Hnone.
      * rewrite Ho. exact Hnd.
    + intros uid m w0 o w1 H Hnd.
      unfold Database.resetMonthlyUsage in H.
      destruct (update_usage_spec _ _ _ _ _ _ H)
        as (_ & _ & _ & _ & _ & [(r & _ & _ & Hmap) | (_ & Hsame)]).
      * rewrite (snapshot_keys w0 w1); [exact Hnd|].
        rewrite Hmap. apply (on_user_month_keeps uid m). reflexivity.
      * rewrite Hsame. exact Hnd.
    + intros i c w0 o w1 H Hnd.
      destruct (updateUser_effect _ _ _ _ _ H) as (_ & _ & _ & _ & Hu & _).
      rewrite Hu. exact Hnd.
    + intros i u w0 o w1 H Hnd.
      destruct (updateSubscription_effect _ _ _ _ _ H) as (_ & _ & _ & _ & Hu & _).
      rewrite Hu. exact Hnd.
    + intros i e n h w0 o w1 H Hnd.
      destruct (createUser_effect _ _ _ _ _ _ _ H) as (_ & _ & _ & _ & Hu & _).
      rewrite Hu. exact Hnd.
    + intros i p s w0 o w1 H Hnd.
      destruct (createSubscription_effect _ _ _ _ _ _ H)
        as (_ & _ & _ & _ & Hu & _).
      rewrite Hu. exact Hnd.
Qed.

Lemma sample_run_reachable :
  reachable Sample.jwt_verify
    (SampleStripe.accept (StripeService.other_event "ping")) SampleRun.after_six.
Proof.
  unfold SampleRun.after_six, SampleRun.after_five, SampleRun.ask.
  repeat (apply reach_serve; [|simpl; auto]).
  apply reach_register. apply reach_start.
Qed.

Lemma usage_rows_unique_witness :
  NoDup (map usage_key (usage_tracking (db SampleRun.after_six))).
Proof.
  apply (usage_rows_unique Sample.jwt_verify
           (SampleStripe.accept (StripeService.other_event "ping"))).
  apply sample_run_reachable.
Defined.

(** ** Who writes what *)

Lemma same_accounts_trans (a b c : World) :
  same_accounts a b -> same_accounts b c -> same_accounts a c.
Proof. intros [H1 H2] [H3 H4]. split; congruence. Qed.

Lemma same_accounts_getOrCreate (uid m : string) :
  relates same_accounts (Database.getOrCreateUsageTracking uid m).
Proof.
  intros w o w' H.
  destruct (getOrCreateUsageTracking_spec _ _ _ _ _ H)
    as (_ & _ & _ & Hu & Hs & _). split; assumption.
Qed.

(** X8. Serving a request never changes identity or entitlement: on every
    route of the server, and on login, the users and subscriptions tables
    come out as they went in (only the usage table and the log can change);
    checkout leaves the subscriptions table as it was. Plans and statuses
    change by webhook notifications alone. *)
Theorem requests_leave_entitlements (jwt : string -> Outcome ReqUser)
  (r : Route) (req : Request) (w : World) (invalid : bool) (e : string)
  (ok : bool) (planId : string) (created session : Outcome string) :
  In r (all_routes jwt) ->
  same_accounts w (snd (serve r req w))
  /\ same_accounts w (snd (AuthRoutes.login invalid e ok w))
  /\ subscriptions
       (db (snd (serve (Subscriptions.create_checkout_session jwt planId created
                          session) req w)))
     = subscriptions (db w).
Proof.
  intros Hin.
  assert (Hrefl : forall a, same_accounts a a) by (intros a; split; reflexivity).
  assert (Hlog : forall ev a, same_accounts a (log_event ev a))
    by (intros ev a; split; reflexivity).
  split; [|split].
  - apply (relates_all_routes same_accounts Hrefl same_accounts_trans Hlog
             same_accounts_getOrCreate jwt).
    exact Hin.
  - destruct (AuthRoutes.login invalid e ok w) as [o w'] eqn:E. simpl.
    eapply (relates_login same_accounts); eauto using same_accounts_trans,
      same_accounts_getOrCreate.
  - apply (relates_checkout
             (fun a b => subscriptions (db b) = subscriptions (db a))).
    + reflexivity.
    + intros a b c H1 H2. congruence.
    + intros uid m a o b H. apply (same_accounts_getOrCreate uid m a o b H).
    + intros i c a o b H. apply (updateUser_effect _ _ _ _ _ H).
Qed.

Lemma requests_leave_entitlements_witness :
  let w := Sample.world (Sample.store "basic" "active" (Some "sub_1") 3 50) in
  same_accounts w
    (snd (serve (Routes.recipes_generate Sample.jwt_verify)
            (Sample.request (Some "Bearer t1")) w)).
Proof.
  apply (requests_leave_entitlements Sample.jwt_verify
           (Routes.recipes_generate Sample.jwt_verify)
           (Sample.request (Some "Bearer t1"))
           (Sample.world (Sample.store "basic" "active" (Some "sub_1") 3 50))
           false "ana@example.com" true "basic" (Ok "cus_2") (Ok "cs_1")).
  unfold all_routes. simpl. auto.
Defined.

(** X9. The webhook never touches the users table, never starts a handler
    and never records usage: whatever the notification, verified or not, the
    users, the clock and the event log come out as they went in. *)
Theorem webhook_leaves_users_and_log
  (ce : string -> option string -> Outcome StripeService.StripeEvent)
  (body : string) (signature : option string) (w : World) :
  same_users_and_log w (snd (Subscriptions.webhook ce body signature w)).
Proof.
  destruct (Subscriptions.webhook ce body signature w) as [o w'] eqn:E. simpl.
  eapply (relates_webhook same_users_and_log); [| | | | |exact E].
  - intros a. repeat split.
  - intros a b c (H1 & H2 & H3) (H4 & H5 & H6). repeat split; congruence.
  - intros uid m a o1 b H.
    destruct (getOrCreateUsageTracking_spec _ _ _ _ _ H)
      as (Hm & _ & Ht & Hu & _). repeat split; assumption.
  - intros uid m a o1 b H. unfold Database.resetMonthlyUsage in H.
    destruct (update_usage_spec _ _ _ _ _ _ H) as (Hm & _ & Ht & Hu & _).
    repeat split; assumption.
  - intros i u a o1 b H.
    destruct (updateSubscription_effect _ _ _ _ _ H) as (Hm & _ & Ht & Hu & _).
    repeat split; assumption.
Qed.

(** ** The webhook, branch by branch *)

Lemma bind_ok {A B} (c : M A) (k : A -> M B) (w w1 : World) (a : A) :
  c w = (Ok a, w1) -> bind c k w = k a w1.
Proof. intros H. unfold bind. rewrite H. reflexivity. Qed.

Lemma bind_throw {A B} (c : M A) (k : A -> M B) (w w1 : World) (e : Js.Error) :
  c w = (Throw e, w1) -> bind c k w = (Throw e, w1).
Proof. intros H. unfold bind. rewrite H. reflexivity. Qed.

Lemma filter_on_same {A} (p : A -> bool) (g : A -> A) (l : list A) :
  (forall x, p (g x) = p x) ->
  filter p (map (fun x => if p x then g x else x) l) = map g (filter p l).
Proof.
  intros Hg. induction l as [|x l IH]; simpl; [reflexivity|].
  destruct (p x) eqn:E.
  - rewrite Hg, E. simpl. rewrite IH. reflexivity.
  - rewrite E. exact IH.
Qed.

Lemma filter_none {A} (p : A -> bool) (l : list A) :
  (forall x, In x l -> p x = false) -> filter p l = [].
Proof.
  intros H. induction l as [|x l IH]; simpl; [reflexivity|].
  rewrite (H x (or_introl eq_refl)). apply IH. intros y Hy. apply H.
  right; exact Hy.
Qed.

Lemma getSubscriptionByStripeId_existing (sid : string) (row : SubscriptionRow)
  (w : World) :
  filter (Database.by_stripe_id sid) (subscriptions (db w)) = [ row ] ->
  Database.getSubscriptionByStripeId sid w = (Ok row, w).
Proof.
  intros H. unfold Database.getSubscriptionByStripeId.
  cbv beta iota zeta delta [bind get_db Database.lift]. rewrite H. reflexivity.
Qed.

Lemma getSubscriptionByStripeId_missing (sid : string) (w : World) :
  filter (Database.by_stripe_id sid) (subscriptions (db w)) = [] ->
  Database.getSubscriptionByStripeId sid w = (Throw Js.PGRST116, w).
Proof.
  intros H. unfold Database.getSubscriptionByStripeId.
  cbv beta iota zeta delta [bind get_db Database.lift]. rewrite H. reflexivity.
Qed.

Lemma updateSubscription_existing (uid : string) (u : Database.SubscriptionUpdates)
  (row : SubscriptionRow) (w : World) :
  filter (Database.by_user_id uid) (subscriptions (db w)) = [ row ] ->
  Database.updateSubscription uid u w
  = (Ok (Database.apply_updates u row),
     with_db w (with_subscriptions (db w)
                  (on_user uid (Database.apply_updates u) (subscriptions (db w))))).
Proof.
  intros H. unfold Database.updateSubscription.
  cbv beta iota zeta delta [bind get_db put_db ret]. rewrite H. reflexivity.
Qed.

Lemma subscription_of_updated (uid : string)
  (g : SubscriptionRow -> SubscriptionRow)
  (row : SubscriptionRow) (rows : list SubscriptionRow) :
  (forall x, s_user_id (g x) = s_user_id x) ->
  filter (Database.by_user_id uid) rows = [ row ] ->
  filter (Database.by_user_id uid) (on_user uid g rows) = [ g row ].
Proof.
  intros Hg H. unfold on_user. rewrite filter_on_same; [rewrite H; reflexivity|].
  intros x. unfold Database.by_user_id. rewrite Hg. reflexivity.
Qed.

(** X10. A notification whose signature does not verify is rejected whole:
    the webhook answers 400 "Webhook error" and the world is exactly as it
    was, whatever the body claims. *)
Theorem webhook_rejects_bad_signature
  (ce : string -> option string -> Outcome StripeService.StripeEvent)
  (body : string) (signature : option string) (e : Js.Error) (w : World) :
  ce body signature = Throw e ->
  Subscriptions.webhook ce body signature w
  = (Ok (json 400 false "Webhook error"), w).
Proof.
  intros H. unfold Subscriptions.webhook, StripeService.handleWebhook.
  cbv beta iota zeta delta [try_catch bind Database.lift ret throw].
  rewrite H. reflexivity.
Qed.

Lemma webhook_rejects_bad_signature_witness :
  let w := Sample.world (Sample.store "basic" "active" (Some "sub_1") 3 50) in
  Subscriptions.webhook (fun _ _ => Throw (Js.ErrorMsg "No signatures found"))
    "{}" None w
  = (Ok (json 400 false "Webhook error"), w).
Proof.
  apply (webhook_rejects_bad_signature
           (fun _ _ => Throw (Js.ErrorMsg "No signatures found")) "{}" None
           (Js.ErrorMsg "No signatures found")).
  reflexivity.
Defined.

Lemma webhook_of_branch
  (ce : string -> option string -> Outcome StripeService.StripeEvent)
  (body : string) (signature : option string)
  (event : StripeService.StripeEvent) (w w' : World) (o : Outcome unit) :
  ce body signature = Ok event ->
  Subscriptions.handle_event event w = (o, w') ->
  Subscriptions.webhook ce body signature w
  = (Ok (match o with
         | Ok _ => Subscriptions.received_true
         | Throw _ => json 400 false "Webhook error"
         end), w').
Proof.
  intros Hv Hb. unfold Subscriptions.webhook, StripeService.handleWebhook.
  cbv beta iota zeta delta [try_catch bind Database.lift ret throw].
  rewrite Hv, Hb. destruct o as [[]|e]; reflexivity.
Qed.

Lemma filter_singleton_holds {A} (p : A -> bool) (l : list A) (r : A) :
  filter p l = [ r ] -> In r l /\ p r = true.
Proof.
  intros H. apply filter_In. rewrite H. left; reflexivity.
Qed.

(** The lazy creation for a user whose subscription row has just been set
    to the free plan. *)
Lemma getOrCreateUsageTracking_after_cancel (uid m : string)
  (row : SubscriptionRow) (w : World) :
  filter (Database.by_user_id uid) (subscriptions (db w)) = [ cancelled row ] ->
  (length (filter (Database.by_user_month uid m) (usage_tracking (db w))) <= 1)%nat ->
  exists r w',
    Database.getOrCreateUsageTracking uid m w = (Ok r, w')
    /\ users (db w') = users (db w)
    /\ subscriptions (db w') = subscriptions (db w)
    /\ now_month w' = now_month w /\ trace w' = trace w
    /\ (usage_tracking (db w') = usage_tracking (db w)
        \/ usage_tracking (db w')
           = (usage_tracking (db w)
                ++ [ {| g_user_id := uid; g_month := m; requests_used := 0;
                        request_limit := 5 |} ])%list).
Proof.
  intros Hsub Hlen.
  destruct (filter (Database.by_user_month uid m) (usage_tracking (db w)))
    as [|r [|r' l]] eqn:Hf.
  - unfold Database.getOrCreateUsageTracking, Database.getSubscriptionByUserId.
    cbv beta iota zeta delta [bind get_db put_db ret]. rewrite Hf, Hsub.
    cbn. eexists. eexists. split; [reflexivity|]. cbn. repeat split; auto.
  - exists r, w. rewrite (getOrCreateUsageTracking_existing _ _ _ _ Hf).
    repeat split; auto.
  - simpl in Hlen. lia.
Qed.

(** X11. A verified customer.subscription.deleted notification for a known
    Stripe subscription puts that user's entitlement on plan free with status
    cancelled and clears the subscription reference and the period, is
    acknowledged, and leaves every usage row as it was (at most the month's
    row is created, 0 of 5). Redelivering the same notification is then
    answered 400 "Webhook error", because the cleared reference no longer
    resolves, and changes nothing: the end state is the same. *)
Theorem subscription_deleted_then_redelivered
  (ce : string -> option string -> Outcome StripeService.StripeEvent)
  (body : string) (signature : option string)
  (s : StripeService.Subscription) (row : SubscriptionRow) (w : World) :
  ce body signature = Ok (StripeService.customer_subscription_deleted s) ->
  filter (Database.by_stripe_id (StripeService.sub_id s)) (subscriptions (db w))
  = [ row ] ->
  filter (Database.by_user_id (s_user_id row)) (subscriptions (db w)) = [ row ] ->
  (length (filter (Database.by_user_month (s_user_id row) (now_month w))
             (usage_tracking (db w))) <= 1)%nat ->
  exists w',
    Subscriptions.webhook ce body signature w = (Ok Subscriptions.received_true, w')
    /\ subscriptions (db w')
       = on_user (s_user_id row) cancelled (subscriptions (db w))
    /\ subscription_of (db w') (s_user_id row) = Some (cancelled row)
    /\ s_plan (cancelled row) = "free" /\ s_status (cancelled row) = "cancelled"
    /\ stripe_subscription_id (cancelled row) = None
    /\ (usage_tracking (db w') = usage_tracking (db w)
        \/ usage_tracking (db w')
           = (usage_tracking (db w)
                ++ [ {| g_user_id := s_user_id row; g_month := now_month w;
                        requests_used := 0; request_limit := 5 |} ])%list)
    /\ Subscriptions.webhook ce body signature w'
       = (Ok (json 400 false "Webhook error"), w').
Proof.
  intros Hv Hsid Huid Hlen.
  set (uid := s_user_id row) in *.
  set (w1 := with_db w (with_subscriptions (db w)
                          (on_user uid cancelled (subscriptions (db w))))).
  assert (Hsub1 : filter (Database.by_user_id uid) (subscriptions (db w1))
                  = [ cancelled row ]).
  { apply (subscription_of_updated uid cancelled row);
      [reflexivity | exact Huid]. }
  destruct (getOrCreateUsageTracking_after_cancel uid (now_month w) row w1 Hsub1 Hlen)
    as (r & w' & Hgoc & Hu & Hs & Hm & Ht & Husage).
  assert (Hbranch : Subscriptions.handle_event
                      (StripeService.customer_subscription_deleted s) w
                    = (Ok tt, w')).
  { unfold Subscriptions.handle_event.
    rewrite (bind_ok _ _ _ _ _ (getSubscriptionByStripeId_existing _ _ _ Hsid)).
    fold uid.
    rewrite (bind_ok _ _ _ _ _ (updateSubscription_existing uid _ row w Huid)).
    fold cancelled. fold w1.
    unfold Database.getCurrentMonth at 1. unfold bind at 1.
    change (now_month w1) with (now_month w).
    rewrite (bind_ok _ _ _ _ _ Hgoc). reflexivity. }
  assert (Hgone : filter (Database.by_stripe_id (StripeService.sub_id s))
                    (subscriptions (db w')) = []).
  { rewrite Hs. apply filter_none. intros x Hx. simpl in Hx. unfold on_user in Hx.
    apply in_map_iff in Hx. destruct Hx as (y & <- & Hy).
    destruct (Database.by_user_id uid y) eqn:Ey.
    - reflexivity.
    - destruct (Database.by_stripe_id (StripeService.sub_id s) y) eqn:Es;
        [|reflexivity].
      pose proof (filter_singleton_In _ _ _ _ Hsid Hy Es) as ->.
      destruct (filter_singleton_holds _ _ _ Huid) as [_ Hrow].
      congruence. }
  exists w'. split; [|split; [|split; [|split; [|split; [|split; [|split]]]]]].
  - rewrite (webhook_of_branch ce body signature _ w w' (Ok tt) Hv Hbranch).
    reflexivity.
  - rewrite Hs. reflexivity.
  - unfold subscription_of. rewrite Hs, Hsub1. reflexivity.
  - reflexivity.
  - reflexivity.
  - reflexivity.
  - exact Husage.
  - assert (Hthrow : Subscriptions.handle_event
                       (StripeService.customer_subscription_deleted s) w'
                     = (Throw Js.PGRST116, w')).
    { unfold Subscriptions.handle_event.
      rewrite (bind_throw _ _ _ _ _ (getSubscriptionByStripeId_missing _ _ Hgone)).
      reflexivity. }
    rewrite (webhook_of_branch ce body signature _ w' w' _ Hv Hthrow).
    reflexivity.
Qed.

Lemma subscription_deleted_then_redelivered_witness :
  let w := Sample.world (Sample.store "basic" "active" (Some "sub_1") 50 50) in
  let ce := SampleStripe.accept
              (StripeService.customer_subscription_deleted
                 (SampleStripe.basic_subscription "cus_1")) in
  exists w',
    Subscriptions.webhook ce "{}" (Some "t=1,v1=00") w
    = (Ok Subscriptions.received_true, w')
    /\ map s_plan (subscriptions (db w')) = [ "free" ]
    /\ usage_tracking (db w') = usage_tracking (db w)
    /\ Subscriptions.webhook ce "{}" (Some "t=1,v1=00") w'
       = (Ok (json 400 false "Webhook error"), w').
Proof.
  intros w ce.
  destruct (subscription_deleted_then_redelivered ce "{}" (Some "t=1,v1=00")
              (SampleStripe.basic_subscription "cus_1")
              (Sample.sub_row "basic" "active" (Some "sub_1")) w)
    as (w' & H1 & H2 & _ & _ & _ & _ & H3 & H4).
  - reflexivity.
  - reflexivity.
  - reflexivity.
  - simpl. lia.
  - exists w'. split; [exact H1|]. split; [rewrite H2; reflexivity|].
    split; [|exact H4].
    destruct H3 as [H3|H3]; [exact H3|].
    exfalso. unfold ce in H1. vm_compute in H1. inversion H1 as [Hw].
    rewrite <- Hw in H3. vm_compute in H3. discriminate H3.
Defined.



Lemma filter_on_user_month (uid m : string) (f : UsageRow -> UsageRow)
  (row : UsageRow) (rows : list UsageRow) :
  (forall x, usage_key (f x) = usage_key x) ->
  filter (Database.by_user_month uid m) rows = [ row ] ->
  filter (Database.by_user_month uid m) (on_user_month uid m f rows) = [ f row ].
Proof.
  intros Hf H. unfold on_user_month.
  rewrite filter_on_same; [rewrite H; reflexivity|].
  intros x. specialize (Hf x). unfold usage_key in Hf. inversion Hf as [[H1 H2]].
  unfold Database.by_user_month. rewrite H1, H2. reflexivity.
Qed.

(** X13. A verified invoice.payment_succeeded notification for a known
    subscription whose user has a usage row for the current month sets that
    row's requests_used to 0 and leaves its request_limit, every other row,
    the users and the subscriptions as they were, and is acknowledged.
    Afterwards that user, with an entitlement that passes the status check
    and a limit that is -1 or positive, passes the enforce step again, having
    been at the cap or not. *)
Theorem payment_succeeded_resets_month
  (ce : string -> option string -> Outcome StripeService.StripeEvent)
  (body : string) (signature : option string)
  (inv : StripeService.Invoice) (sid : string) (row : SubscriptionRow)
  (urow : UsageRow) (w : World) :
  ce body signature = Ok (StripeService.invoice_payment_succeeded inv) ->
  Subscriptions.truthy_ref (StripeService.invoice_subscription inv) = Some sid ->
  filter (Database.by_stripe_id sid) (subscriptions (db w)) = [ row ] ->
  filter (Database.by_user_month (s_user_id row) (now_month w))
         (usage_tracking (db w)) = [ urow ] ->
  exists w',
    Subscriptions.webhook ce body signature w = (Ok Subscriptions.received_true, w')
    /\ w' = with_db w (with_usage (db w)
                         (on_user_month (s_user_id row) (now_month w) none_used
                            (usage_tracking (db w))))
    /\ filter (Database.by_user_month (s_user_id row) (now_month w))
              (usage_tracking (db w'))
       = [ none_used urow ]
    /\ forall (jwt : string -> Outcome ReqUser) (req : Request) (token : string)
              (decoded : ReqUser) (u : UserRow),
         bearer_token (authorization req) = Some token -> token <> "" ->
         jwt token = Ok decoded ->
         filter (Database.by_id (id decoded)) (users (db w)) = [ u ] ->
         u_id u = s_user_id row ->
         request_limit urow = -1 \/ 0 < request_limit urow ->
         (let v := user_view u (subscription_of (db w) (u_id u)) (none_used urow) in
          status (subscription v) = "active" \/ plan (subscription v) = "free") ->
         let v := user_view u (subscription_of (db w) (u_id u)) (none_used urow) in
         Auth.authenticateToken jwt req w' = (Ok (Next (set_user req v)), w')
         /\ passes Auth.checkSubscriptionLimits (set_user req v) w'.
Proof.
  intros Hv Href Hsid Hrow.
  set (uid := s_user_id row) in *.
  set (w1 := with_db w (with_usage (db w)
                          (on_user_month uid (now_month w) none_used
                             (usage_tracking (db w))))).
  assert (Hbranch : Subscriptions.handle_event
                      (StripeService.invoice_payment_succeeded inv) w
                    = (Ok tt, w1)).
  { unfold Subscriptions.handle_event. rewrite Href.
    rewrite (bind_ok _ _ _ _ _ (getSubscriptionByStripeId_existing _ _ _ Hsid)).
    fold uid. unfold Database.getCurrentMonth at 1. unfold bind at 1.
    unfold Database.resetMonthlyUsage.
    rewrite (bind_ok _ _ _ _ _ (update_usage_existing uid _ _ urow w Hrow)).
    reflexivity. }
  assert (Hrow1 : filter (Database.by_user_month uid (now_month w))
                    (usage_tracking (db w1)) = [ none_used urow ]).
  { apply (filter_on_user_month uid (now_month w) none_used urow);
      [reflexivity | exact Hrow]. }
  exists w1. split; [|split; [reflexivity|split; [exact Hrow1|]]].
  - rewrite (webhook_of_branch ce body signature _ w w1 (Ok tt) Hv Hbranch).
    reflexivity.
  - intros jwt req token decoded u Hb Hne Hdec Hu Hid Hlim Hst v.
    assert (Hrow1' : filter (Database.by_user_month (u_id u) (now_month w1))
                       (usage_tracking (db w1)) = [ none_used urow ])
      by (rewrite Hid; exact Hrow1).
    assert (Hauth := authenticateToken_accepts jwt req token decoded u
                       (none_used urow) w1 Hb Hne Hdec Hu Hrow1').
    split; [exact Hauth|].
    assert (Hv' : user (set_user req v) = Some v) by reflexivity.
    destruct (checkSubscriptionLimits_cases (set_user req v) v w1 Hv')
      as [(Ha & Hf & _) | [(_ & Hl & Hge & _) | (_ & _ & E)]].
    + exfalso. destruct Hst; contradiction.
    + exfalso. cbn in Hl, Hge. lia.
    + exact E.
Qed.

Lemma payment_succeeded_resets_month_witness :
  let w := Sample.world (Sample.store "basic" "active" (Some "sub_1") 50 50) in
  let ce := SampleStripe.accept
              (StripeService.invoice_payment_succeeded SampleStripe.paid_invoice) in
  exists w',
    Subscriptions.webhook ce "{}" (Some "t=1,v1=00") w
    = (Ok Subscriptions.received_true, w')
    /\ filter (Database.by_user_month "u1" Sample.july) (usage_tracking (db w'))
       = [ Sample.usage_row 0 50 ].
Proof.
  intros w ce.
  destruct (payment_succeeded_resets_month ce "{}" (Some "t=1,v1=00")
              SampleStripe.paid_invoice "sub_1"
              (Sample.sub_row "basic" "active" (Some "sub_1"))
              (Sample.usage_row 50 50) w)
    as (w' & H1 & _ & H2 & _).
  - reflexivity.
  - reflexivity.
  - reflexivity.
  - reflexivity.
  - exists w'. split; [exact H1 | exact H2].
Defined.

(** ** Registration and login *)

Lemma free_plan_after_append (uid : string) (subs : list SubscriptionRow) :
  Database.getRequestLimitForPlan
    (Js.or_string
       (option_map s_plan
          (Database.data_or_null
             (filter (Database.by_user_id uid) (subs ++ [ free_subscription uid ]))))
       "free")
  = Js.Number 5.
Proof.
  rewrite filter_app. simpl. unfold Database.by_user_id at 2. simpl.
  rewrite String.eqb_refl.
  destruct (filter (Database.by_user_id uid) subs) as [|a [|b l]]; reflexivity.
Qed.

(** What a registration with a valid body does to the store. *)
Lemma register_effect (new_id email name hashedPassword : string) (w : World) :
  exists res w',
    AuthRoutes.register false new_id email name hashedPassword w = (Ok res, w')
    /\ now_month w' = now_month w /\ upstream_ok w' = upstream_ok w
    /\ trace w' = trace w
    /\ ((db w' = db w /\ res_status res <> 201
         /\ (Database.data_or_null
               (filter (Database.by_email email) (users (db w))) <> None
             \/ existsb (Database.by_email email) (users (db w))
                || existsb (Database.by_id new_id) (users (db w)) = true))
        \/ (existsb (Database.by_email email) (users (db w)) = false
            /\ existsb (Database.by_id new_id) (users (db w)) = false
            /\ users (db w')
               = (users (db w) ++ [ new_user new_id email name hashedPassword ])%list
            /\ subscriptions (db w')
               = (subscriptions (db w) ++ [ free_subscription new_id ])%list
            /\ ((usage_tracking (db w')
                 = (usage_tracking (db w)
                      ++ [ fresh_usage new_id (now_month w) 5 ])%list
                 /\ filter (Database.by_user_month new_id (now_month w))
                           (usage_tracking (db w)) = []
                 /\ res = json 201 true "User registered successfully")
                \/ (usage_tracking (db w') = usage_tracking (db w)
                    /\ filter (Database.by_user_month new_id (now_month w))
                              (usage_tracking (db w)) <> [])))).
Proof.
  unfold AuthRoutes.register.
  cbv beta iota zeta delta [try_catch bind Database.getUserByEmail
    Database.createUser Database.createSubscription Database.getCurrentMonth
    get_db put_db ret throw].
  destruct (Database.data_or_null (filter (Database.by_email email) (users (db w))))
    as [u|] eqn:Hfound.
  - eexists. eexists. split; [reflexivity|]. repeat split.
    left. split; [reflexivity | split; [discriminate | left; discriminate]].
  - destruct (existsb (Database.by_email email) (users (db w))
              || existsb (Database.by_id new_id) (users (db w))) eqn:Hex.
    + eexists. eexists. split; [reflexivity|]. repeat split.
      left. split; [reflexivity | split; [discriminate | right; reflexivity]].
    + apply orb_false_iff in Hex. destruct Hex as [Hex1 Hex2].
      cbn [db with_db users subscriptions usage_tracking now_month u_id].
      match goal with
      | |- context [Database.getOrCreateUsageTracking ?i ?m ?x] =>
          set (w1 := x);
          destruct (Database.getOrCreateUsageTracking i m w1) as [o w2] eqn:Hg
      end.
      unfold Database.getOrCreateUsageTracking, Database.getSubscriptionByUserId
        in Hg.
      cbv beta iota zeta delta [bind get_db put_db ret throw] in Hg.
      cbn [w1 db with_db users subscriptions usage_tracking] in Hg.
      destruct (filter (Database.by_user_month new_id (now_month w))
                  (usage_tracking (db w))) as [|r [|r' l]] eqn:Hf;
        cbv beta in Hg;
        cbn [w1 db with_db users subscriptions usage_tracking] in Hg;
        fold (free_subscription new_id) in Hg;
        try rewrite free_plan_after_append in Hg;
        inversion Hg; subst; clear Hg;
        (eexists; eexists; split; [reflexivity|]);
        cbn; repeat split; right; repeat split; auto.
      * right. split; [reflexivity | discriminate].
      * right. split; [reflexivity | discriminate].
Qed.

(** X14. Registration with a valid body, an e-mail address no user has, a
    fresh key and no usage row for that key answers 201 and adds exactly
    three rows: the user, a subscription on plan free with status active, and
    the month's usage row with 0 used of 5. Registration with an e-mail
    address that a user already has answers 400 "User already exists" and
    writes nothing. *)
Theorem register_creates_free_account (new_id email name hashedPassword : string)
  (w : World) :
  (existsb (Database.by_email email) (users (db w)) = false ->
   existsb (Database.by_id new_id) (users (db w)) = false ->
   filter (Database.by_user_month new_id (now_month w)) (usage_tracking (db w))
   = [] ->
   exists w',
     AuthRoutes.register false new_id email name hashedPassword w
     = (Ok (json 201 true "User registered successfully"), w')
     /\ users (db w')
        = (users (db w) ++ [ new_user new_id email name hashedPassword ])%list
     /\ subscriptions (db w')
        = (subscriptions (db w) ++ [ free_subscription new_id ])%list
     /\ usage_tracking (db w')
        = (usage_tracking (db w) ++ [ fresh_usage new_id (now_month w) 5 ])%list)
  /\ (forall u,
        filter (Database.by_email email) (users (db w)) = [ u ] ->
        AuthRoutes.register false new_id email name hashedPassword w
        = (Ok (json 400 false "User already exists"), w)).
Proof.
  split.
  - intros He Hi Hf.
    destruct (register_effect new_id email name hashedPassword w)
      as (res & w' & E & _ & _ & _
          & [(_ & _ & [Hsome|Hex]) | (_ & _ & Hu & Hs & Husage)]).
    + exfalso. apply Hsome.
      rewrite (filter_none (Database.by_email email) (users (db w)));
        [reflexivity|].
      intros x Hx. destruct (Database.by_email email x) eqn:Ex; [|reflexivity].
      assert (Ht : existsb (Database.by_email email) (users (db w)) = true)
        by (apply existsb_exists; exists x; auto).
      congruence.
    + rewrite He, Hi in Hex. discriminate.
    + destruct Husage as [(Ha & _ & ->) | (_ & Hne)]; [|contradiction].
      exists w'. auto.
  - intros u Hu. unfold AuthRoutes.register.
    cbv beta iota zeta delta [try_catch bind Database.getUserByEmail get_db ret].
    rewrite Hu. reflexivity.
Qed.

Lemma register_creates_free_account_witness :
  exists w',
    AuthRoutes.register false "u1" "ana@example.com" "Ana" "$2a$10$hash"
      SampleRun.start
    = (Ok (json 201 true "User registered successfully"), w')
    /\ users (db w')
       = [ new_user "u1" "ana@example.com" "Ana" "$2a$10$hash" ]
    /\ subscriptions (db w') = [ free_subscription "u1" ]
    /\ usage_tracking (db w') = [ fresh_usage "u1" Sample.july 5 ].
Proof.
  apply (register_creates_free_account "u1" "ana@example.com" "Ana"
           "$2a$10$hash" SampleRun.start); reflexivity.
Defined.

(** X15. A login that fails writes nothing: with an invalid body, an e-mail
    address that does not resolve to one user, or a wrong password, the
    answer is 400 or 401 and the world is exactly as it was; in particular no
    usage row is created. *)
Theorem failed_login_writes_nothing (invalid : bool) (email : string)
  (isValidPassword : bool) (w : World) :
  invalid = true
  \/ Database.data_or_null (filter (Database.by_email email) (users (db w))) = None
  \/ isValidPassword = false ->
  exists res,
    AuthRoutes.login invalid email isValidPassword w = (Ok res, w)
    /\ (res_status res = 400 \/ res_status res = 401).
Proof.
  intros H. unfold AuthRoutes.login.
  destruct invalid.
  - eexists. split; [reflexivity | left; reflexivity].
  - cbv beta iota zeta delta [try_catch bind Database.getUserByEmail get_db ret].
    destruct (Database.data_or_null (filter (Database.by_email email)
                                       (users (db w)))) as [u|] eqn:E.
    + destruct H as [H|[H|H]]; try discriminate. subst. simpl.
      eexists. split; [reflexivity | right; reflexivity].
    + eexists. split; [reflexivity | right; reflexivity].
Qed.

Lemma failed_login_writes_nothing_witness :
  let w := Sample.world
             {| users := [ Sample.ana ];
                subscriptions := [ Sample.sub_row "free" "active" None ];
                usage_tracking := [] |} in
  exists res,
    AuthRoutes.login false "ana@example.com" false w = (Ok res, w)
    /\ (res_status res = 400 \/ res_status res = 401).
Proof.
  apply (failed_login_writes_nothing false "ana@example.com" false).
  right; right; reflexivity.
Defined.

(** ** The plan tables *)

(** X16. The two plan tables agree and the lookups are round trips: for
    every plan of [SUBSCRIPTION_PLANS], [getPlanById] on its id and
    [getPlanByPriceId] on its price id give back that plan, and the limit
    that [Database.getRequestLimitForPlan] looks up for its id is the plan's
    own [requestLimit]. A plan found by price id carries that price id and is
    a plan of the table. *)
Theorem plan_tables_agree (p : StripeService.SubscriptionPlan) :
  In p StripeService.SUBSCRIPTION_PLANS ->
  StripeService.getPlanById (StripeService.id p) = Some p
  /\ StripeService.getPlanByPriceId (StripeService.stripePriceId p) = Some p
  /\ Database.getRequestLimitForPlan (StripeService.id p)
     = Js.Number (StripeService.requestLimit p)
  /\ forall priceId q,
       StripeService.getPlanByPriceId priceId = Some q ->
       In q StripeService.SUBSCRIPTION_PLANS
       /\ StripeService.stripePriceId q = priceId.
Proof.
  intros Hin.
  assert (Hconv : forall priceId q,
            StripeService.getPlanByPriceId priceId = Some q ->
            In q StripeService.SUBSCRIPTION_PLANS
            /\ StripeService.stripePriceId q = priceId).
  { intros priceId q H. unfold StripeService.getPlanByPriceId in H.
    apply find_some in H. destruct H as [H1 H2].
    apply String.eqb_eq in H2. auto. }
  simpl in Hin.
  destruct Hin as [<-|[<-|[<-|[<-|[]]]]];
    (split; [reflexivity|split; [reflexivity|split; [reflexivity|exact Hconv]]]).
Qed.

Lemma plan_tables_agree_witness :
  StripeService.getPlanByPriceId "price_basic_monthly"
  = nth_error StripeService.SUBSCRIPTION_PLANS 1
  /\ Database.getRequestLimitForPlan "basic" = Js.Number 50.
Proof.
  destruct (plan_tables_agree
              {| StripeService.id := "basic"; StripeService.name := "Basic Chef";
                 StripeService.stripePriceId := "price_basic_monthly";
                 StripeService.requestLimit := 50 |})
    as (_ & H2 & H3 & _).
  - simpl. auto.
  - split; [exact H2 | exact H3].
Defined.

(** ** The Authorization header *)

Lemma split_space_word (t : string) :
  no_space t = true -> Js.split_space t = [ t ].
Proof.
  induction t as [|c t IH]; simpl; [reflexivity|].
  intros H. apply andb_true_iff in H. destruct H as [Hc Ht].
  apply negb_true_iff in Hc. rewrite Hc, (IH Ht). reflexivity.
Qed.

Lemma split_space_first (a b : string) :
  no_space a = true ->
  Js.split_space (a ++ " " ++ b) = a :: Js.split_space b.
Proof.
  change (" " ++ b) with (String " "%char b).
  induction a as [|c a IH]; simpl; [reflexivity|].
  intros H. apply andb_true_iff in H. destruct H as [Hc Ha].
  apply negb_true_iff in Hc. rewrite Hc, (IH Ha). reflexivity.
Qed.

Lemma append_space_not_empty (a b : string) :
  String.eqb (a ++ " " ++ b) "" = false.
Proof. destruct a; reflexivity. Qed.

(** X17. How the Authorization header is read: of a header made of a first
    word, one space and a token without spaces, [authHeader.split(' ')[1]]
    is the token, whatever the first word is (the scheme is not compared
    with "Bearer"), and whatever follows a further space is ignored. *)
Theorem bearer_token_is_second_word (scheme token rest : string) :
  no_space scheme = true -> no_space token = true ->
  bearer_token (Some (scheme ++ " " ++ token)) = Some token
  /\ bearer_token (Some (scheme ++ " " ++ token ++ " " ++ rest)) = Some token.
Proof.
  intros Hs Ht. unfold bearer_token.
  rewrite !append_space_not_empty, !split_space_first by assumption.
  rewrite (split_space_word token Ht). split; reflexivity.
Qed.

Lemma bearer_token_is_second_word_witness :
  bearer_token (Some "Basic abc.def.ghi") = Some "abc.def.ghi"
  /\ bearer_token (Some "Basic abc.def.ghi trailing words")
     = Some "abc.def.ghi".
Proof.
  apply (bearer_token_is_second_word "Basic" "abc.def.ghi" "trailing words");
    reflexivity.
Defined.

(** ** Notifications the webhook has nothing to do for *)

(** X18. A verified notification of an event type the webhook does not
    handle, a subscription event whose customer field resolves to no user or
    whose first price belongs to no plan, and an invoice event without a
    subscription reference are acknowledged with [{received: true}] and the
    world is exactly as it was. *)
Theorem unmatched_notification_is_acknowledged
  (ce : string -> option string -> Outcome StripeService.StripeEvent)
  (body : string) (signature : option string)
  (event : StripeService.StripeEvent) (w : World) :
  ce body signature = Ok event ->
  unmatched (db w) event ->
  Subscriptions.webhook ce body signature w
  = (Ok Subscriptions.received_true, w).
Proof.
  intros Hv Hun.
  rewrite (webhook_of_branch ce body signature event w w (Ok tt) Hv);
    [reflexivity|].
  assert (Hsub : forall s,
            Database.data_or_null
              (filter (Database.by_email (StripeService.customer s))
                 (users (db w))) = None
            \/ (exists price rest,
                  StripeService.items s = price :: rest
                  /\ StripeService.getPlanByPriceId price = None) ->
            (u <- Database.getUserByEmail (StripeService.customer s) ;;
             match u with
             | Some u =>
                 price <- Subscriptions.first_price s ;;
                 match StripeService.getPlanByPriceId price with
                 | Some plan =>
                     _ <- Database.updateSubscription (u_id u)
                            {| Database.set_plan := Some (StripeService.id plan);
                               Database.set_status :=
                                 Some (StripeService.sub_status s);
                               Database.set_stripe_subscription_id :=
                                 Some (Some (StripeService.sub_id s));
                               Database.set_current_period_start :=
                                 Some (Some (StripeService.period_start s * 1000));
                               Database.set_current_period_end :=
                                 Some (Some (StripeService.period_end s * 1000)) |} ;;
                     currentMonth <- Database.getCurrentMonth ;;
                     usage <- Database.getOrCreateUsageTracking (u_id u)
                                currentMonth ;;
                     if Subscriptions.limit_differs (request_limit usage)
                          (Database.getRequestLimitForPlan (StripeService.id plan))
                     then
                       _ <- Database.updateUsageTracking (u_id u) currentMonth
                              (Database.getRequestLimitForPlan
                                 (StripeService.id plan)) ;;
                       ret tt
                     else ret tt
                 | None => ret tt
                 end
             | None => ret tt
             end) w = (Ok tt, w)).
  { intros s H.
    cbv beta iota zeta delta [bind Database.getUserByEmail get_db ret].
    destruct (Database.data_or_null
                (filter (Database.by_email (StripeService.customer s))
                   (users (db w)))) as [u|] eqn:E; [|reflexivity].
    destruct H as [H|(price & rest & Hi & Hp)]; [discriminate|].
    unfold Subscriptions.first_price. rewrite Hi.
    cbv beta iota zeta delta [ret]. rewrite Hp. reflexivity. }
  destruct event as [s|s|s|i|i|t]; simpl in Hun.
  - apply Hsub. exact Hun.
  - apply Hsub. exact Hun.
  - destruct Hun.
  - unfold Subscriptions.handle_event. rewrite Hun. reflexivity.
  - unfold Subscriptions.handle_event. rewrite Hun. reflexivity.
  - reflexivity.
Qed.

Lemma unmatched_notification_is_acknowledged_witness :
  let w := Sample.world (Sample.store "free" "active" None 0 5) in
  let event := StripeService.customer_subscription_updated
                 (SampleStripe.basic_subscription "cus_unknown") in
  Subscriptions.webhook (SampleStripe.accept event) "{}" (Some "t=1,v1=00") w
  = (Ok Subscriptions.received_true, w).
Proof.
  apply (unmatched_notification_is_acknowledged
           (SampleStripe.accept
              (StripeService.customer_subscription_updated
                 (SampleStripe.basic_subscription "cus_unknown")))
           "{}" (Some "t=1,v1=00")
           (StripeService.customer_subscription_updated
              (SampleStripe.basic_subscription "cus_unknown"))).
  - reflexivity.
  - left. reflexivity.
Defined.

(** ** Checkout *)

Lemma updateUser_existing (uid c : string) (u : UserRow) (w : World) :
  filter (Database.by_id uid) (users (db w)) = [ u ] ->
  Database.updateUser uid c w
  = (Ok (with_customer c u),
     with_db w (with_users (db w)
                  (map (fun r => if Database.by_id uid r then with_customer c u
                                 else r) (users (db w))))).
Proof.
  intros H. unfold Database.updateUser.
  cbv beta iota zeta delta [bind get_db put_db ret]. rewrite H. reflexivity.
Qed.

Lemma getUserById_existing (uid : string) (u : UserRow) (w : World) :
  filter (Database.by_id uid) (users (db w)) = [ u ] ->
  Database.getUserById uid w = (Ok u, w).
Proof.
  intros H. unfold Database.getUserById.
  cbv beta iota zeta delta [bind get_db Database.lift]. rewrite H. reflexivity.
Qed.

(** X19. The handler of POST /subscriptions/create-checkout-session, for an
    authenticated request. An unknown plan id and the free plan are answered
    400 "Invalid subscription plan" and nothing is written. For a paid plan
    and a user who has a Stripe customer id already, nothing is written
    either. For a paid plan and a user without one, the customer id Stripe
    returns is stored in that user's row before the session is requested, so
    it stays stored also when the session request fails and the answer is
    500. *)
Theorem checkout_handler (jwt : string -> Outcome ReqUser) (planId : string)
  (created session : Outcome string) (req : Request) (u : ReqUser) (w : World) :
  user req = Some u ->
  let h := handler (Subscriptions.create_checkout_session jwt planId created
                      session) in
  ((StripeService.getPlanById planId = None \/ planId = "free") ->
   h req w = (Ok (json 400 false "Invalid subscription plan"), w))
  /\ (forall p,
        StripeService.getPlanById planId = Some p -> planId <> "free" ->
        (forall c, Subscriptions.truthy_ref (stripeCustomerId u) = Some c ->
           h req w = (Ok (checkout_answer session), w))
        /\ (forall row c,
              Subscriptions.truthy_ref (stripeCustomerId u) = None ->
              filter (Database.by_id (id u)) (users (db w)) = [ row ] ->
              created = Ok c ->
              h req w
              = (Ok (checkout_answer session),
                 with_db w
                   (with_users (db w)
                      (map (fun r => if Database.by_id (id u) r
                                     then with_customer c row else r)
                           (users (db w))))))).
Proof.
  intros Hu h. unfold h. cbn [handler Subscriptions.create_checkout_session].
  rewrite Hu.
  assert (Hid : forall p, StripeService.getPlanById planId = Some p ->
                          StripeService.id p = planId).
  { intros p H. unfold StripeService.getPlanById in H. apply find_some in H.
    destruct H as [_ H]. apply String.eqb_eq in H. exact H. }
  split.
  - intros [Hnone | ->].
    + rewrite Hnone. reflexivity.
    + reflexivity.
  - intros p Hp Hnf. rewrite Hp.
    assert (Hfree : String.eqb (StripeService.id p) "free" = false).
    { apply String.eqb_neq. rewrite (Hid p Hp). exact Hnf. }
    rewrite Hfree. split.
    + intros c Hc. rewrite Hc.
      cbv beta iota zeta delta [try_catch bind Database.lift ret].
      destruct session; reflexivity.
    + intros row c Hc Hrow ->. rewrite Hc.
      unfold try_catch.
      rewrite (bind_ok _ _ _ _ _ (getUserById_existing _ _ _ Hrow)).
      unfold Database.lift at 1. unfold bind at 1.
      rewrite (bind_ok _ _ _ _ _ (updateUser_existing _ c _ _ Hrow)).
      cbv beta iota zeta delta [bind Database.lift ret].
      destruct session; reflexivity.
Qed.

Lemma checkout_handler_witness :
  let w := Sample.world
             {| users := [ new_user "u2" "bo@example.com" "Bo" "$2a$10$hash" ];
                subscriptions := [ free_subscription "u2" ];
                usage_tracking := [] |} in
  let req := set_user (Sample.request (Some "Bearer t2"))
               {| id := "u2"; email := "bo@example.com";
                  stripeCustomerId := None;
                  subscription := Sample.view "free" "active" 0 5 |} in
  handler (Subscriptions.create_checkout_session Sample.jwt_verify "pro"
             (Ok "cus_9") (Throw (Js.ErrorMsg "Failed to create subscription")))
    req w
  = (Ok (json 500 false "Failed to create checkout session"),
     with_db w
       (with_users (db w)
          [ with_customer "cus_9"
              (new_user "u2" "bo@example.com" "Bo" "$2a$10$hash") ])).
Proof.
  intros w req.
  destruct (checkout_handler Sample.jwt_verify "pro" (Ok "cus_9")
              (Throw (Js.ErrorMsg "Failed to create subscription")) req
              {| id := "u2"; email := "bo@example.com";
                 stripeCustomerId := None;
                 subscription := Sample.view "free" "active" 0 5 |} w eq_refl)
    as [_ H].
  destruct (H {| StripeService.id := "pro"; StripeService.name := "Pro Chef";
                 StripeService.stripePriceId := "price_pro_monthly";
                 StripeService.requestLimit := -1 |} eq_refl)
    as [_ H2].
  - discriminate.
  - apply (H2 (new_user "u2" "bo@example.com" "Bo" "$2a$10$hash") "cus_9");
      reflexivity.
Defined.

(** ** The shape of the accounts *)

Lemma filter_key_unique {A} (key : A -> string) (l : list A) (x : A) :
  NoDup (map key l) -> In x l ->
  filter (fun y => String.eqb (key y) (key x)) l = [ x ].
Proof.
  induction l as [|a l IH]; simpl; intros Hnd Hin; [contradiction|].
  inversion Hnd as [|k ks Hnotin Hnd']; subst.
  destruct Hin as [->|Hin].
  - rewrite String.eqb_refl. f_equal.
    apply filter_none. intros y Hy.
    apply String.eqb_neq. intros E. apply Hnotin. rewrite <- E.
    apply in_map. exact Hy.
  - assert (Hne : String.eqb (key a) (key x) = false).
    { apply String.eqb_neq. intros E. apply Hnotin. rewrite E.
      apply in_map. exact Hin. }
    rewrite Hne. apply IH; assumption.
Qed.

Lemma not_among_keys {A} (key : A -> string) (k : string) (l : list A) :
  existsb (fun y => String.eqb (key y) k) l = false -> ~ In k (map key l).
Proof.
  intros H Hin. apply in_map_iff in Hin. destruct Hin as (y & <- & Hy).
  assert (Ht : existsb (fun z => String.eqb (key z) (key y)) l = true).
  { apply existsb_exists. exists y. split; [exact Hy | apply String.eqb_refl]. }
  congruence.
Qed.

Lemma same_keys_trans (a b c : World) :
  same_keys a b -> same_keys b c -> same_keys a c.
Proof. intros (H1 & H2 & H3) (H4 & H5 & H6). repeat split; congruence. Qed.

Lemma same_keys_of_same_tables (a b : World) :
  users (db b) = users (db a) -> subscriptions (db b) = subscriptions (db a) ->
  same_keys a b.
Proof. intros H1 H2. unfold same_keys. rewrite H1, H2. auto. Qed.

Lemma same_keys_getOrCreate (uid m : string) :
  relates same_keys (Database.getOrCreateUsageTracking uid m).
Proof.
  intros w o w' H.
  destruct (getOrCreateUsageTracking_spec _ _ _ _ _ H)
    as (_ & _ & _ & Hu & Hs & _). apply same_keys_of_same_tables; assumption.
Qed.

Lemma same_keys_update_usage (uid m : string) (f : UsageRow -> UsageRow) :
  relates same_keys (Database.update_usage uid m f).
Proof.
  intros w o w' H.
  destruct (update_usage_spec _ _ _ _ _ _ H) as (_ & _ & _ & Hu & Hs & _).
  apply same_keys_of_same_tables; assumption.
Qed.

Lemma same_keys_updateUser (i c : string) :
  relates same_keys (Database.updateUser i c).
Proof.
  intros w o w' H.
  destruct (updateUser_effect _ _ _ _ _ H) as (_ & _ & _ & Hs & _ & Hi & He).
  unfold same_keys. rewrite Hs. auto.
Qed.

Lemma same_keys_updateSubscription (i : string)
  (u : Database.SubscriptionUpdates) :
  relates same_keys (Database.updateSubscription i u).
Proof.
  intros w o w' H.
  destruct (updateSubscription_effect _ _ _ _ _ H)
    as (_ & _ & _ & Hu & _ & [(r & _ & _ & Hs) | (_ & Hs & _)]);
    unfold same_keys; rewrite Hu, Hs; repeat split.
  rewrite map_map. apply map_ext. intros x.
  destruct (Database.by_user_id i x); reflexivity.
Qed.

(** Every operation but a registration keeps the keys of both tables. *)
Lemma operation_same_keys (jwt : string -> Outcome ReqUser)
  (ce : string -> option string -> Outcome StripeService.StripeEvent)
  (w w' : World) :
  operation jwt ce w w' ->
  same_keys w w'
  \/ exists new_id email name hashedPassword,
       w' = snd (AuthRoutes.register false new_id email name hashedPassword w).
Proof.
  assert (Hrefl : forall a, same_keys a a) by (intros a; repeat split).
  assert (Hlog : forall ev a, same_keys a (log_event ev a))
    by (intros ev a; repeat split).
  assert (Hreset : forall uid m,
             relates same_keys (Database.resetMonthlyUsage uid m))
    by (intros uid m; apply same_keys_update_usage).
  intros Hop.
  destruct Hop as [w invalid i e n h | w invalid e ok | w r req Hin
                  | w planId created session req | w body sig].
  - destruct invalid.
    + left. apply Hrefl.
    + right. exists i, e, n, h. reflexivity.
  - left. destruct (AuthRoutes.login invalid e ok w) as [o w'] eqn:E. simpl.
    eapply (relates_login same_keys); eauto using same_keys_trans,
      same_keys_getOrCreate.
  - left.
    apply (relates_all_routes same_keys Hrefl same_keys_trans Hlog
             same_keys_getOrCreate jwt); assumption.
  - left.
    apply (relates_checkout same_keys Hrefl same_keys_trans
             same_keys_getOrCreate same_keys_updateUser).
  - left. destruct (Subscriptions.webhook ce body sig w) as [o w'] eqn:E. simpl.
    eapply (relates_webhook same_keys);
      eauto using same_keys_trans, same_keys_getOrCreate,
        same_keys_updateSubscription.
Qed.

Lemma accounts_paired_register (new_id email name hashedPassword : string)
  (w : World) :
  accounts_paired (db w) ->
  accounts_paired
    (db (snd (AuthRoutes.register false new_id email name hashedPassword w))).
Proof.
  intros (Hid & Hem & Hpair).
  destruct (register_effect new_id email name hashedPassword w)
    as (res & w' & E & _ & _ & _
        & [(Hdb & _) | (He & Hi & Hu & Hs & _)]);
    rewrite E; simpl.
  - rewrite Hdb. repeat split; assumption.
  - unfold accounts_paired. rewrite Hu, Hs, !map_app. simpl.
    repeat split.
    + apply NoDup_snoc; [exact Hid|].
      apply (not_among_keys u_id). exact Hi.
    + apply NoDup_snoc; [exact Hem|].
      apply (not_among_keys u_email). exact He.
    + rewrite Hpair. reflexivity.
Qed.

(** X20. In every store the server can reach from the empty one (by
    registrations, logins, requests on its routes, checkouts and webhook
    notifications, the database answering every query), users have distinct
    keys and distinct e-mail addresses and the subscriptions table holds
    exactly one row per user. So for a stored user the three singular
    lookups find exactly one row: the user by key, the user by e-mail
    address, and the subscription by user key. *)
Theorem accounts_stay_paired (jwt : string -> Outcome ReqUser)
  (ce : string -> option string -> Outcome StripeService.StripeEvent)
  (w : World) :
  reachable jwt ce w ->
  accounts_paired (db w)
  /\ forall u, In u (users (db w)) ->
       filter (Database.by_id (u_id u)) (users (db w)) = [ u ]
       /\ filter (Database.by_email (u_email u)) (users (db w)) = [ u ]
       /\ exists s,
            filter (Database.by_user_id (u_id u)) (subscriptions (db w)) = [ s ].
Proof.
  intros Hr.
  assert (Hp : accounts_paired (db w)).
  { revert w Hr.
    apply (reachable_by_operations (fun w => accounts_paired (db w)) jwt ce).
    - intros m up. simpl. repeat split; constructor.
    - intros w m up H. exact H.
    - intros w w' Hop H.
      destruct (operation_same_keys jwt ce w w' Hop)
        as [(Hi & He & Hs) | (i & e & n & h & ->)].
      + destruct H as (H1 & H2 & H3). unfold accounts_paired.
        rewrite Hi, He, Hs. repeat split; assumption.
      + apply accounts_paired_register. exact H. }
  split; [exact Hp|].
  destruct Hp as (Hid & Hem & Hpair). intros u Hu.
  split; [|split].
  - apply (filter_key_unique u_id); assumption.
  - apply (filter_key_unique u_email); assumption.
  - assert (Hin : In (u_id u) (map s_user_id (subscriptions (db w)))).
    { rewrite Hpair. apply in_map. exact Hu. }
    apply in_map_iff in Hin. destruct Hin as (s & Hs & Hin).
    exists s. rewrite <- Hs.
    apply (filter_key_unique s_user_id); [|exact Hin].
    rewrite Hpair. exact Hid.
Qed.

Lemma accounts_stay_paired_witness :
  accounts_paired (db SampleRun.after_six)
  /\ forall u, In u (users (db SampleRun.after_six)) ->
       filter (Database.by_id (u_id u)) (users (db SampleRun.after_six)) = [ u ]
       /\ filter (Database.by_email (u_email u))
            (users (db SampleRun.after_six)) = [ u ]
       /\ exists s,
            filter (Database.by_user_id (u_id u))
              (subscriptions (db SampleRun.after_six)) = [ s ].
Proof.
  apply (accounts_stay_paired Sample.jwt_verify
           (SampleStripe.accept (StripeService.other_event "ping"))).
  apply sample_run_reachable.
Defined.

(** ** The plans that are stored *)

Ltac relates_step_eqn :=
  match goal with
  | |- relates _ (bind _ _) => apply relates_bind; [assumption| |intros ?]
  | |- relates _ (try_catch _ _) =>
      apply relates_try_catch; [assumption| |intros ?]
  | |- relates _ (match ?x with _ => _ end) => destruct x eqn:?
  | |- relates _ (if ?b then _ else _) => destruct b
  | |- relates _ _ => solve [auto with relates]
  end.

Lemma plans_kept_trans (a b c : World) :
  plans_kept a b -> plans_kept b c -> plans_kept a c.
Proof. unfold plans_kept. auto. Qed.

Lemma plans_kept_of_same_table (a b : World) :
  subscriptions (db b) = subscriptions (db a) -> plans_kept a b.
Proof. intros H. unfold plans_kept, known_plans. rewrite H. auto. Qed.

Lemma plans_kept_getOrCreate (uid m : string) :
  relates plans_kept (Database.getOrCreateUsageTracking uid m).
Proof.
  intros w o w' H.
  destruct (getOrCreateUsageTracking_spec _ _ _ _ _ H)
    as (_ & _ & _ & _ & Hs & _). apply plans_kept_of_same_table; assumption.
Qed.

Lemma plans_kept_update_usage (uid m : string) (f : UsageRow -> UsageRow) :
  relates plans_kept (Database.update_usage uid m f).
Proof.
  intros w o w' H.
  destruct (update_usage_spec _ _ _ _ _ _ H) as (_ & _ & _ & _ & Hs & _).
  apply plans_kept_of_same_table; assumption.
Qed.

Lemma plans_kept_updateUser (i c : string) :
  relates plans_kept (Database.updateUser i c).
Proof.
  intros w o w' H.
  destruct (updateUser_effect _ _ _ _ _ H) as (_ & _ & _ & Hs & _).
  apply plans_kept_of_same_table; assumption.
Qed.

(** An update that sets no plan, or the id of a known one. *)
Lemma plans_kept_updateSubscription (i : string)
  (u : Database.SubscriptionUpdates) :
  (forall p, Database.set_plan u = Some p -> In p plan_ids) ->
  relates plans_kept (Database.updateSubscription i u).
Proof.
  intros Hu w o w' H.
  destruct (updateSubscription_effect _ _ _ _ _ H)
    as (_ & _ & _ & _ & _ & [(r & _ & _ & Hs) | (_ & Hs & _)]);
    [|apply plans_kept_of_same_table; assumption].
  unfold plans_kept, known_plans. rewrite Hs. intros Hk.
  apply Forall_forall. intros x Hx. apply in_map_iff in Hx.
  destruct Hx as (y & <- & Hy).
  rewrite Forall_forall in Hk. specialize (Hk y Hy).
  destruct (Database.by_user_id i y); [|exact Hk].
  unfold Database.apply_updates. simpl.
  destruct (Database.set_plan u) as [p|] eqn:Ep; unfold Database.pick; simpl.
  - apply Hu. reflexivity.
  - exact Hk.
Qed.

Lemma priced_plan_is_known (price : string) (plan : StripeService.SubscriptionPlan) :
  StripeService.getPlanByPriceId price = Some plan ->
  In (StripeService.id plan) plan_ids.
Proof.
  intros H. unfold StripeService.getPlanByPriceId in H.
  apply find_some in H. destruct H as [H _].
  unfold plan_ids. apply in_map. exact H.
Qed.

Lemma plans_kept_handle_event (event : StripeService.StripeEvent) :
  relates plans_kept (Subscriptions.handle_event event).
Proof.
  assert (Hrefl : forall a, plans_kept a a) by (intros a H; exact H).
  assert (Htrans := plans_kept_trans).
  assert (Hgoc := plans_kept_getOrCreate).
  assert (Hreset : forall uid m,
             relates plans_kept (Database.resetMonthlyUsage uid m))
    by (intros uid m; apply plans_kept_update_usage).
  destruct event; unfold Subscriptions.handle_event, Subscriptions.first_price;
    repeat relates_step_eqn;
    apply plans_kept_updateSubscription; cbn [Database.set_plan]; intros p Hp;
    inversion Hp; subst;
    first [ eapply priced_plan_is_known; eassumption | simpl; auto ].
Qed.

Lemma plans_kept_webhook
  (ce : string -> option string -> Outcome StripeService.StripeEvent)
  (body : string) (signature : option string) :
  relates plans_kept (Subscriptions.webhook ce body signature).
Proof.
  assert (Hrefl : forall a, plans_kept a a) by (intros a H; exact H).
  assert (Htrans := plans_kept_trans).
  unfold Subscriptions.webhook, StripeService.handleWebhook.
  pose proof plans_kept_handle_event. repeat relates_step.
Qed.

Lemma known_plans_register (new_id email name hashedPassword : string)
  (w : World) :
  known_plans (db w) ->
  known_plans
    (db (snd (AuthRoutes.register false new_id email name hashedPassword w))).
Proof.
  intros Hk.
  destruct (register_effect new_id email name hashedPassword w)
    as (res & w' & E & _ & _ & _ & [(Hdb & _) | (_ & _ & _ & Hs & _)]);
    rewrite E; simpl.
  - rewrite Hdb. exact Hk.
  - unfold known_plans. rewrite Hs. apply Forall_app. split; [exact Hk|].
    constructor; [|constructor]. simpl. left. reflexivity.
Qed.

Lemma known_plan_limit (p : string) :
  In p plan_ids ->
  exists plan,
    StripeService.getPlanById p = Some plan
    /\ Database.getRequestLimitForPlan p
       = Js.Number (StripeService.requestLimit plan).
Proof.
  intros H. simpl in H.
  repeat (destruct H as [<-|H]; [eexists; split; reflexivity|]).
  destruct H.
Qed.

(** X21. In every store the server can reach from the empty one, the plan of
    every subscription row is the id of an entry of SUBSCRIPTION_PLANS: a
    registration stores free, the webhook stores the id of the plan it found
    by price, or free on a deletion, and nothing else writes the column. So
    for a stored plan getRequestLimitForPlan answers the requestLimit of that
    entry, never the default after [||]. *)
Theorem stored_plans_are_known (jwt : string -> Outcome ReqUser)
  (ce : string -> option string -> Outcome StripeService.StripeEvent)
  (w : World) :
  reachable jwt ce w ->
  forall s, In s (subscriptions (db w)) ->
    exists plan,
      StripeService.getPlanById (s_plan s) = Some plan
      /\ Database.getRequestLimitForPlan (s_plan s)
         = Js.Number (StripeService.requestLimit plan).
Proof.
  intros Hr.
  assert (Hk : known_plans (db w)).
  { revert w Hr.
    apply (reachable_by_operations (fun w => known_plans (db w)) jwt ce).
    - intros m up. constructor.
    - intros w m up H. exact H.
    - assert (Hrefl : forall a, plans_kept a a) by (intros a H; exact H).
      assert (Hlog : forall ev a, plans_kept a (log_event ev a))
        by (intros ev a H; exact H).
      intros w w' Hop.
      destruct Hop as [w invalid i e n h | w invalid e ok | w r req Hin
                      | w planId created session req | w body sig].
      + destruct invalid; [auto | apply known_plans_register].
      + destruct (AuthRoutes.login invalid e ok w) as [o w'] eqn:E. simpl.
        eapply (relates_login plans_kept); eauto using plans_kept_trans,
          plans_kept_getOrCreate.
      + apply (relates_all_routes plans_kept Hrefl plans_kept_trans Hlog
                 plans_kept_getOrCreate jwt); assumption.
      + apply (relates_checkout plans_kept Hrefl plans_kept_trans
                 plans_kept_getOrCreate plans_kept_updateUser).
      + destruct (Subscriptions.webhook ce body sig w) as [o w'] eqn:E. simpl.
        eapply plans_kept_webhook; eauto. }
  intros s Hs. apply known_plan_limit.
  unfold known_plans in Hk. rewrite Forall_forall in Hk. apply Hk. exact Hs.
Qed.

Lemma stored_plans_are_known_witness :
  In (free_subscription "u1") (subscriptions (db SampleRun.after_six))
  /\ exists plan,
       StripeService.getPlanById (s_plan (free_subscription "u1")) = Some plan
       /\ Database.getRequestLimitForPlan (s_plan (free_subscription "u1"))
          = Js.Number (StripeService.requestLimit plan).
Proof.
  assert (Hin : In (free_subscription "u1")
                  (subscriptions (db SampleRun.after_six)))
    by (vm_compute; left; reflexivity).
  split; [exact Hin|].
  apply (stored_plans_are_known Sample.jwt_verify
           (SampleStripe.accept (StripeService.other_event "ping"))
           SampleRun.after_six sample_run_reachable _ Hin).
Defined.

(** ** Requests that fail validation *)

(** A chain whose middleware [stop] answers every request satisfying [P]
    never gets past it, when the middlewares before it hand [P] on. *)
Lemma run_chain_stops (R : World -> World -> Prop) (P : Request -> Prop)
  (ms rest : list Middleware) (stop : Middleware) (h : Request -> M Response) :
  (forall w, R w w) ->
  (forall a b c, R a b -> R b c -> R a c) ->
  (forall m, In m ms -> forall req, relates R (m req)) ->
  (forall m, In m ms -> forall req w req' w',
      P req -> m req w = (Ok (Next req'), w') -> P req') ->
  (forall req w, P req -> exists res, stop req w = (Ok (Send res), w)) ->
  forall req, P req -> relates R (run_chain (ms ++ stop :: rest) h req).
Proof.
  intros Hrefl Htrans Hrel Hnext Hstop.
  induction ms as [|m ms IH]; intros req HP w o w' H; simpl in H.
  - destruct (Hstop req w HP) as (res & E).
    rewrite (bind_ok _ _ _ _ _ E) in H. inversion H; subst. apply Hrefl.
  - destruct (bind_inv _ _ _ _ _ H) as [(a & w1 & H1 & H2) | (e & H1 & _)].
    + apply (Htrans w w1 w').
      * apply (Hrel m (or_introl eq_refl) req w _ w1 H1).
      * destruct a as [req'|res].
        -- apply (IH (fun m' Hin => Hrel m' (or_intror Hin))
                     (fun m' Hin => Hnext m' (or_intror Hin)) req'
                     (Hnext m (or_introl eq_refl) req w req' w1 HP H1)
                     w1 o w' H2).
        -- inversion H2; subst. apply Hrefl.
    + apply (Hrel m (or_introl eq_refl) req w _ w' H1).
Qed.

Lemma nothing_metered_refl (w : World) : nothing_metered w w.
Proof.
  repeat split. exists []. split; [symmetry; apply app_nil_r | constructor].
Qed.

Lemma nothing_metered_trans (a b c : World) :
  nothing_metered a b -> nothing_metered b c -> nothing_metered a c.
Proof.
  intros (H1 & H2 & H3 & f1 & H4 & H5) (H6 & H7 & H8 & f2 & H9 & H10).
  repeat split; try congruence.
  exists (f1 ++ f2)%list. split.
  - rewrite H9, H4, app_assoc. reflexivity.
  - apply Forall_app. split; assumption.
Qed.

Lemma nothing_metered_getOrCreate (uid m : string) :
  relates nothing_metered (Database.getOrCreateUsageTracking uid m).
Proof.
  intros w o w' H.
  destruct (getOrCreateUsageTracking_spec _ _ _ _ _ H)
    as (_ & _ & Ht & Hu & Hs & Ho).
  repeat split; try assumption.
  destruct o as [row|e].
  - destruct Ho as (_ & [Hsame | (Hadd & _ & Hzero & _)]).
    + exists []. rewrite Hsame, app_nil_r. split; [reflexivity | constructor].
    + exists [ row ]. split; [exact Hadd | constructor; [exact Hzero | constructor]].
  - exists []. rewrite Ho, app_nil_r. split; [reflexivity | constructor].
Qed.

Lemma authenticateToken_next (jwt : string -> Outcome ReqUser)
  (req req' : Request) (w w' : World) :
  Auth.authenticateToken jwt req w = (Ok (Next req'), w') ->
  validation_error req' = validation_error req.
Proof.
  intros H.
  destruct (authenticateToken_reads_store jwt req w w' _ H)
    as (_ & _ & _ & _ & _ & _ & step & Hs & Hn).
  inversion Hs; subst.
  destruct (Hn req' eq_refl) as (u & row & -> & _). reflexivity.
Qed.

Lemma requirePlan_next (plans : list string) (req req' : Request) (w w' : World) :
  Auth.requirePlan plans req w = (Ok (Next req'), w') -> req' = req.
Proof.
  intros H. destruct (requirePlan_cases plans req w) as [(res & E) | E];
    rewrite E in H; inversion H; reflexivity.
Qed.

Lemma checkSubscriptionLimits_next (req req' : Request) (w w' : World) :
  Auth.checkSubscriptionLimits req w = (Ok (Next req'), w') -> req' = req.
Proof.
  unfold Auth.checkSubscriptionLimits.
  destruct (user req) as [u|]; [|intros H; inversion H].
  cbv zeta.
  destruct (Js.strict_neq _ _ && Js.strict_neq _ _); [intros H; inversion H|].
  destruct (negb _ && _); intros H; inversion H; reflexivity.
Qed.

(** X22. A body that fails validation is never metered. On the three metered
    routes (POST /recipes/generate, /recipes/substitutions and
    /meal-plans/generate), for any request whose body fails the schema,
    whatever its credentials: the log is as it was (no usage is recorded and
    the handler does not run), users and subscriptions are as they were, and
    every usage row keeps its count; at most, rows with nothing used were
    created. *)
Theorem invalid_body_is_not_metered (jwt : string -> Outcome ReqUser)
  (r : Route) (req : Request) (w : World) :
  In r (metered_routes jwt) -> validation_error req = true ->
  nothing_metered w (snd (serve r req w)).
Proof.
  intros Hin Hbad. apply relates_serve.
  assert (Hauth : forall q, relates nothing_metered (Auth.authenticateToken jwt q))
    by exact (relates_authenticateToken nothing_metered nothing_metered_refl
                nothing_metered_trans nothing_metered_getOrCreate jwt).
  assert (Hplan : forall p q, relates nothing_metered (Auth.requirePlan p q))
    by exact (relates_requirePlan nothing_metered nothing_metered_refl).
  assert (Hlim : forall q, relates nothing_metered (Auth.checkSubscriptionLimits q))
    by exact (relates_checkSubscriptionLimits nothing_metered
                nothing_metered_refl).
  assert (Hstop : forall q x, validation_error q = true ->
                    exists res, validateRequest q x = (Ok (Send res), x)).
  { intros q x Hq. unfold validateRequest. rewrite Hq. eexists. reflexivity. }
  unfold metered_routes in Hin. simpl in Hin.
  destruct Hin as [<-|[<-|[<-|[]]]]; cbn [chain handler Routes.recipes_generate
    Routes.recipes_substitutions Routes.meal_plans_generate].
  - apply (run_chain_stops nothing_metered
             (fun q => validation_error q = true)
             [ Auth.authenticateToken jwt; Auth.checkSubscriptionLimits ]
             [ Auth.incrementUsage ] validateRequest);
      try first [ exact nothing_metered_refl | exact nothing_metered_trans
                | exact Hstop | exact Hbad ].
    + intros m [<-|[<-|[]]] q; auto.
    + intros m [<-|[<-|[]]] q x q' x' Hq E.
      * rewrite (authenticateToken_next _ _ _ _ _ E). exact Hq.
      * rewrite (checkSubscriptionLimits_next _ _ _ _ E). exact Hq.
  - apply (run_chain_stops nothing_metered
             (fun q => validation_error q = true)
             [ Auth.authenticateToken jwt;
               Auth.requirePlan [ "basic"; "pro"; "pro_yearly" ];
               Auth.checkSubscriptionLimits ]
             [ Auth.incrementUsage ] validateRequest);
      try first [ exact nothing_metered_refl | exact nothing_metered_trans
                | exact Hstop | exact Hbad ].
    + intros m [<-|[<-|[<-|[]]]] q; auto.
    + intros m [<-|[<-|[<-|[]]]] q x q' x' Hq E.
      * rewrite (authenticateToken_next _ _ _ _ _ E). exact Hq.
      * rewrite (requirePlan_next _ _ _ _ _ E). exact Hq.
      * rewrite (checkSubscriptionLimits_next _ _ _ _ E). exact Hq.
  - apply (run_chain_stops nothing_metered
             (fun q => validation_error q = true)
             [ Auth.authenticateToken jwt; Auth.checkSubscriptionLimits ]
             [ Auth.incrementUsage ] validateRequest);
      try first [ exact nothing_metered_refl | exact nothing_metered_trans
                | exact Hstop | exact Hbad ].
    + intros m [<-|[<-|[]]] q; auto.
    + intros m [<-|[<-|[]]] q x q' x' Hq E.
      * rewrite (authenticateToken_next _ _ _ _ _ E). exact Hq.
      * rewrite (checkSubscriptionLimits_next _ _ _ _ E). exact Hq.
Qed.

Lemma invalid_body_is_not_metered_witness :
  let w := Sample.world (Sample.store "free" "active" None 2 5) in
  nothing_metered w
    (snd (serve (Routes.recipes_generate Sample.jwt_verify)
            {| authorization := Some "Bearer t1"; validation_error := true;
               file_present := false; file_too_large := false; user := None |}
            w)).
Proof.
  apply (invalid_body_is_not_metered Sample.jwt_verify
           (Routes.recipes_generate Sample.jwt_verify)).
  - simpl. auto.
  - reflexivity.
Defined.

(** * Recipes and meal plans *)

Section DocumentsFacts.

Import Documents.

Variable is_uuid : string -> bool.

Lemma by_id_and_user_true (rid userId : string) (r : DocumentRow) :
  by_id_and_user rid userId r = true <-> d_id r = rid /\ d_user_id r = userId.
Proof.
  unfold by_id_and_user. rewrite andb_true_iff, !String.eqb_eq. reflexivity.
Qed.

Lemma filter_singleton_member {A} (p : A -> bool) (l : list A) (r : A) :
  filter p l = [ r ] -> In r l /\ p r = true.
Proof.
  intros H. apply filter_In. rewrite H. left. reflexivity.
Qed.

Lemma filter_negb_none {A} (p : A -> bool) (l : list A) :
  filter p (filter (fun x => negb (p x)) l) = [].
Proof.
  induction l as [|a l IH]; simpl; [reflexivity|].
  destruct (p a) eqn:E; simpl; [exact IH | rewrite E; exact IH].
Qed.

Lemma filter_negb_twice {A} (p : A -> bool) (l : list A) :
  filter (fun x => negb (p x)) (filter (fun x => negb (p x)) l)
  = filter (fun x => negb (p x)) l.
Proof.
  induction l as [|a l IH]; simpl; [reflexivity|].
  destruct (p a) eqn:E; simpl; [exact IH | rewrite E; simpl; f_equal; exact IH].
Qed.

(** X23. GET /recipes/:id and GET /meal-plans/:id never answer 404: the
    lookup ends in [.single()] and the helper throws on its error, so the
    [if (!recipe)] branch is not reached. When data is returned the answer is
    200 and the row is in the table, has the key asked for and belongs to the
    caller. When no row with that key belongs to the caller (there is none,
    or it is someone else's) the answer is 500 "Failed to retrieve ..." and
    no data. *)
Theorem document_lookup (Name name rid : string) (req : Request)
  (table : list DocumentRow) :
  res_status (fst (get_one is_uuid Name name rid req table)) <> 404
  /\ (forall r,
        snd (get_one is_uuid Name name rid req table) = Some r ->
        fst (get_one is_uuid Name name rid req table)
        = json 200 true (Name ++ " retrieved successfully")
        /\ In r table /\ d_id r = rid
        /\ option_map id (user req) = Some (d_user_id r))
  /\ ((forall r u, In r table -> d_id r = rid -> user req = Some u ->
         d_user_id r <> id u) ->
      get_one is_uuid Name name rid req table
      = (json 500 false ("Failed to retrieve " ++ name), None)).
Proof.
  unfold get_one, getRecipeById.
  destruct (user req) as [u|].
  2:{ split; [simpl; discriminate|]. split; [intros r H; discriminate|].
      reflexivity. }
  destruct (is_uuid rid && is_uuid (id u)).
  2:{ split; [simpl; discriminate|]. split; [intros r H; discriminate|].
      reflexivity. }
  destruct (filter (by_id_and_user rid (id u)) table) as [|r [|r' l]] eqn:Hf;
    simpl.
  - split; [discriminate|]. split; [intros r H; discriminate|]. reflexivity.
  - destruct (filter_singleton_member _ _ _ Hf) as [Hin Hp].
    apply by_id_and_user_true in Hp. destruct Hp as [Hid Hown].
    split; [discriminate|]. split.
    + intros x Hx. inversion Hx; subst x. repeat split; auto.
      simpl. rewrite Hown. reflexivity.
    + intros Hnone. exfalso. apply (Hnone r u Hin Hid eq_refl Hown).
  - split; [discriminate|]. split; [intros x H; discriminate|]. reflexivity.
Qed.

(** X24. DELETE /recipes/:id and DELETE /meal-plans/:id, for an
    authenticated caller and well-formed keys: the answer is 200 "... deleted
    successfully" whether or not a row was there to delete; exactly the rows
    with that key owned by the caller are gone, so a row of another user
    stays; looking the key up afterwards answers 500; and deleting again
    changes nothing. *)
Theorem document_delete (Name name rid : string) (req : Request) (u : ReqUser)
  (table : list DocumentRow) :
  user req = Some u -> is_uuid rid = true -> is_uuid (id u) = true ->
  let table' := snd (delete_one is_uuid Name name rid req table) in
  fst (delete_one is_uuid Name name rid req table)
  = json 200 true (Name ++ " deleted successfully")
  /\ (forall r, In r table'
                <-> In r table /\ ~ (d_id r = rid /\ d_user_id r = id u))
  /\ get_one is_uuid Name name rid req table'
     = (json 500 false ("Failed to retrieve " ++ name), None)
  /\ delete_one is_uuid Name name rid req table'
     = (json 200 true (Name ++ " deleted successfully"), table').
Proof.
  intros Hu Hr Hi table'. unfold table', delete_one, deleteRecipe, get_one,
    getRecipeById.
  rewrite Hu, Hr, Hi. simpl.
  split; [reflexivity|]. split; [|split].
  - intros r. rewrite filter_In, negb_true_iff.
    rewrite <- by_id_and_user_true.
    destruct (by_id_and_user rid (id u) r); intuition congruence.
  - rewrite filter_negb_none. reflexivity.
  - rewrite filter_negb_twice. reflexivity.
Qed.

(** X25. PUT /recipes/:id and PUT /meal-plans/:id never touch a row that is
    not the caller's row with that key: whatever the body, the table keeps
    its length and every other row stays in its place. The answer is 200
    only when exactly one row with that key belongs to the caller and the
    database accepted the update; otherwise it is 500 and the table is as it
    was. *)
Theorem document_update (Name name rid : string)
  (updates : DocumentRow -> Outcome DocumentRow) (req : Request)
  (table : list DocumentRow) :
  let res := fst (put_one is_uuid Name name rid updates req table) in
  let table' := snd (put_one is_uuid Name name rid updates req table) in
  length table' = length table
  /\ (forall n r, nth_error table n = Some r ->
        (d_id r <> rid \/ option_map id (user req) <> Some (d_user_id r)) ->
        nth_error table' n = Some r)
  /\ ((res = json 200 true (Name ++ " updated successfully")
       /\ exists u r r',
            user req = Some u
            /\ filter (by_id_and_user rid (id u)) table = [ r ]
            /\ updates r = Ok r')
      \/ (res = json 500 false ("Failed to update " ++ name)
          /\ table' = table)).
Proof.
  unfold put_one, updateRecipe.
  destruct (user req) as [u|];
    [|simpl; split; [reflexivity | split; [auto | right; auto]]].
  destruct (is_uuid rid && is_uuid (id u));
    [|simpl; split; [reflexivity | split; [auto | right; auto]]].
  destruct (filter (by_id_and_user rid (id u)) table) as [|r [|r0 l]] eqn:Hf;
    try (simpl; split; [reflexivity | split; [auto | right; auto]]).
  destruct (updates r) as [r'|e] eqn:Hup;
    [|simpl; split; [reflexivity | split; [auto | right; auto]]].
  simpl. split; [apply length_map|]. split.
  - intros n x Hn Hother.
    rewrite nth_error_map, Hn. simpl.
    destruct (by_id_and_user rid (id u) x) eqn:Hp; [|reflexivity].
    apply by_id_and_user_true in Hp. destruct Hp as [Hid Hown].
    exfalso. destruct Hother as [H|H]; [contradiction|].
    apply H. rewrite Hown. reflexivity.
  - left. split; [reflexivity|]. exists u, r, r'. auto.
Qed.

End DocumentsFacts.

Lemma document_delete_witness :
  let req := Documents.as_user Documents.bo_id in
  let table' :=
    snd (Documents.delete_one Documents.sample_uuid "Recipe" "recipe"
           Documents.soup_id req Documents.sample_table) in
  fst (Documents.delete_one Documents.sample_uuid "Recipe" "recipe"
         Documents.soup_id req Documents.sample_table)
  = json 200 true "Recipe deleted successfully"
  /\ (forall r, In r table'
                <-> In r Documents.sample_table
                    /\ ~ (Documents.d_id r = Documents.soup_id
                          /\ Documents.d_user_id r = Documents.bo_id))
  /\ Documents.get_one Documents.sample_uuid "Recipe" "recipe"
       Documents.soup_id req table'
     = (json 500 false "Failed to retrieve recipe", None)
  /\ Documents.delete_one Documents.sample_uuid "Recipe" "recipe"
       Documents.soup_id req table'
     = (json 200 true "Recipe deleted successfully", table').
Proof.
  apply (document_delete Documents.sample_uuid "Recipe" "recipe"
           Documents.soup_id (Documents.as_user Documents.bo_id)
           {| id := Documents.bo_id; email := "someone@example.com";
              stripeCustomerId := None;
              subscription :=
                {| plan := "free"; status := "active";
                   requestsUsed := 0; requestLimit := 5 |} |}
           Documents.sample_table);
    reflexivity.
Defined.

(** * The month key *)

Lemma string_of_uint_digits (d : Decimal.uint) :
  Clock.digits_only (DecimalString.NilEmpty.string_of_uint d) = true.
Proof. induction d; simpl; auto. Qed.

Lemma number_to_string_digits (n : N) :
  Clock.digits_only (Clock.number_to_string n) = true.
Proof.
  unfold Clock.number_to_string, DecimalString.NilZero.string_of_uint.
  destruct (N.to_uint n); try reflexivity; apply string_of_uint_digits.
Qed.

Lemma number_to_string_inj (n m : N) :
  Clock.number_to_string n = Clock.number_to_string m -> n = m.
Proof.
  unfold Clock.number_to_string. intros H.
  assert (Hn : N.to_uint n <> Decimal.Nil) by (destruct n; discriminate || apply DecimalPos.Unsigned.to_uint_nonnil).
  assert (Hm : N.to_uint m <> Decimal.Nil) by (destruct m; discriminate || apply DecimalPos.Unsigned.to_uint_nonnil).
  pose proof (DecimalString.NilZero.usu _ Hn) as E1.
  pose proof (DecimalString.NilZero.usu _ Hm) as E2.
  rewrite H in E1. rewrite E1 in E2. inversion E2 as [E].
  apply (f_equal N.of_uint) in E.
  rewrite !DecimalN.Unsigned.of_to in E. exact E.
Qed.

Lemma split_at_dash (a a' b b' : string) :
  Clock.digits_only a = true -> Clock.digits_only a' = true ->
  a ++ "-" ++ b = a' ++ "-" ++ b' -> a = a' /\ b = b'.
Proof.
  revert a'. induction a as [|c a IH]; intros [|c' a'] Ha Ha' H; simpl in *.
  - inversion H. auto.
  - inversion H; subst c'. apply andb_true_iff in Ha'. destruct Ha' as [Hd _].
    discriminate.
  - inversion H; subst c. apply andb_true_iff in Ha. destruct Ha as [Hd _].
    discriminate.
  - inversion H; subst c'.
    apply andb_true_iff in Ha. apply andb_true_iff in Ha'.
    destruct (IH a' (proj2 Ha) (proj2 Ha') H2) as [-> ->]. auto.
Qed.

Lemma length_of_append (a b : string) :
  String.length (a ++ b) = (String.length a + String.length b)%nat.
Proof. induction a as [|c a IH]; simpl; [reflexivity | rewrite IH; reflexivity]. Qed.

Lemma four_digit_year (year : N) :
  (1000 <= year <= 9999)%N ->
  String.length (Clock.number_to_string year) = 4%nat.
Proof.
  intros Hy.
  assert (Hall :
    forallb (fun k => (String.length (Clock.number_to_string (N.of_nat k)) =? 4)%nat)
      (seq (Z.to_nat 1000) (Z.to_nat 9000)) = true) by (vm_compute; reflexivity).
  rewrite forallb_forall in Hall.
  assert (Hk : In (N.to_nat year) (seq (Z.to_nat 1000) (Z.to_nat 9000)))
    by (apply in_seq; lia).
  specialize (Hall _ Hk). rewrite Nnat.N2Nat.id in Hall.
  apply Nat.eqb_eq in Hall. exact Hall.
Qed.

Lemma month_cases (m : N) :
  (m <= 11)%N ->
  (m = 0 \/ m = 1 \/ m = 2 \/ m = 3 \/ m = 4 \/ m = 5 \/ m = 6 \/ m = 7
   \/ m = 8 \/ m = 9 \/ m = 10 \/ m = 11)%N.
Proof. lia. Qed.

(** X26. The month key of [getCurrentMonth]. Two dates in different months
    (of the same or of different years) get different keys, so the usage row
    of one month is never taken for that of another; and for a year of four
    digits the key has the seven characters YYYY-MM of the [month] column:
    four digits, a dash and two digits. *)
Theorem month_key_identifies_month (year monthIndex : N) :
  (monthIndex <= 11)%N ->
  (forall year' monthIndex',
     (monthIndex' <= 11)%N ->
     Clock.getCurrentMonth year monthIndex
     = Clock.getCurrentMonth year' monthIndex' ->
     year = year' /\ monthIndex = monthIndex')
  /\ ((1000 <= year <= 9999)%N ->
      exists yyyy mm,
        Clock.getCurrentMonth year monthIndex = yyyy ++ "-" ++ mm
        /\ String.length yyyy = 4%nat /\ Clock.digits_only yyyy = true
        /\ String.length mm = 2%nat /\ Clock.digits_only mm = true).
Proof.
  intros Hm. split.
  - intros y' m' Hm' H. unfold Clock.getCurrentMonth in H.
    apply split_at_dash in H; try apply number_to_string_digits.
    destruct H as [Hy Hmm]. split; [apply number_to_string_inj; exact Hy|].
    pose proof (month_cases _ Hm) as E. pose proof (month_cases _ Hm') as E'.
    clear Hm Hm' Hy.
    repeat (destruct E as [E|E]); subst monthIndex;
      repeat (destruct E' as [E'|E']); subst m';
      vm_compute in Hmm; first [reflexivity | discriminate Hmm].
  - intros Hy.
    exists (Clock.number_to_string year),
      (Clock.padStart2 (Clock.number_to_string (monthIndex + 1))).
    split; [reflexivity|]. split; [apply four_digit_year; exact Hy|].
    split; [apply number_to_string_digits|].
    pose proof (month_cases _ Hm) as E.
    repeat (destruct E as [E|E]); subst monthIndex; split; reflexivity.
Qed.

Lemma month_key_identifies_month_witness :
  Clock.getCurrentMonth 2025 6 = "2025-07"
  /\ (forall year' monthIndex',
        (monthIndex' <= 11)%N ->
        Clock.getCurrentMonth 2025 6 = Clock.getCurrentMonth year' monthIndex' ->
        2025%N = year' /\ 6%N = monthIndex').
Proof.
  split; [reflexivity|].
  apply (month_key_identifies_month 2025 6). discriminate.
Defined.
